(** * doc_reader: the receipt / credit-note classifier

    A shallow embedding of [backend/app.py] (the serving variant) and of the
    filing logic of [classifier.py] (the original single-script variant),
    with the properties of the job pipeline proved over it.

    Layout: Python values (exceptions, floats, JSON), the job record, the
    pipeline worker [process_job] as a machine whose control points are the
    loop heads of the source, the controller operations, then the theorems. *)

From stdpp Require Import gmap strings list fin_maps pretty.
From Stdlib Require Import ZArith Lia.

Local Open Scope string_scope.
Local Open Scope Z_scope.

(** ** Python exceptions and results *)

(** An exception is its class name and [str(e)]. *)
Record exn := Exn { exn_type : string; exn_msg : string }.

Inductive result (A : Type) : Type :=
| Ok (a : A)
| Raise (e : exn).
Arguments Ok {A} a.
Arguments Raise {A} e.

Definition RuntimeError (msg : string) : exn := Exn "RuntimeError" msg.
Definition ValueError (msg : string) : exn := Exn "ValueError" msg.
Definition OverflowError (msg : string) : exn := Exn "OverflowError" msg.
Definition ZeroDivisionError (msg : string) : exn := Exn "ZeroDivisionError" msg.

(** ** Python floats (IEEE 754 binary64)

    [job.processed_pages / job.total_pages] is a true division of two
    Python ints: the result is the binary64 number nearest to the exact
    quotient (ties to even).  A finite float is kept as sign, integer
    significand and exponent: [FFin neg m e] is [(-1)^neg * m * 2^e]. *)
Module Float.

Inductive float : Type :=
| FNaN
| FInf (neg : bool)
| FFin (neg : bool) (m : Z) (e : Z).

Definition prec : Z := 53.
Definition emin : Z := -1074.
Definition emax : Z := 971.

(** The exponent [e] of the binade of [n / d] ([n, d > 0]): the largest
    one with [2^52 <= n / (d * 2^e)], never below [emin] (subnormals). *)
Definition binade (n d : Z) : Z :=
  let e0 := Z.log2 n - Z.log2 d - (prec - 1) in
  let num := n * 2 ^ Z.max 0 (- e0) in
  let den := d * 2 ^ Z.max 0 e0 in
  let e1 := if num <? den * 2 ^ (prec - 1) then e0 - 1 else e0 in
  Z.max emin e1.

Definition round_half_even (q r den : Z) : Z :=
  match 2 * r ?= den with
  | Lt => q
  | Gt => q + 1
  | Eq => if Z.even q then q else q + 1
  end.

(** [round_mag n d] rounds the positive rational [n / d] to binary64:
    [Some (m, e)] stands for [m * 2^e], [None] is overflow. *)
Definition round_mag (n d : Z) : option (Z * Z) :=
  let e := binade n d in
  let num := n * 2 ^ Z.max 0 (- e) in
  let den := d * 2 ^ Z.max 0 e in
  let m := round_half_even (num / den) (num mod den) den in
  let '(m, e) := if m =? 2 ^ prec then (2 ^ (prec - 1), e + 1) else (m, e) in
  if emax <? e then None else Some (m, e).

(** [a / b] on Python ints. *)
Definition int_truediv (a b : Z) : result float :=
  if b =? 0 then Raise (ZeroDivisionError "division by zero")
  else
    let neg := xorb (a <? 0) (b <? 0) in
    if a =? 0 then Ok (FFin neg 0 0)
    else match round_mag (Z.abs a) (Z.abs b) with
         | Some (m, e) => Ok (FFin neg m e)
         | None => Raise (OverflowError "integer division result too large for a float")
         end.

(** [float(k)] for a Python int. *)
Definition of_int (k : Z) : result float :=
  if k =? 0 then Ok (FFin false 0 0)
  else match round_mag (Z.abs k) 1 with
       | Some (m, e) => Ok (FFin (k <? 0) m e)
       | None => Raise (OverflowError "int too large to convert to float")
       end.

(** [x * y] on floats: the exact product, rounded; overflow gives an
    infinity, not an exception. *)
Definition mul (x y : float) : float :=
  match x, y with
  | FNaN, _ | _, FNaN => FNaN
  | FInf s, FInf t => FInf (xorb s t)
  | FInf s, FFin t m _ | FFin t m _, FInf s =>
      if m =? 0 then FNaN else FInf (xorb s t)
  | FFin s m1 e1, FFin t m2 e2 =>
      let neg := xorb s t in
      let m := m1 * m2 in
      let e := e1 + e2 in
      if m =? 0 then FFin neg 0 0
      else match round_mag (m * 2 ^ Z.max 0 e) (2 ^ Z.max 0 (- e)) with
           | Some (m', e') => FFin neg m' e'
           | None => FInf neg
           end
  end.

(** [x * k] with a Python int [k]: the int is converted first. *)
Definition mul_int (x : float) (k : Z) : result float :=
  match of_int k with
  | Ok y => Ok (mul x y)
  | Raise e => Raise e
  end.

(** Exact comparison of a float with a Python int; [None] for NaN, which
    makes every ordering test false. *)
Definition compare_int (x : float) (k : Z) : option comparison :=
  match x with
  | FNaN => None
  | FInf neg => Some (if neg then Lt else Gt)
  | FFin neg m e =>
      let sm := if neg then - m else m in
      Some (if 0 <=? e then sm * 2 ^ e ?= k else sm ?= k * 2 ^ (- e))
  end.

Definition ltb_int (x : float) (k : Z) : bool :=
  match compare_int x k with Some Lt => true | _ => false end.

Definition gtb_int (x : float) (k : Z) : bool :=
  match compare_int x k with Some Gt => true | _ => false end.

Definition is_zero (x : float) : bool :=
  match x with FFin _ m _ => m =? 0 | _ => false end.

(** [int(x)]: truncation toward zero. *)
Definition to_int (x : float) : result Z :=
  match x with
  | FNaN => Raise (ValueError "cannot convert float NaN to integer")
  | FInf _ => Raise (OverflowError "cannot convert float infinity to integer")
  | FFin neg m e =>
      let mag := if 0 <=? e then m * 2 ^ e else m / 2 ^ (- e) in
      Ok (if neg then - mag else mag)
  end.

End Float.
Import Float.

(** A Python number as [safe_pct] may receive it: the worker passes a float,
    the exception handler passes the int [job.progress_pct]. *)
Inductive pynum : Type :=
| PInt (z : Z)
| PFloat (x : float).

Definition lt_int (x : pynum) (k : Z) : bool :=
  match x with PInt z => z <? k | PFloat f => ltb_int f k end.

Definition gt_int (x : pynum) (k : Z) : bool :=
  match x with PInt z => k <? z | PFloat f => gtb_int f k end.

Definition py_int (x : pynum) : result Z :=
  match x with PInt z => Ok z | PFloat f => to_int f end.

(** app.py, lines 83-88. *)
Definition safe_pct (x : pynum) : result Z :=
  if lt_int x 0 then Ok 0
  else if gt_int x 100 then Ok 100
  else py_int x.

(** ** JSON values and Python truthiness *)

#[warnings="-register-all"]
Inductive json : Type :=
| JNull
| JBool (b : bool)
| JInt (z : Z)
| JFloat (x : float)
| JStr (s : string)
| JArr (l : list json)
| JObj (kv : list (string * json)).

(** [bool(v)] for the Python value that [json.loads] builds from [v]. *)
Definition py_bool (v : json) : bool :=
  match v with
  | JNull => false
  | JBool b => b
  | JInt z => negb (z =? 0)
  | JFloat x => negb (is_zero x)
  | JStr s => negb (bool_decide (s = ""))
  | JArr l => match l with [] => false | _ => true end
  | JObj kv => match kv with [] => false | _ => true end
  end.

(** The dict returned by the oracle; [d.get(k, v)] is [dict_get]. *)
Abbreviation dict := (gmap string json).

Definition dict_get (d : dict) (k : string) (dflt : json) : json :=
  default dflt (d !! k).

Definition dict_has (d : dict) (k : string) : bool :=
  bool_decide (is_Some (d !! k)).

(** ** Paths, files and rows *)

(** A [pathlib.Path] is the list of its [parts]; [p / s] appends. *)
Abbreviation path := (list string).

Definition pjoin (p : path) (s : string) : path := (p ++ [s])%list.
Infix "</>" := pjoin (at level 40, left associativity).

(** One dict of [all_rows]; [document_data] and [stamp_details] keep the
    oracle's values ([json.dumps] of the former is what the CSV shows). *)
Record Row := mkRow {
  source_pdf : string;
  page : nat;
  row_status : string;
  is_receipt : bool;
  has_stamp : bool;
  stamp_details : json;
  document_data : json
}.

Inductive file : Type :=
| PdfDoc (name : string)
| Png (image : N)
| CsvFile (header : list string) (rows : list Row)
| ZipFile (arcnames : gset path).

Abbreviation FS := (gmap path file).

(** ** Job state (app.py, lines 46-69) *)

(** One constructor per [job_log] call site, carrying the values that the
    f-string interpolates. *)
Inductive log_line : Type :=
| LogStarted (job_id : string) (dpi : Z) (sleep : float) (model : string)
| LogCancelDoc
| LogProcessing (name : string)
| LogCancelMid
| LogNone (page_num : nat)
| LogGroqError (page_num : nat) (err : json)
| LogFiled (page_num : nat) (label : string)
| LogCompleted (name : string)
| LogCsvSaved (name : string)
| LogFinished
| LogJobError (err : string)
| LogCancelByUser.

Record JobState := mkJob {
  job_id : string;
  status : string;
  progress_pct : Z;
  message : string;
  error : option string;
  cancel_requested : bool;
  log : list log_line;
  total_pages : Z;
  processed_pages : Z;
  job_dir : path;
  input_dir : path;
  output_dir : path;
  csv_path : option path;
  zip_all : option path;
  zip_receipts_unstamped : option path;
  zip_receipts_stamped : option path;
  zip_credit_notes : option path
}.

Definition set_status (v : string) (j : JobState) : JobState :=
  {| job_id := job_id j; status := v; progress_pct := progress_pct j; message := message j; error := error j; cancel_requested := cancel_requested j; log := log j; total_pages := total_pages j; processed_pages := processed_pages j; job_dir := job_dir j; input_dir := input_dir j; output_dir := output_dir j; csv_path := csv_path j; zip_all := zip_all j; zip_receipts_unstamped := zip_receipts_unstamped j; zip_receipts_stamped := zip_receipts_stamped j; zip_credit_notes := zip_credit_notes j |}.

Definition set_progress_pct (v : Z) (j : JobState) : JobState :=
  {| job_id := job_id j; status := status j; progress_pct := v; message := message j; error := error j; cancel_requested := cancel_requested j; log := log j; total_pages := total_pages j; processed_pages := processed_pages j; job_dir := job_dir j; input_dir := input_dir j; output_dir := output_dir j; csv_path := csv_path j; zip_all := zip_all j; zip_receipts_unstamped := zip_receipts_unstamped j; zip_receipts_stamped := zip_receipts_stamped j; zip_credit_notes := zip_credit_notes j |}.

Definition set_message (v : string) (j : JobState) : JobState :=
  {| job_id := job_id j; status := status j; progress_pct := progress_pct j; message := v; error := error j; cancel_requested := cancel_requested j; log := log j; total_pages := total_pages j; processed_pages := processed_pages j; job_dir := job_dir j; input_dir := input_dir j; output_dir := output_dir j; csv_path := csv_path j; zip_all := zip_all j; zip_receipts_unstamped := zip_receipts_unstamped j; zip_receipts_stamped := zip_receipts_stamped j; zip_credit_notes := zip_credit_notes j |}.

Definition set_error (v : option string) (j : JobState) : JobState :=
  {| job_id := job_id j; status := status j; progress_pct := progress_pct j; message := message j; error := v; cancel_requested := cancel_requested j; log := log j; total_pages := total_pages j; processed_pages := processed_pages j; job_dir := job_dir j; input_dir := input_dir j; output_dir := output_dir j; csv_path := csv_path j; zip_all := zip_all j; zip_receipts_unstamped := zip_receipts_unstamped j; zip_receipts_stamped := zip_receipts_stamped j; zip_credit_notes := zip_credit_notes j |}.

Definition set_cancel_requested (v : bool) (j : JobState) : JobState :=
  {| job_id := job_id j; status := status j; progress_pct := progress_pct j; message := message j; error := error j; cancel_requested := v; log := log j; total_pages := total_pages j; processed_pages := processed_pages j; job_dir := job_dir j; input_dir := input_dir j; output_dir := output_dir j; csv_path := csv_path j; zip_all := zip_all j; zip_receipts_unstamped := zip_receipts_unstamped j; zip_receipts_stamped := zip_receipts_stamped j; zip_credit_notes := zip_credit_notes j |}.

Definition set_log (v : list log_line) (j : JobState) : JobState :=
  {| job_id := job_id j; status := status j; progress_pct := progress_pct j; message := message j; error := error j; cancel_requested := cancel_requested j; log := v; total_pages := total_pages j; processed_pages := processed_pages j; job_dir := job_dir j; input_dir := input_dir j; output_dir := output_dir j; csv_path := csv_path j; zip_all := zip_all j; zip_receipts_unstamped := zip_receipts_unstamped j; zip_receipts_stamped := zip_receipts_stamped j; zip_credit_notes := zip_credit_notes j |}.

Definition set_total_pages (v : Z) (j : JobState) : JobState :=
  {| job_id := job_id j; status := status j; progress_pct := progress_pct j; message := message j; error := error j; cancel_requested := cancel_requested j; log := log j; total_pages := v; processed_pages := processed_pages j; job_dir := job_dir j; input_dir := input_dir j; output_dir := output_dir j; csv_path := csv_path j; zip_all := zip_all j; zip_receipts_unstamped := zip_receipts_unstamped j; zip_receipts_stamped := zip_receipts_stamped j; zip_credit_notes := zip_credit_notes j |}.

Definition set_processed_pages (v : Z) (j : JobState) : JobState :=
  {| job_id := job_id j; status := status j; progress_pct := progress_pct j; message := message j; error := error j; cancel_requested := cancel_requested j; log := log j; total_pages := total_pages j; processed_pages := v; job_dir := job_dir j; input_dir := input_dir j; output_dir := output_dir j; csv_path := csv_path j; zip_all := zip_all j; zip_receipts_unstamped := zip_receipts_unstamped j; zip_receipts_stamped := zip_receipts_stamped j; zip_credit_notes := zip_credit_notes j |}.

Definition set_csv_path (v : option path) (j : JobState) : JobState :=
  {| job_id := job_id j; status := status j; progress_pct := progress_pct j; message := message j; error := error j; cancel_requested := cancel_requested j; log := log j; total_pages := total_pages j; processed_pages := processed_pages j; job_dir := job_dir j; input_dir := input_dir j; output_dir := output_dir j; csv_path := v; zip_all := zip_all j; zip_receipts_unstamped := zip_receipts_unstamped j; zip_receipts_stamped := zip_receipts_stamped j; zip_credit_notes := zip_credit_notes j |}.

Definition set_zip_all (v : option path) (j : JobState) : JobState :=
  {| job_id := job_id j; status := status j; progress_pct := progress_pct j; message := message j; error := error j; cancel_requested := cancel_requested j; log := log j; total_pages := total_pages j; processed_pages := processed_pages j; job_dir := job_dir j; input_dir := input_dir j; output_dir := output_dir j; csv_path := csv_path j; zip_all := v; zip_receipts_unstamped := zip_receipts_unstamped j; zip_receipts_stamped := zip_receipts_stamped j; zip_credit_notes := zip_credit_notes j |}.

Definition set_zip_receipts_unstamped (v : option path) (j : JobState) : JobState :=
  {| job_id := job_id j; status := status j; progress_pct := progress_pct j; message := message j; error := error j; cancel_requested := cancel_requested j; log := log j; total_pages := total_pages j; processed_pages := processed_pages j; job_dir := job_dir j; input_dir := input_dir j; output_dir := output_dir j; csv_path := csv_path j; zip_all := zip_all j; zip_receipts_unstamped := v; zip_receipts_stamped := zip_receipts_stamped j; zip_credit_notes := zip_credit_notes j |}.

Definition set_zip_receipts_stamped (v : option path) (j : JobState) : JobState :=
  {| job_id := job_id j; status := status j; progress_pct := progress_pct j; message := message j; error := error j; cancel_requested := cancel_requested j; log := log j; total_pages := total_pages j; processed_pages := processed_pages j; job_dir := job_dir j; input_dir := input_dir j; output_dir := output_dir j; csv_path := csv_path j; zip_all := zip_all j; zip_receipts_unstamped := zip_receipts_unstamped j; zip_receipts_stamped := v; zip_credit_notes := zip_credit_notes j |}.

Definition set_zip_credit_notes (v : option path) (j : JobState) : JobState :=
  {| job_id := job_id j; status := status j; progress_pct := progress_pct j; message := message j; error := error j; cancel_requested := cancel_requested j; log := log j; total_pages := total_pages j; processed_pages := processed_pages j; job_dir := job_dir j; input_dir := input_dir j; output_dir := output_dir j; csv_path := csv_path j; zip_all := zip_all j; zip_receipts_unstamped := zip_receipts_unstamped j; zip_receipts_stamped := zip_receipts_stamped j; zip_credit_notes := v |}.

(** The dataclass defaults, as [start_process] builds the record
    (lines 366-387). *)
Definition new_job (jobs_dir : path) (id : string) : JobState :=
  let dir := jobs_dir </> id in
  {| job_id := id; status := "queued"; progress_pct := 0; message := "Queued";
     error := None; cancel_requested := false; log := [];
     total_pages := 0; processed_pages := 0;
     job_dir := dir; input_dir := dir </> "input"; output_dir := dir </> "output";
     csv_path := None; zip_all := None; zip_receipts_unstamped := None;
     zip_receipts_stamped := None; zip_credit_notes := None |}.

(** app.py, lines 76-80. *)
Definition job_log (line : log_line) (j : JobState) : JobState :=
  let l := (log j ++ [line])%list in
  set_log (if (4000 <? length l)%nat then drop (length l - 2000)%nat l else l) j.

(** ** The external collaborators

    A page is the raster image the renderer returns for it, together with
    what the inference service answers when that image is submitted: an
    exception anywhere inside the [try] of [get_groq_analysis] (transport,
    rate limit, undecodable JSON), or the decoded content, which is a dict
    or [None] (the declared return type is [Optional[dict]]). *)
Inductive api_response : Type :=
| ApiError (msg : string)
| ApiContent (v : option dict).

Record Page := mkPage { image : N; response : api_response }.

(** An uploaded document as the sorted [glob] of line 180 lists it: its
    file name and [stem], what [pdfinfo_from_path] computes for it (the
    integer under the key Pages, 0 without it, or an exception), and what
    [convert_from_path] returns for it. *)
Record Pdf := mkPdf {
  pdf_name : string;
  pdf_stem : string;
  pdfinfo_pages : result Z;
  rendered : result (list Page)
}.

(** The module globals and the arguments of [process_job]. *)
Record Env := mkEnv {
  client : bool;              (* [client is not None] *)
  pdfinfo_from_path : bool;   (* [pdfinfo_from_path is not None] *)
  dpi : Z;
  sleep_sec : float;
  model_name : string
}.

(** app.py, lines 94-146. *)
Definition get_groq_analysis (env : Env) (p : Page) : result (option dict) :=
  if negb (client env) then
    Raise (RuntimeError "GROQ_API_KEY not set or Groq client not initialized.")
  else
    match response p with
    | ApiContent v => Ok v
    | ApiError msg => Ok (Some {[ "__error__" := JStr msg ]})
    end.

(** ** The worker's state and its monad

    [process_job] mutates the shared job record and the file system, and
    keeps [all_rows] as a local; any statement of its [try] body may raise.
    A computation returns a value or an exception, and in both cases the
    state reached.  The exceptions kept are those of the code itself (no
    PDF found, no client), of the renderer, of the float arithmetic and of
    the move of the source document; [mkdir], [page.save] and the CSV and
    archive writers are taken to succeed. *)
Record State := mkState { job : JobState; fs : FS; all_rows : list Row }.

Definition M (A : Type) : Type := State -> result A * State.

#[global] Instance M_ret : MRet M := fun A a s => (Ok a, s).

#[global] Instance M_bind : MBind M := fun A B f m s =>
  match m s with
  | (Ok a, s') => f a s'
  | (Raise e, s') => (Raise e, s')
  end.

Definition raise {A} (e : exn) : M A := fun s => (Raise e, s).

Definition lift {A} (r : result A) : M A := fun s => (r, s).

Definition read_job : M JobState := fun s => (Ok (job s), s).

Definition modify_job (f : JobState -> JobState) : M unit :=
  fun s => (Ok tt, {| job := f (job s); fs := fs s; all_rows := all_rows s |}).

Definition get_fs : M FS := fun s => (Ok (fs s), s).

Definition put_fs (t : FS) : M unit :=
  fun s => (Ok tt, {| job := job s; fs := t; all_rows := all_rows s |}).

Definition get_rows : M (list Row) := fun s => (Ok (all_rows s), s).

Definition put_rows (rows : list Row) : M unit :=
  fun s => (Ok tt, {| job := job s; fs := fs s; all_rows := rows |}).

Definition write_file (p : path) (f : file) : M unit :=
  t ← get_fs; put_fs (<[p := f]> t).

Definition jlog (line : log_line) : M unit := modify_job (job_log line).

(** ** The pipeline worker (app.py, lines 172-339)

    The worker runs in a thread of its own while the controller polls and
    cancels.  Its control points are the places of [process_job] between
    which it runs without looking at [cancel_requested]: before the call,
    the head of the document loop (line 199), the head of the page loop
    (line 226), the oracle call of a page (line 239), and after return.
    Between two control points each of [progress_pct], [processed_pages]
    and [total_pages] takes at most one new value. *)
Inductive control : Type :=
| Queued (input_pdfs : list Pdf)
| AtDoc (todo : list Pdf)
| AtPage (pdf_file : Pdf) (pages : list Page) (i : nat) (rest : list Pdf)
| InPage (pdf_file : Pdf) (pages : list Page) (i : nat) (page : Page) (rest : list Pdf)
| Returned.

(** Lines 236-237 and 283-284. *)
Definition update_progress : M unit :=
  j ← read_job;
  if 0 <? total_pages j then
    q ← lift (int_truediv (processed_pages j) (total_pages j));
    x ← lift (mul_int q 100);
    n ← lift (safe_pct (PFloat x));
    modify_job (set_progress_pct n)
  else mret tt.

(** Lines 201-204 and 228-231. *)
Definition cancel_stop (line : log_line) : M control :=
  modify_job (set_status "cancelled");;
  modify_job (set_message "Cancelled");;
  jlog line;;
  mret Returned.

(** Lines 174-197. *)
Definition start_block (env : Env) (input_pdfs : list Pdf) : M control :=
  modify_job (set_status "running");;
  modify_job (set_message "Starting…");;
  modify_job (set_progress_pct 1);;
  j ← read_job;
  jlog (LogStarted (job_id j) (dpi env) (sleep_sec env) (model_name env));;
  put_rows [];;
  match input_pdfs with
  | [] => raise (RuntimeError "No PDFs found in upload.")
  | _ =>
      let total_pages_est :=
        if pdfinfo_from_path env then
          foldl (fun est pdf => match pdfinfo_pages pdf with
                                | Ok n => est + n
                                | Raise _ => est
                                end) 0 input_pdfs
        else 0 in
      modify_job (set_total_pages (if 0 <? total_pages_est then total_pages_est else 0));;
      mret (AtDoc input_pdfs)
  end.

(** Lines 200-224; the three [mkdir] calls leave no trace, directories
    being implicit in [FS]. *)
Definition doc_block (pdf_file : Pdf) (rest : list Pdf) : M control :=
  j ← read_job;
  if cancel_requested j then cancel_stop LogCancelDoc
  else
    jlog (LogProcessing (pdf_name pdf_file));;
    pages ← lift (rendered pdf_file);
    j ← read_job;
    (if total_pages j =? 0
     then modify_job (set_total_pages (total_pages j + Z.of_nat (length pages)))
     else mret tt);;
    mret (AtPage pdf_file pages 0 rest).

(** Lines 227-237. *)
Definition page_head (pdf_file : Pdf) (pages : list Page) (i : nat)
    (page : Page) (rest : list Pdf) : M control :=
  j ← read_job;
  if cancel_requested j then cancel_stop LogCancelMid
  else
    let page_num := S i in
    modify_job (set_message (pdf_name pdf_file +:+ ": page " +:+ pretty page_num
                             +:+ "/" +:+ pretty (length pages)));;
    update_progress;;
    mret (InPage pdf_file pages i page rest).

(** Lines 258-267: the directory below [pdf_output_dir] and the label. *)
Definition filing (is_receipt has_stamp : bool) : path * string :=
  if is_receipt then
    if has_stamp then (["receipts"; "stamped"], "STAMPED_RECEIPT")
    else (["receipts"; "unstamped"], "UNSTAMPED_RECEIPT")
  else (["credit_notes"], "CREDIT_NOTE").

(** Lines 239-288; [time.sleep] only delays the next page. *)
Definition page_body (env : Env) (pdf_file : Pdf) (pages : list Page) (i : nat)
    (page : Page) (rest : list Pdf) : M control :=
  let page_num := S i in
  let continue := AtPage pdf_file pages (S i) rest in
  analysis ← lift (get_groq_analysis env page);
  match analysis with
  | None => jlog (LogNone page_num);; mret continue
  | Some analysis =>
      if dict_has analysis "__error__" then
        jlog (LogGroqError page_num (dict_get analysis "__error__" JNull));;
        modify_job (fun j => set_processed_pages (processed_pages j + 1) j);;
        mret continue
      else
        let is_receipt := py_bool (dict_get analysis "is_receipt" (JBool false)) in
        let has_stamp := py_bool (dict_get analysis "has_stamp" (JBool false)) in
        let img_filename := "page_" +:+ pretty page_num +:+ ".png" in
        let '(subdir, status) := filing is_receipt has_stamp in
        j ← read_job;
        let pdf_output_dir := output_dir j </> pdf_stem pdf_file in
        let target_path := (pdf_output_dir ++ subdir)%list </> img_filename in
        write_file target_path (Png (image page));;
        jlog (LogFiled page_num status);;
        rows ← get_rows;
        put_rows (rows ++ [{| source_pdf := pdf_name pdf_file;
                              page := page_num;
                              row_status := status;
                              is_receipt := is_receipt;
                              has_stamp := has_stamp;
                              stamp_details := dict_get analysis "detected_stamp_details" (JStr "");
                              document_data := dict_get analysis "document_data" (JObj []) |}])%list;;
        modify_job (fun j => set_processed_pages (processed_pages j + 1) j);;
        update_progress;;
        mret continue
  end.

(** Lines 290-292: [shutil.move] of the source document, which raises
    when the source is gone (the text of the OS error is shortened). *)
Definition doc_end (pdf_file : Pdf) (rest : list Pdf) : M control :=
  j ← read_job;
  t ← get_fs;
  let src := input_dir j </> pdf_name pdf_file in
  let dst := output_dir j </> pdf_stem pdf_file </> pdf_name pdf_file in
  match t !! src with
  | None => raise (Exn "FileNotFoundError" "No such file or directory")
  | Some f =>
      put_fs (<[dst := f]> (delete src t));;
      jlog (LogCompleted (pdf_name pdf_file));;
      mret (AtDoc rest)
  end.

(** [p.relative_to(root)], for [p] at or below [root]. *)
Fixpoint relative_to (root p : path) : option path :=
  match root, p with
  | [], _ => Some p
  | r :: root', s :: p' => if decide (r = s) then relative_to root' p' else None
  | _ :: _, [] => None
  end.

(** The [arcname]s that [zip_filtered_output] writes (lines 162-169):
    the files below [output_root] that pass [filter_fn]. *)
Definition zip_members (output_root : path) (filter_fn : path -> bool) (t : FS) : gset path :=
  list_to_set (omap (fun p => if filter_fn p then relative_to output_root p else None)
                    (elements (dom t))).

Definition zip_filtered_output (output_root zip_path : path) (filter_fn : path -> bool) : M unit :=
  t ← get_fs;
  write_file zip_path (ZipFile (zip_members output_root filter_fn t)).

(** Lines 152-159: the same loop without a filter. *)
Definition zip_folder (src_dir zip_path : path) : M unit :=
  zip_filtered_output src_dir zip_path (fun _ => true).

(** Lines 316-323. *)
Definition is_unstamped (p : path) : bool :=
  bool_decide ("receipts" ∈ p) && bool_decide ("unstamped" ∈ p).

Definition is_stamped (p : path) : bool :=
  bool_decide ("receipts" ∈ p) && bool_decide ("stamped" ∈ p).

Definition is_credit (p : path) : bool := bool_decide ("credit_notes" ∈ p).

Definition csv_headers : list string :=
  ["source_pdf"; "page"; "status"; "is_receipt"; "has_stamp"; "stamp_details"; "document_data"].

(** Lines 294-332. *)
Definition finish_block : M control :=
  rows ← get_rows;
  j ← read_job;
  (match rows with
   | [] => mret tt
   | _ =>
       let p := job_dir j </> "classification_log.csv" in
       modify_job (set_csv_path (Some p));;
       write_file p (CsvFile csv_headers rows);;
       jlog (LogCsvSaved "classification_log.csv")
   end);;
  let zips_dir := job_dir j </> "zips" in
  modify_job (set_zip_all (Some (zips_dir </> "all_output.zip")));;
  zip_folder (output_dir j) (zips_dir </> "all_output.zip");;
  modify_job (set_zip_receipts_unstamped (Some (zips_dir </> "receipts_unstamped.zip")));;
  modify_job (set_zip_receipts_stamped (Some (zips_dir </> "receipts_stamped.zip")));;
  modify_job (set_zip_credit_notes (Some (zips_dir </> "credit_notes.zip")));;
  zip_filtered_output (output_dir j) (zips_dir </> "receipts_unstamped.zip") is_unstamped;;
  zip_filtered_output (output_dir j) (zips_dir </> "receipts_stamped.zip") is_stamped;;
  zip_filtered_output (output_dir j) (zips_dir </> "credit_notes.zip") is_credit;;
  modify_job (set_progress_pct 100);;
  modify_job (set_status "done");;
  modify_job (set_message "Complete");;
  jlog LogFinished;;
  mret Returned.

(** Lines 334-339: the handler of the top-level [try]. *)
Definition except_block (e : exn) : M unit :=
  modify_job (set_status "error");;
  modify_job (set_error (Some (exn_msg e)));;
  modify_job (set_message "Error");;
  jlog (LogJobError (exn_msg e));;
  j ← read_job;
  n ← lift (safe_pct (PInt (progress_pct j)));
  modify_job (set_progress_pct n).

(** The code that runs from one control point to the next. *)
Definition block (env : Env) (pc : control) : M control :=
  match pc with
  | Queued input_pdfs => start_block env input_pdfs
  | AtDoc [] => finish_block
  | AtDoc (pdf_file :: rest) => doc_block pdf_file rest
  | AtPage pdf_file pages i rest =>
      match pages !! i with
      | Some page => page_head pdf_file pages i page rest
      | None => doc_end pdf_file rest
      end
  | InPage pdf_file pages i page rest => page_body env pdf_file pages i page rest
  | Returned => mret Returned
  end.

Record Config := mkConfig { st : State; pc : control }.

(** One move of the worker thread: the block at the current control
    point, inside the [try] of [process_job]. *)
Definition step (env : Env) (c : Config) : Config :=
  match block env (pc c) (st c) with
  | (Ok pc', s) => {| st := s; pc := pc' |}
  | (Raise e, s) => {| st := snd (except_block e s); pc := Returned |}
  end.

(** [process_job] without interference: the worker's moves one after the
    other, until it returns. *)
Fixpoint process_job (env : Env) (fuel : nat) (c : Config) : Config :=
  match fuel with
  | O => c
  | S fuel' =>
      match pc c with
      | Returned => c
      | _ => process_job env fuel' (step env c)
      end
  end.

(** ** The controller (app.py, lines 356-472) *)

Inductive http (A : Type) : Type :=
| Response (a : A)
| HTTPException (status_code : Z) (detail : string).
Arguments Response {A} a.
Arguments HTTPException {A} status_code detail.

Abbreviation Jobs := (gmap string JobState).

(** What [POST /api/process] leaves behind for a fresh identifier: the
    uploads saved under [input/], the job record, and a worker thread that
    has not run yet.  [input_pdfs] is what the worker's [glob] will list. *)
Definition start_process (jobs_dir : path) (id : string) (input_pdfs : list Pdf) : Config :=
  let j := new_job jobs_dir id in
  {| st := {| job := j;
              fs := list_to_map (map (fun d => (input_dir j </> pdf_name d, PdfDoc (pdf_name d)))
                                     input_pdfs);
              all_rows := [] |};
     pc := Queued input_pdfs |}.

Record Snapshot := mkSnapshot {
  snap_job_id : string;
  snap_status : string;
  snap_progress_pct : Z;
  snap_message : string;
  snap_error : option string;
  snap_processed_pages : Z;
  snap_total_pages : Z;
  snap_downloads : option (list (string * string));
  snap_log_tail : list log_line
}.

(** Lines 398-427. *)
Definition get_job (JOBS : Jobs) (id : string) : http Snapshot :=
  match JOBS !! id with
  | None => HTTPException 404 "Job not found"
  | Some j =>
      let downloads :=
        if bool_decide (status j = "done") then
          Some [("receipts_unstamped_zip", "/api/job/" +:+ id +:+ "/download/receipts_unstamped");
                ("receipts_stamped_zip", "/api/job/" +:+ id +:+ "/download/receipts_stamped");
                ("credit_notes_zip", "/api/job/" +:+ id +:+ "/download/credit_notes");
                ("all_zip", "/api/job/" +:+ id +:+ "/download/all");
                ("csv_log", "/api/job/" +:+ id +:+ "/download/csv")]
        else None in
      Response {| snap_job_id := job_id j;
                  snap_status := status j;
                  snap_progress_pct := progress_pct j;
                  snap_message := message j;
                  snap_error := error j;
                  snap_processed_pages := processed_pages j;
                  snap_total_pages := total_pages j;
                  snap_downloads := downloads;
                  snap_log_tail := drop (length (log j) - 40)%nat (log j) |}
  end.

(** Lines 437-438, on the job record. *)
Definition request_cancel (j : JobState) : JobState :=
  job_log LogCancelByUser (set_cancel_requested true j).

(** Lines 430-439. *)
Definition cancel_job (JOBS : Jobs) (id : string) : Jobs * http bool :=
  match JOBS !! id with
  | None => (JOBS, HTTPException 404 "Job not found")
  | Some j => (<[id := request_cancel j]> JOBS, Response true)
  end.

(** Lines 442-472: the path and file name of the [FileResponse]. *)
Definition download (JOBS : Jobs) (t : FS) (id kind : string) : http (path * string) :=
  match JOBS !! id with
  | None => HTTPException 404 "Job not found"
  | Some j =>
      if negb (bool_decide (status j = "done")) then
        HTTPException 400 "Job not completed yet"
      else
        let choice :=
          if bool_decide (kind = "all") then Some (zip_all j, "all_output.zip")
          else if bool_decide (kind = "receipts_unstamped")
               then Some (zip_receipts_unstamped j, "receipts_unstamped.zip")
          else if bool_decide (kind = "receipts_stamped")
               then Some (zip_receipts_stamped j, "receipts_stamped.zip")
          else if bool_decide (kind = "credit_notes")
               then Some (zip_credit_notes j, "credit_notes.zip")
          else if bool_decide (kind = "csv") then Some (csv_path j, "classification_log.csv")
          else None in
        match choice with
        | None => HTTPException 404 "Unknown download type"
        | Some (None, _) => HTTPException 404 "File not found"
        | Some (Some p, name) =>
            if negb (bool_decide (is_Some (t !! p))) then HTTPException 404 "File not found"
            else Response (p, name)
        end
  end.

(** ** Worker and controller interleaved

    While a job runs, the only writer besides the worker is [cancel_job].
    A history is a sequence of worker moves and cancel requests; every
    state a poll can observe is the job record after some history. *)
Inductive event : Type :=
| Work
| Cancel.

Definition apply_event (env : Env) (c : Config) (ev : event) : Config :=
  match ev with
  | Work => step env c
  | Cancel =>
      {| st := {| job := request_cancel (job (st c)); fs := fs (st c);
                  all_rows := all_rows (st c) |};
         pc := pc c |}
  end.

Definition run (env : Env) (c : Config) (evs : list event) : Config :=
  foldl (apply_event env) c evs.

(** ** The original single-script variant (classifier.py)

    Its oracle wrapper returns [None] on any exception (lines 52-68), and
    its page loop skips a falsy [analysis] (lines 100-103).  The filing
    logic (lines 105-120) tests the raw values of the two fields. *)
Module Script.

Definition get_groq_analysis (p : Page) : option dict :=
  match response p with
  | ApiContent v => v
  | ApiError _ => None
  end.

(** Lines 110-120. *)
Definition filing (is_receipt has_stamp : json) : path * string :=
  if py_bool is_receipt then
    if negb (py_bool has_stamp) then (["receipts"; "unstamped"], "STAMPED_RECEIPT")
    else (["receipts"; "stamped"], "UNSTAMPED_RECEIPT")
  else (["credit_notes"], "CREDIT_NOTE").

(** Lines 100-120: where a page goes and how it is labelled, if it is
    filed at all. *)
Definition file_page (p : Page) : option (path * string) :=
  match get_groq_analysis p with
  | None => None
  | Some analysis =>
      if (size analysis =? 0)%nat then None
      else Some (filing (dict_get analysis "is_receipt" (JBool false))
                        (dict_get analysis "has_stamp" (JBool false)))
  end.

End Script.

(** ** Sample jobs *)
Module Sample.

Definition env : Env :=
  {| client := true; pdfinfo_from_path := false; dpi := 150;
     sleep_sec := FFin false 3 0; model_name := "meta-llama/llama-4-scout-17b-16e-instruct" |}.

Definition env_pdfinfo : Env :=
  {| client := true; pdfinfo_from_path := true; dpi := 150;
     sleep_sec := FFin false 3 0; model_name := "meta-llama/llama-4-scout-17b-16e-instruct" |}.

Definition unstamped_receipt : dict :=
  {[ "is_receipt" := JBool true; "has_stamp" := JBool false ]}.

Definition stamped_receipt : dict :=
  {[ "is_receipt" := JBool true; "has_stamp" := JBool true ]}.

Definition credit_note : dict := {[ "is_receipt" := JBool false ]}.

Definition page_of (n : N) (a : dict) : Page := mkPage n (ApiContent (Some a)).

Definition null_page : Page := mkPage 7 (ApiContent None).

Definition failed_page : Page := mkPage 8 (ApiError "429 rate limit").

Definition one_page (name stem : string) (p : Page) : Pdf :=
  {| pdf_name := name; pdf_stem := stem; pdfinfo_pages := Ok 1; rendered := Ok [p] |}.

Definition a_pdf : Pdf := one_page "a.pdf" "a" (page_of 1 unstamped_receipt).
Definition b_pdf : Pdf := one_page "b.pdf" "b" (page_of 2 credit_note).

(** The scenario of two one-page documents. *)
Definition two_docs : Config := start_process ["jobs"] "j1" [a_pdf; b_pdf].

Definition null_doc : Config :=
  start_process ["jobs"] "j2" [one_page "n.pdf" "n" null_page].

Definition failed_doc : Config :=
  start_process ["jobs"] "j3" [one_page "f.pdf" "f" failed_page].

(** The two-document job run to its end, and the job map that holds it. *)
Definition finished : Config := process_job env 20 two_docs.

Definition jobs : gmap string JobState := {[ "j1" := job (st finished) ]}.


Definition no_docs : Config := start_process ["jobs"] "j0" [].

(** 29 pages of 100 processed. *)
Definition at_29_of_100 : State :=
  {| job := set_total_pages 100 (set_processed_pages 29 (new_job ["jobs"] "j1"));
     fs := ∅; all_rows := [] |}.

End Sample.

(** ** The progress formula in the specification's words

    [clamp(processed_pages / total_pages * 100, 0, 100)] truncated to an
    integer, with the arithmetic of the code (a float quotient, a float
    product, [int] of the clamped value). *)
Definition clamp (x : pynum) (lo hi : Z) : pynum :=
  if lt_int x lo then PInt lo else if gt_int x hi then PInt hi else x.

Definition progress_formula (processed total : Z) : result Z :=
  match int_truediv processed total with
  | Raise e => Raise e
  | Ok q =>
      match mul_int q 100 with
      | Raise e => Raise e
      | Ok x => py_int (clamp (PFloat x) 0 100)
      end
  end.

(** ** Vocabulary of the statements *)

(** What a poller sees of a job besides the log and the cancel flag. *)
Definition outcome (j : JobState) :=
  (status j, progress_pct j, message j, error j, total_pages j, processed_pages j,
   csv_path j, zip_all j, zip_receipts_unstamped j, zip_receipts_stamped j,
   zip_credit_notes j).

Definition no_artifacts (j : JobState) : Prop :=
  csv_path j = None /\ zip_all j = None /\ zip_receipts_unstamped j = None /\
  zip_receipts_stamped j = None /\ zip_credit_notes j = None.

(** A file system that holds documents and page images only: no CSV, no
    archive. *)
Definition plain_file (f : file) : Prop :=
  match f with PdfDoc _ | Png _ => True | _ => False end.

Definition only_pages (t : FS) : Prop := map_Forall (fun _ f => plain_file f) t.


(** The artifact kinds of the download operation, with the job field and
    the file name each stands for. *)
Definition artifact_table (j : JobState) : list (string * (option path * string)) :=
  [("all", (zip_all j, "all_output.zip"));
   ("receipts_unstamped", (zip_receipts_unstamped j, "receipts_unstamped.zip"));
   ("receipts_stamped", (zip_receipts_stamped j, "receipts_stamped.zip"));
   ("credit_notes", (zip_credit_notes j, "credit_notes.zip"));
   ("csv", (csv_path j, "classification_log.csv"))].

Definition known_kind (kind : string) : Prop :=
  kind ∈ ["all"; "receipts_unstamped"; "receipts_stamped"; "credit_notes"; "csv"].

(** Page counts known upfront: [pdfinfo_from_path] gives for the
    document the number of pages that [convert_from_path] renders.  With
    [strict], moreover no page of it has a null verdict. *)
Definition answered (pg : Page) : Prop := response pg <> ApiContent None.

Definition doc_ok (strict : bool) (d : Pdf) : Prop :=
  exists ps, rendered d = Ok ps /\ pdfinfo_pages d = Ok (Z.of_nat (length ps)) /\
             (strict = true -> Forall answered ps).

Definition npages (d : Pdf) : Z :=
  match rendered d with Ok ps => Z.of_nat (length ps) | Raise _ => 0 end.

Definition pages_sum (docs : list Pdf) : Z := foldr (fun d acc => npages d + acc) 0 docs.

(** [x] pages accounted for against a total of [y]: never more, and with
    [strict] exactly as many. *)
Definition rel (strict : bool) (x y : Z) : Prop := x <= y /\ (strict = true -> x = y).

(** Invariants of the histories. *)
Definition progress_ok (c : Config) : Prop := 0 <= progress_pct (job (st c)) <= 100.

(** Until the worker returns, the job has no artifact path and the file
    system holds no CSV and no archive. *)
Definition quiet (c : Config) : Prop :=
  pc c <> Returned -> no_artifacts (job (st c)) /\ only_pages (fs (st c)).

(** [processed_pages] plus the pages still ahead of the worker, against
    [total_pages]. *)
Definition accounted (strict : bool) (c : Config) : Prop :=
  let j := job (st c) in
  0 <= processed_pages j /\
  match pc c with
  | Queued docs =>
      Forall (doc_ok strict) docs /\ processed_pages j = 0 /\ 0 <= total_pages j
  | AtDoc todo =>
      Forall (doc_ok strict) todo /\
      rel strict (processed_pages j + pages_sum todo) (total_pages j)
  | AtPage _ pages i rest =>
      (i <= length pages)%nat /\ (strict = true -> Forall answered pages) /\
      Forall (doc_ok strict) rest /\
      rel strict (processed_pages j + Z.of_nat (length pages - i) + pages_sum rest)
          (total_pages j)
  | InPage _ pages i pg rest =>
      pages !! i = Some pg /\ (strict = true -> Forall answered pages) /\
      Forall (doc_ok strict) rest /\
      rel strict (processed_pages j + Z.of_nat (length pages - i) + pages_sum rest)
          (total_pages j)
  | Returned =>
      processed_pages j <= total_pages j /\
      (strict = true -> status j = "done" -> processed_pages j = total_pages j)
  end.

(** What a block leaves of [accounted]: the invariant at the next
    control point, or the counters in order when it raises. *)
Definition accounted_after (strict : bool) (r : result control) (s' : State) : Prop :=
  match r with
  | Ok p' => accounted strict {| st := s'; pc := p' |}
  | Raise _ => 0 <= processed_pages (job s') <= total_pages (job s')
  end.

(** The status that goes with each control point. *)
Definition lifecycle (c : Config) : Prop :=
  match pc c with
  | Queued _ => status (job (st c)) = "queued"
  | Returned => status (job (st c)) = "done" \/ status (job (st c)) = "error" \/
                status (job (st c)) = "cancelled"
  | _ => status (job (st c)) = "running"
  end.

(** The worker's moves still to come, at most: per document its head,
    two per page and its end; one more for the final block. *)
Definition docs_cost (docs : list Pdf) : nat :=
  foldr (fun d acc => (2 + 2 * Z.to_nat (npages d) + acc)%nat) 1%nat docs.

Definition moves_left (p : control) : nat :=
  match p with
  | Queued docs => S (docs_cost docs)
  | AtDoc todo => docs_cost todo
  | AtPage _ pages i rest => (2 * (length pages - i) + 1 + docs_cost rest)%nat
  | InPage _ pages i _ rest => (2 * (length pages - S i) + 2 + docs_cost rest)%nat
  | Returned => O
  end.

(** ** Closed forms used in the proofs *)

(** The state a filed page leaves, before the second progress update. *)
Definition filed_state (pdf_file : Pdf) (i : nat) (page : Page) (a : dict) (s : State) : State :=
  let is_receipt := py_bool (dict_get a "is_receipt" (JBool false)) in
  let has_stamp := py_bool (dict_get a "has_stamp" (JBool false)) in
  let subdir := (filing is_receipt has_stamp).1 in
  let label := (filing is_receipt has_stamp).2 in
  {| job := set_processed_pages (processed_pages (job s) + 1)
              (job_log (LogFiled (S i) label) (job s));
     fs := <[((output_dir (job s) </> pdf_stem pdf_file) ++ subdir)%list
              </> ("page_" +:+ pretty (S i) +:+ ".png") := Png (image page)]> (fs s);
     all_rows := (all_rows s ++
                  [{| source_pdf := pdf_name pdf_file; page := S i; row_status := label;
                      is_receipt := is_receipt; has_stamp := has_stamp;
                      stamp_details := dict_get a "detected_stamp_details" (JStr "");
                      document_data := dict_get a "document_data" (JObj []) |}])%list |}.

(** The state after a progress update that stored [n]. *)
Definition with_progress (n : Z) (s : State) : State :=
  {| job := set_progress_pct n (job s); fs := fs s; all_rows := all_rows s |}.


(** ** Vocabulary of the further properties *)

(** The worker moves of a history. *)
Fixpoint moves (evs : list event) : nat :=
  match evs with
  | [] => O
  | Work :: evs => S (moves evs)
  | Cancel :: evs => moves evs
  end.

(** The final statuses. *)
Definition terminal (j : JobState) : Prop :=
  status j = "done" \/ status j = "error" \/ status j = "cancelled".

(** The worker sets [status] to cancelled only on a request. *)
Definition cancel_inv (c : Config) : Prop :=
  status (job (st c)) = "cancelled" -> cancel_requested (job (st c)) = true.

(** The documents a control point still holds: the current one and the
    ones to come. *)
Definition pending (p : control) : list Pdf :=
  match p with
  | Queued docs => docs
  | AtDoc todo => todo
  | AtPage d _ _ rest | InPage d _ _ _ rest => d :: rest
  | Returned => []
  end.

(** Where the page step puts the image of a row of document [d]
    (lines 253-270), below the output directory [out]. *)
Definition row_arcname (d : Pdf) (r : Row) : path :=
  ((pdf_stem d :: (filing (is_receipt r) (has_stamp r)).1)
     ++ ["page_" +:+ pretty (page r) +:+ ".png"])%list.

Definition row_image (out : path) (d : Pdf) (r : Row) : path :=
  (out ++ row_arcname d r)%list.

(** A row that is backed by a file: its label is the one of its two
    flags, its page number counts from 1, and the image of that page is
    in the directory of that label, below the directory of a document of
    the job with the row's name. *)
Definition filed (out : path) (docs : list Pdf) (t : FS) (r : Row) : Prop :=
  row_status r = (filing (is_receipt r) (has_stamp r)).2 /\
  (1 <= page r)%nat /\
  exists d n, d ∈ docs /\ source_pdf r = pdf_name d /\
              t !! row_image out d r = Some (Png n).

Definition rows_filed (docs : list Pdf) (c : Config) : Prop :=
  let j := job (st c) in
  input_dir j = job_dir j </> "input" /\
  output_dir j = job_dir j </> "output" /\
  pending (pc c) ⊆ docs /\
  Z.of_nat (length (all_rows (st c))) <= processed_pages j /\
  Forall (filed (output_dir j) docs (fs (st c))) (all_rows (st c)).

Definition rows_filed_after (docs : list Pdf) (r : result control) (s' : State) : Prop :=
  match r with
  | Ok p' => rows_filed docs {| st := s'; pc := p' |}
  | Raise _ => rows_filed docs {| st := s'; pc := Returned |}
  end.

(** The archive of the category of a row. *)
Definition category_zip (j : JobState) (r : Row) : option path :=
  if is_receipt r then
    if has_stamp r then zip_receipts_stamped j else zip_receipts_unstamped j
  else zip_credit_notes j.

(** The artifact field [o] names [p], and the file there is the archive
    under [filter_fn] of the output tree as it stands. *)
Definition holds_archive (t : FS) (out : path) (o : option path) (p : path)
    (filter_fn : path -> bool) : Prop :=
  o = Some p /\ t !! p = Some (ZipFile (zip_members out filter_fn t)).

(** What a job that is done has on disk (lines 294-327). *)
Definition artifacts_ok (c : Config) : Prop :=
  let j := job (st c) in
  let t := fs (st c) in
  let zips := job_dir j </> "zips" in
  status j = "done" ->
  holds_archive t (output_dir j) (zip_all j) (zips </> "all_output.zip") (fun _ => true) /\
  holds_archive t (output_dir j) (zip_receipts_unstamped j)
    (zips </> "receipts_unstamped.zip") is_unstamped /\
  holds_archive t (output_dir j) (zip_receipts_stamped j)
    (zips </> "receipts_stamped.zip") is_stamped /\
  holds_archive t (output_dir j) (zip_credit_notes j) (zips </> "credit_notes.zip") is_credit /\
  match all_rows (st c) with
  | [] => csv_path j = None
  | rows => csv_path j = Some (job_dir j </> "classification_log.csv") /\
            t !! (job_dir j </> "classification_log.csv") = Some (CsvFile csv_headers rows)
  end.

(** The archive at the artifact field [o] has the member [q]. *)
Definition archived (t : FS) (o : option path) (q : path) : Prop :=
  exists p m, o = Some p /\ t !! p = Some (ZipFile m) /\ q ∈ m.

(** ** The single-script variant, as a whole (classifier.py, lines 70-152)

    [process_docs] walks the documents of the input folder.  Each one is
    handled inside a [try] of its own: rendering and the move of the
    source document may raise, and the handler only prints.  The rows keep
    the two flags as the oracle gave them.  The CSV goes to the working
    directory, outside the two folders. *)
Module ScriptDocs.

Record SRow := mkSRow {
  srow_source_pdf : string;
  srow_page : nat;
  srow_status : string;
  srow_is_receipt : json;
  srow_has_stamp : json;
  srow_stamp_details : json;
  srow_document_data : json
}.

Definition input_folder : path := ["Nellara"].
Definition output_base : path := ["Nellara output"].

(** Lines 98-133, the row of a page if it gets one. *)
Definition page_row (pdf_file : Pdf) (i : nat) (pg : Page) : option SRow :=
  match Script.get_groq_analysis pg with
  | None => None
  | Some analysis =>
      if (size analysis =? 0)%nat then None
      else
        let is_receipt := dict_get analysis "is_receipt" (JBool false) in
        let has_stamp := dict_get analysis "has_stamp" (JBool false) in
        Some {| srow_source_pdf := pdf_name pdf_file;
                srow_page := S i;
                srow_status := (Script.filing is_receipt has_stamp).2;
                srow_is_receipt := is_receipt;
                srow_has_stamp := has_stamp;
                srow_stamp_details := dict_get analysis "detected_stamp_details" (JStr "");
                srow_document_data := dict_get analysis "document_data" (JObj []) |}
  end.

(** The body of the page loop: a falsy [analysis] skips the page. *)
Definition page_step (pdf_file : Pdf) (i : nat) (pg : Page) (s : FS * list SRow)
    : FS * list SRow :=
  match Script.get_groq_analysis pg with
  | None => s
  | Some analysis =>
      if (size analysis =? 0)%nat then s
      else
        let is_receipt := dict_get analysis "is_receipt" (JBool false) in
        let has_stamp := dict_get analysis "has_stamp" (JBool false) in
        let img_filename := "page_" +:+ pretty (S i) +:+ ".png" in
        let '(subdir, status) := Script.filing is_receipt has_stamp in
        let target_path :=
          ((output_base </> pdf_stem pdf_file) ++ subdir)%list </> img_filename in
        (<[target_path := Png (image pg)]> s.1,
         (s.2 ++ [{| srow_source_pdf := pdf_name pdf_file;
                     srow_page := S i;
                     srow_status := status;
                     srow_is_receipt := is_receipt;
                     srow_has_stamp := has_stamp;
                     srow_stamp_details := dict_get analysis "detected_stamp_details" (JStr "");
                     srow_document_data := dict_get analysis "document_data" (JObj []) |}])%list)
  end.

(** [for i, page in enumerate(pages)], from index [i] on. *)
Fixpoint page_loop (pdf_file : Pdf) (i : nat) (pages : list Page) (s : FS * list SRow)
    : FS * list SRow :=
  match pages with
  | [] => s
  | pg :: pages' => page_loop pdf_file (S i) pages' (page_step pdf_file i pg s)
  end.

(** Lines 74-138: one document, with its [try] and [except]. *)
Definition doc_step (s : FS * list SRow) (pdf_file : Pdf) : FS * list SRow :=
  match rendered pdf_file with
  | Raise _ => s
  | Ok pages =>
      let s' := page_loop pdf_file 0 pages s in
      let src := input_folder </> pdf_name pdf_file in
      match s'.1 !! src with
      | None => s'
      | Some f =>
          (<[output_base </> pdf_stem pdf_file </> pdf_name pdf_file := f]> (delete src s'.1),
           s'.2)
      end
  end.

(** The file system and the rows at the end, and the CSV if one is
    written. *)
Definition process_docs (input_pdfs : list Pdf) (t : FS)
    : FS * list SRow * option (list string * list SRow) :=
  let s := foldl doc_step (t, []) input_pdfs in
  (s, match s.2 with
      | [] => None
      | rows => Some (csv_headers, rows)
      end).

(** The rows a document contributes: one for each page with a truthy
    verdict, none when it does not render. *)
Fixpoint rows_from (pdf_file : Pdf) (i : nat) (pages : list Page) : list SRow :=
  match pages with
  | [] => []
  | pg :: pages' =>
      match page_row pdf_file i pg with
      | Some r => r :: rows_from pdf_file (S i) pages'
      | None => rows_from pdf_file (S i) pages'
      end
  end.

Definition doc_rows (pdf_file : Pdf) : list SRow :=
  match rendered pdf_file with
  | Raise _ => []
  | Ok pages => rows_from pdf_file 0 pages
  end.

End ScriptDocs.

(** ** A job on which nothing fails *)





(** Page counts up to which the float arithmetic of the progress line
    is known not to overflow. *)
Definition page_limit : Z := 2 ^ 1000.




(** Before the worker's first move nothing is counted and there is no
    row. *)
Definition unstarted (c : Config) : Prop :=
  match pc c with
  | Queued _ => all_rows (st c) = [] /\ total_pages (job (st c)) = 0
  | _ => True
  end.

(** From [s] to [s'] the counters did not decrease and rows were only
    appended. *)
Definition grown (s s' : State) : Prop :=
  processed_pages (job s) <= processed_pages (job s') /\
  total_pages (job s) <= total_pages (job s') /\
  all_rows s `prefix_of` all_rows s'.

(** The documents the worker is through with have been moved from the
    input directory to their output directory; the others are still
    where the upload put them. *)
Definition moved (docs : list Pdf) (c : Config) : Prop :=
  let j := job (st c) in
  pending (pc c) ⊆ docs /\
  (forall d, d ∈ pending (pc c) ->
     fs (st c) !! (input_dir j </> pdf_name d) = Some (PdfDoc (pdf_name d))) /\
  (forall d, d ∈ docs -> d ∉ pending (pc c) ->
     fs (st c) !! (input_dir j </> pdf_name d) = None /\
     fs (st c) !! (output_dir j </> pdf_stem d </> pdf_name d) = Some (PdfDoc (pdf_name d))).


(** A source document is where the upload put it, or it has been moved
    to its output directory: it is never lost. *)
Definition kept (t : FS) (inp out : path) (d : Pdf) : Prop :=
  t !! (inp </> pdf_name d) = Some (PdfDoc (pdf_name d)) \/
  (t !! (inp </> pdf_name d) = None /\
   t !! (out </> pdf_stem d </> pdf_name d) = Some (PdfDoc (pdf_name d))).

(** * Properties *)

(** ** Floats and [safe_pct] *)

(** The quotient and the product are the binary64 ones: [29 / 100] is
    [0x1.28f5c28f5c28fp-2], and times 100 it is [28.999999999999996], so
    that 29 pages of 100 show as 28 percent. *)
Example truediv_29_100 :
  int_truediv 29 100 = Ok (FFin false 5224175567749775 (-54)).
Proof. vm_compute. reflexivity. Qed.

Example progress_29_of_100 : progress_formula 29 100 = Ok 28.
Proof. vm_compute. reflexivity. Qed.

Example progress_overshoot : progress_formula 2 1 = Ok 100.
Proof. vm_compute. reflexivity. Qed.

Example truediv_overflow :
  int_truediv (2 ^ 1024) 1
  = Raise (OverflowError "integer division result too large for a float").
Proof. vm_compute. reflexivity. Qed.

Lemma safe_pct_range (x : pynum) (n : Z) : safe_pct x = Ok n -> 0 <= n <= 100.
Proof.
  unfold safe_pct, lt_int, gt_int, py_int.
  destruct x as [z | f].
  - destruct (Z.ltb_spec z 0); [intros [= <-]; lia |].
    destruct (Z.ltb_spec 100 z); intros [= <-]; lia.
  - unfold ltb_int, gtb_int, compare_int, to_int.
    destruct f as [| neg | neg m e]; [discriminate | destruct neg; intros [= <-]; lia |].
    set (sm := if neg then - m else m).
    destruct (Z.leb_spec 0 e) as [He | He].
    + destruct (Z.compare_spec (sm * 2 ^ e) 0) as [H0 | H0 | H0];
        [| intros [= <-]; lia |];
        (destruct (Z.compare_spec (sm * 2 ^ e) 100) as [H1 | H1 | H1];
         intros [= <-]; subst sm; destruct neg; lia).
    + assert (Hp : 0 < 2 ^ (- e)) by (apply Z.pow_pos_nonneg; lia).
      assert (Hq : 0 <= sm <= 100 * 2 ^ (- e) ->
                   0 <= (if neg then - (m / 2 ^ (- e)) else m / 2 ^ (- e)) <= 100).
      { subst sm. intros [Hlo Hhi]. destruct neg.
        - assert (-100 <= m / 2 ^ (- e)) by (apply Z.div_le_lower_bound; lia).
          assert (m / 2 ^ (- e) <= 0) by (apply Z.div_le_upper_bound; lia).
          lia.
        - assert (0 <= m / 2 ^ (- e)) by (apply Z.div_pos; lia).
          assert (m / 2 ^ (- e) <= 100) by (apply Z.div_le_upper_bound; lia).
          lia. }
      destruct (Z.compare_spec sm (0 * 2 ^ (- e))) as [H0 | H0 | H0];
        [| intros [= <-]; lia |];
        (destruct (Z.compare_spec sm (100 * 2 ^ (- e))) as [H1 | H1 | H1];
         intros [= <-]; try lia; apply Hq; lia).
Qed.

Lemma safe_pct_int (z : Z) : 0 <= z <= 100 -> safe_pct (PInt z) = Ok z.
Proof.
  intros Hz. unfold safe_pct, lt_int, gt_int, py_int.
  destruct (Z.ltb_spec z 0); [lia |].
  destruct (Z.ltb_spec 100 z); [lia | reflexivity].
Qed.

(** ** Running a block symbolically *)

Ltac unfold_m :=
  unfold cancel_stop, zip_folder, zip_filtered_output, write_file, jlog,
    mbind, M_bind, mret, M_ret, raise, lift, read_job, modify_job, get_fs, put_fs,
    get_rows, put_rows in *.

Ltac proj :=
  cbn [job fs all_rows st pc fst snd with_progress job_log
       job_id status progress_pct message error cancel_requested log total_pages
       processed_pages job_dir input_dir output_dir csv_path zip_all
       zip_receipts_unstamped zip_receipts_stamped zip_credit_notes
       set_status set_progress_pct set_message set_error set_cancel_requested set_log
       set_total_pages set_processed_pages set_csv_path set_zip_all
       set_zip_receipts_unstamped set_zip_receipts_stamped set_zip_credit_notes] in *.

(** [update_progress] leaves the state alone ([total_pages] is not
    positive), stores a percentage, or raises. *)
Lemma update_progress_cases (s : State) :
  (total_pages (job s) <= 0 /\ update_progress s = (Ok tt, s)) \/
  (exists n, 0 <= n <= 100 /\ update_progress s = (Ok tt, with_progress n s)) \/
  (exists e, update_progress s = (Raise e, s)).
Proof.
  unfold update_progress, mbind, M_bind, read_job, lift, modify_job, mret, M_ret.
  cbv beta iota.
  destruct (Z.ltb_spec 0 (total_pages (job s))); [| left; split; [lia | done]].
  destruct (int_truediv _ _) as [q | e]; [| right; right; by eexists].
  destruct (mul_int q 100) as [x | e]; [| right; right; by eexists].
  destruct (safe_pct (PFloat x)) as [n | e] eqn:Hn; [| right; right; by eexists].
  right; left. exists n. split; [by eapply safe_pct_range |]. reflexivity.
Qed.

Ltac split_progress :=
  match goal with
  | |- context [update_progress ?s0] =>
      let n := fresh "n" in
      let Hn := fresh "Hn" in
      let e := fresh "e" in
      let Ht := fresh "Ht" in
      destruct (update_progress_cases s0) as [[Ht ->] | [(n & Hn & ->) | (e & ->)]]
  end.

Ltac red_m :=
  cbv beta iota zeta delta
    [start_block doc_block page_head doc_end finish_block except_block
     cancel_stop zip_folder zip_filtered_output write_file jlog
     mbind M_bind mret M_ret raise lift read_job modify_job get_fs put_fs
     get_rows put_rows job fs all_rows st pc fst snd with_progress filed_state];
  proj.

(** Case analysis on a [match] of the goal whose scrutinee holds no
    further [match]. *)
Ltac inner_case :=
  match goal with
  | |- context [match ?x with _ => _ end] =>
      lazymatch x with
      | context [match _ with _ => _ end] => fail
      | _ => destruct x eqn:?
      end
  end.

(** Runs the block in the goal on a state given by its three fields. *)
Ltac exec_block :=
  red_m;
  repeat first [split_progress; red_m | inner_case; red_m].

(** ** The page step *)

(** What the inference service's failure becomes: an error indicator. *)
Lemma api_error_indicator (env : Env) (p : Page) (msg : string) :
  client env = true -> response p = ApiError msg ->
  exists a, get_groq_analysis env p = Ok (Some a) /\ is_Some (a !! "__error__").
Proof.
  intros Hc Hr. exists {[ "__error__" := JStr msg ]}.
  unfold get_groq_analysis. rewrite Hc, Hr. split; [done |].
  rewrite lookup_singleton_eq. by eexists.
Qed.

Lemma page_body_verdict
    (env : Env) (pdf_file : Pdf) (pages : list Page) (i : nat) (pg : Page)
    (rest : list Pdf) (s : State) (a : dict) :
  get_groq_analysis env pg = Ok (Some a) ->
  a !! "__error__" = None ->
  page_body env pdf_file pages i pg rest s =
    match update_progress (filed_state pdf_file i pg a s) with
    | (Ok _, s') => (Ok (AtPage pdf_file pages (S i) rest), s')
    | (Raise e, s') => (Raise e, s')
    end.
Proof.
  intros Ha He. unfold page_body, filed_state.
  unfold mbind at 1, M_bind at 1, lift at 1. rewrite Ha.
  unfold dict_has. rewrite bool_decide_eq_false_2 by (rewrite He; by intros [? ?]).
  destruct (filing _ _) as [subdir label] eqn:Hf.
  unfold_m. cbv beta iota zeta. proj. reflexivity.
Qed.

Lemma page_body_error
    (env : Env) (pdf_file : Pdf) (pages : list Page) (i : nat) (pg : Page)
    (rest : list Pdf) (s : State) (a : dict) :
  get_groq_analysis env pg = Ok (Some a) ->
  is_Some (a !! "__error__") ->
  page_body env pdf_file pages i pg rest s =
    (Ok (AtPage pdf_file pages (S i) rest),
     {| job := set_processed_pages (processed_pages (job s) + 1)
                 (job_log (LogGroqError (S i) (dict_get a "__error__" JNull)) (job s));
        fs := fs s; all_rows := all_rows s |}).
Proof.
  intros Ha He. unfold page_body.
  unfold mbind at 1, M_bind at 1, lift at 1. rewrite Ha.
  unfold dict_has. rewrite bool_decide_eq_true_2 by done.
  reflexivity.
Qed.

Lemma page_body_null
    (env : Env) (pdf_file : Pdf) (pages : list Page) (i : nat) (pg : Page)
    (rest : list Pdf) (s : State) :
  get_groq_analysis env pg = Ok None ->
  page_body env pdf_file pages i pg rest s =
    (Ok (AtPage pdf_file pages (S i) rest),
     {| job := job_log (LogNone (S i)) (job s); fs := fs s; all_rows := all_rows s |}).
Proof.
  intros Ha. unfold page_body.
  unfold mbind at 1, M_bind at 1, lift at 1. rewrite Ha.
  reflexivity.
Qed.

Lemma page_body_raise
    (env : Env) (pdf_file : Pdf) (pages : list Page) (i : nat) (pg : Page)
    (rest : list Pdf) (s : State) (e : exn) :
  get_groq_analysis env pg = Raise e ->
  page_body env pdf_file pages i pg rest s = (Raise e, s).
Proof.
  intros Ha. unfold page_body.
  unfold mbind at 1, M_bind at 1, lift at 1. rewrite Ha.
  reflexivity.
Qed.

(** The four ways through the page body. *)
Ltac page_cases env pg :=
  let a := fresh "a" in
  let e := fresh "e" in
  let v := fresh "v" in
  let Ha := fresh "Ha" in
  let He := fresh "He" in
  destruct (get_groq_analysis env pg) as [[a |] | e] eqn:Ha;
  [ destruct (a !! "__error__") as [v |] eqn:He;
    [ rewrite (page_body_error _ _ _ _ _ _ _ _ Ha) by (by eexists)
    | rewrite (page_body_verdict _ _ _ _ _ _ _ _ Ha He); unfold filed_state ]
  | rewrite (page_body_null _ _ _ _ _ _ _ Ha)
  | rewrite (page_body_raise _ _ _ _ _ _ _ _ Ha) ].

(** The handler changes the job record only, and leaves a percentage
    that is in range as it is. *)
Lemma except_block_eq (e : exn) (s : State) :
  0 <= progress_pct (job s) <= 100 ->
  except_block e s =
    (Ok tt,
     {| job := set_progress_pct (progress_pct (job s))
                 (job_log (LogJobError (exn_msg e))
                    (set_message "Error"
                       (set_error (Some (exn_msg e)) (set_status "error" (job s)))));
        fs := fs s; all_rows := all_rows s |}).
Proof.
  intros H. unfold except_block. unfold_m. cbv beta iota. proj.
  rewrite safe_pct_int by done. reflexivity.
Qed.

Lemma except_block_frame (e : exn) (s : State) :
  fs (except_block e s).2 = fs s /\
  all_rows (except_block e s).2 = all_rows s /\
  processed_pages (job (except_block e s).2) = processed_pages (job s) /\
  total_pages (job (except_block e s).2) = total_pages (job s) /\
  cancel_requested (job (except_block e s).2) = cancel_requested (job s) /\
  status (job (except_block e s).2) = "error" /\
  error (job (except_block e s).2) = Some (exn_msg e).
Proof.
  unfold except_block. unfold_m. cbv beta iota. proj.
  destruct (safe_pct _); done.
Qed.

(** The step of a page with a verdict, in terms of [filed_state]. *)
Lemma page_step_filed
    (env : Env) (pdf_file : Pdf) (pages : list Page) (i : nat) (pg : Page)
    (rest : list Pdf) (s : State) (a : dict) :
  get_groq_analysis env pg = Ok (Some a) ->
  a !! "__error__" = None ->
  let c' := step env {| st := s; pc := InPage pdf_file pages i pg rest |} in
  fs (st c') = fs (filed_state pdf_file i pg a s) /\
  all_rows (st c') = all_rows (filed_state pdf_file i pg a s) /\
  processed_pages (job (st c')) = processed_pages (job (filed_state pdf_file i pg a s)).
Proof.
  intros Ha He. cbv zeta. unfold step, block. cbn [pc st].
  rewrite (page_body_verdict _ _ _ _ _ _ _ _ Ha He).
  split_progress; [done | done |].
  destruct (except_block_frame e (filed_state pdf_file i pg a s))
    as (Hfs & Hrows & Hpp & _).
  done.
Qed.

(** C1. A page whose oracle call succeeds (a dict without the error key)
    is filed per the decision table: the image is written to
    [receipts/stamped], [receipts/unstamped] or [credit_notes] below the
    document's output directory under the name [page_<n>.png], and one row
    with the matching label is appended; [is_receipt] and [has_stamp] are
    read with default false. *)
Theorem page_filed_per_decision_table
    (env : Env) (pdf_file : Pdf) (pages : list Page) (i : nat) (pg : Page)
    (rest : list Pdf) (s : State) (a : dict) :
  get_groq_analysis env pg = Ok (Some a) ->
  a !! "__error__" = None ->
  let ir := py_bool (default (JBool false) (a !! "is_receipt")) in
  let hs := py_bool (default (JBool false) (a !! "has_stamp")) in
  let dest := match ir, hs with
              | true, true => ["receipts"; "stamped"]
              | true, false => ["receipts"; "unstamped"]
              | false, _ => ["credit_notes"]
              end in
  let label := match ir, hs with
               | true, true => "STAMPED_RECEIPT"
               | true, false => "UNSTAMPED_RECEIPT"
               | false, _ => "CREDIT_NOTE"
               end in
  let target := ((output_dir (job s) </> pdf_stem pdf_file) ++ dest)%list
                  </> ("page_" +:+ pretty (S i) +:+ ".png") in
  let c' := step env {| st := s; pc := InPage pdf_file pages i pg rest |} in
  fs (st c') = <[target := Png (image pg)]> (fs s) /\
  (exists row, all_rows (st c') = (all_rows s ++ [row])%list /\
               row_status row = label /\
               is_receipt row = ir /\
               has_stamp row = hs /\
               source_pdf row = pdf_name pdf_file /\
               page row = S i) /\
  processed_pages (job (st c')) = processed_pages (job s) + 1.
Proof.
  intros Ha He. cbv zeta.
  destruct (page_step_filed env pdf_file pages i pg rest s a Ha He) as (-> & -> & ->).
  unfold filed_state, dict_get. proj.
  destruct (py_bool (default (JBool false) (a !! "is_receipt"))),
    (py_bool (default (JBool false) (a !! "has_stamp")));
    (split; [reflexivity |]); (split; [| reflexivity]);
    eexists; (split; [reflexivity |]); done.
Qed.

(** C5. A page whose oracle call returns an error indicator (a dict with
    the error key) is written nowhere and gets no row; [processed_pages]
    grows by exactly one; the worker goes on to the head of the page loop
    for the next page, and the job's status and error text stay as they
    were. *)
Theorem oracle_error_isolated
    (env : Env) (pdf_file : Pdf) (pages : list Page) (i : nat) (pg : Page)
    (rest : list Pdf) (s : State) (a : dict) :
  get_groq_analysis env pg = Ok (Some a) ->
  is_Some (a !! "__error__") ->
  let c' := step env {| st := s; pc := InPage pdf_file pages i pg rest |} in
  fs (st c') = fs s /\
  all_rows (st c') = all_rows s /\
  processed_pages (job (st c')) = processed_pages (job s) + 1 /\
  pc c' = AtPage pdf_file pages (S i) rest /\
  status (job (st c')) = status (job s) /\
  error (job (st c')) = error (job s).
Proof.
  intros Ha He. cbv zeta. unfold step, block. cbn [pc st].
  rewrite (page_body_error _ _ _ _ _ _ _ _ Ha He). done.
Qed.

Lemma oracle_error_isolated_witness :
  let c' := step Sample.env
              {| st := st Sample.failed_doc;
                 pc := InPage (Sample.one_page "f.pdf" "f" Sample.failed_page)
                         [Sample.failed_page] 0 Sample.failed_page [] |} in
  fs (st c') = fs (st Sample.failed_doc) /\
  processed_pages (job (st c')) = 1.
Proof.
  pose proof (oracle_error_isolated Sample.env
                (Sample.one_page "f.pdf" "f" Sample.failed_page)
                [Sample.failed_page] 0 Sample.failed_page [] (st Sample.failed_doc)
                {[ "__error__" := JStr "429 rate limit" ]}
                eq_refl (ex_intro _ (JStr "429 rate limit") eq_refl)) as H.
  cbv zeta in H. destruct H as (H1 & _ & H3 & _).
  split; [exact H1 | exact H3].
Defined.

Lemma page_filed_per_decision_table_witness :
  let c' := step Sample.env
              {| st := st Sample.two_docs;
                 pc := InPage Sample.a_pdf [Sample.page_of 1 Sample.unstamped_receipt] 0
                         (Sample.page_of 1 Sample.unstamped_receipt) [Sample.b_pdf] |} in
  fs (st c') =
    <[ ["jobs"; "j1"; "output"; "a"; "receipts"; "unstamped"; "page_1.png"] := Png 1 ]>
      (fs (st Sample.two_docs)).
Proof.
  pose proof (page_filed_per_decision_table Sample.env Sample.a_pdf
                [Sample.page_of 1 Sample.unstamped_receipt] 0
                (Sample.page_of 1 Sample.unstamped_receipt) [Sample.b_pdf]
                (st Sample.two_docs) Sample.unstamped_receipt eq_refl eq_refl) as H.
  cbv zeta in H. destruct H as (H1 & _). exact H1.
Defined.

(** ** Histories *)

Lemma run_snoc (env : Env) (c : Config) (evs : list event) (ev : event) :
  run env c (evs ++ [ev]) = apply_event env (run env c evs) ev.
Proof. unfold run. by rewrite foldl_app. Qed.


Lemma run_invariant (env : Env) (P : Config -> Prop) (c : Config) :
  P c -> (forall c' ev, P c' -> P (apply_event env c' ev)) ->
  forall evs, P (run env c evs).
Proof.
  intros H0 Hstep evs. induction evs as [| ev evs IH] using rev_ind; [done |].
  rewrite run_snoc. by apply Hstep.
Qed.

(** Once the worker has returned, its thread makes no further move. *)
Lemma step_returned (env : Env) (c : Config) : pc c = Returned -> step env c = c.
Proof. destruct c as [s p]. cbn [pc]. intros ->. reflexivity. Qed.

(** ** [progress_pct] stays a percentage *)

Lemma block_progress_ok (env : Env) (c : Config) :
  progress_ok c -> 0 <= progress_pct (job (block env (pc c) (st c)).2) <= 100.
Proof.
  unfold progress_ok. destruct c as [[j t r] p]. cbn [st pc job]. intros H.
  destruct p as [docs | [| d docs] | d pages i rest | d pages i pg rest |];
    cbn [block]; [ | | | | | done].
  - exec_block; lia.
  - exec_block; lia.
  - exec_block; lia.
  - destruct (pages !! i); exec_block; lia.
  - page_cases env pg; exec_block; lia.
Qed.

Lemma step_progress_ok (env : Env) (c : Config) : progress_ok c -> progress_ok (step env c).
Proof.
  intros H. pose proof (block_progress_ok env c H) as Hb.
  unfold progress_ok, step in *.
  destruct (block env (pc c) (st c)) as [[p | e] s]; cbn [snd st] in *; [done |].
  rewrite except_block_eq by done. proj. done.
Qed.

Lemma apply_event_progress_ok (env : Env) (c : Config) (ev : event) :
  progress_ok c -> progress_ok (apply_event env c ev).
Proof. destruct ev; [apply step_progress_ok | done]. Qed.

Lemma start_process_progress_ok (jobs_dir : path) (id : string) (docs : list Pdf) :
  progress_ok (start_process jobs_dir id docs).
Proof. unfold progress_ok. cbn. lia. Qed.

Lemma run_progress_ok (env : Env) (jobs_dir : path) (id : string) (docs : list Pdf)
    (evs : list event) :
  progress_ok (run env (start_process jobs_dir id docs) evs).
Proof.
  apply run_invariant; [apply start_process_progress_ok |].
  intros c ev. apply apply_event_progress_ok.
Qed.

(** The code's [safe_pct] is the specification's clamp-then-truncate. *)
Lemma safe_pct_clamp (x : pynum) : safe_pct x = py_int (clamp x 0 100).
Proof. unfold safe_pct, clamp. by repeat case_match. Qed.

Lemma update_progress_formula (s : State) :
  0 < total_pages (job s) ->
  update_progress s =
    match progress_formula (processed_pages (job s)) (total_pages (job s)) with
    | Ok n => (Ok tt, with_progress n s)
    | Raise e => (Raise e, s)
    end.
Proof.
  intros Ht. unfold update_progress, progress_formula.
  unfold mbind, M_bind, read_job, lift, modify_job, mret, M_ret. cbv beta iota.
  rewrite (proj2 (Z.ltb_lt _ _) Ht).
  destruct (int_truediv _ _) as [q | e]; [| done].
  destruct (mul_int q 100) as [x | e]; [| done].
  rewrite <- safe_pct_clamp. by destruct (safe_pct _).
Qed.

Lemma update_progress_unknown (s : State) :
  total_pages (job s) <= 0 -> update_progress s = (Ok tt, s).
Proof.
  intros Ht. unfold update_progress.
  unfold mbind, M_bind, read_job, lift, modify_job, mret, M_ret. cbv beta iota.
  by rewrite (proj2 (Z.ltb_ge _ _) Ht).
Qed.

(** C7. After every history of worker moves and cancel requests, the
    polled [progress_pct] is an integer between 0 and 100; and wherever the
    worker recomputes it (the head of the page loop, and after a filed
    page), with [total_pages > 0] the stored value is the truncation of
    [processed_pages / total_pages * 100] clamped to [0, 100], and without
    it nothing is stored.  (No block assigns [progress_pct] twice, so a
    poll between two control points reads the value of one of them.) *)
Theorem progress_pct_bounds
    (env : Env) (jobs_dir : path) (id : string) (docs : list Pdf) (evs : list event) :
  let c := run env (start_process jobs_dir id docs) evs in
  0 <= progress_pct (job (st c)) <= 100 /\
  (forall snap, get_job {[ id := job (st c) ]} id = Response snap ->
                0 <= snap_progress_pct snap <= 100) /\
  (forall s n,
     0 < total_pages (job s) ->
     progress_formula (processed_pages (job s)) (total_pages (job s)) = Ok n ->
     update_progress s = (Ok tt, with_progress n s) /\ 0 <= n <= 100) /\
  (forall pdf_file pages i pg rest s n,
     pages !! i = Some pg ->
     cancel_requested (job s) = false ->
     0 < total_pages (job s) ->
     progress_formula (processed_pages (job s)) (total_pages (job s)) = Ok n ->
     progress_pct (job (st (step env {| st := s; pc := AtPage pdf_file pages i rest |}))) = n) /\
  (forall pdf_file pages i pg rest s a n,
     get_groq_analysis env pg = Ok (Some a) ->
     a !! "__error__" = None ->
     0 < total_pages (job s) ->
     progress_formula (processed_pages (job s) + 1) (total_pages (job s)) = Ok n ->
     progress_pct (job (st (step env {| st := s; pc := InPage pdf_file pages i pg rest |}))) = n) /\
  (forall s, total_pages (job s) <= 0 -> update_progress s = (Ok tt, s)).
Proof.
  cbv zeta. pose proof (run_progress_ok env jobs_dir id docs evs) as Hok.
  unfold progress_ok in Hok. split; [exact Hok |].
  split; [| split; [| split; [| split; [| apply update_progress_unknown]]]].
  - intros snap. unfold get_job. rewrite lookup_singleton_eq.
    intros [= <-]. exact Hok.
  - intros s n Ht Hn. rewrite update_progress_formula, Hn by done. split; [done |].
    unfold progress_formula in Hn.
    destruct (int_truediv _ _) as [q |]; [| done].
    destruct (mul_int q 100) as [x |]; [| done].
    rewrite <- safe_pct_clamp in Hn. by eapply safe_pct_range.
  - intros pdf_file pages i pg rest s n Hpg Hc Ht Hn.
    unfold step, block. cbn [pc st]. rewrite Hpg.
    unfold page_head. unfold_m. cbv beta iota zeta. proj. rewrite Hc.
    rewrite update_progress_formula by (proj; done). proj. rewrite Hn. done.
  - intros pdf_file pages i pg rest s a n Ha He Ht Hn.
    unfold step, block. cbn [pc st].
    rewrite (page_body_verdict _ _ _ _ _ _ _ _ Ha He).
    rewrite update_progress_formula by (unfold filed_state; proj; done).
    unfold filed_state at 1 2. proj. rewrite Hn. done.
Qed.

Lemma progress_pct_bounds_witness :
  update_progress Sample.at_29_of_100 = (Ok tt, with_progress 28 Sample.at_29_of_100)
  /\ 0 <= 28 <= 100.
Proof.
  refine (proj1 (proj2 (proj2 (progress_pct_bounds Sample.env ["jobs"] "j1" [] [])))
            Sample.at_29_of_100 28 _ _).
  - vm_compute. reflexivity.
  - vm_compute. reflexivity.
Defined.

(** ** What a block leaves alone *)

Lemma block_cancel_requested (env : Env) (c : Config) :
  cancel_requested (job (block env (pc c) (st c)).2) = cancel_requested (job (st c)).
Proof.
  destruct c as [[j t r] p]. cbn [st pc job].
  destruct p as [docs | [| d docs] | d pages i rest | d pages i pg rest |];
    cbn [block]; [ | | | | | done].
  - by exec_block.
  - by exec_block.
  - by exec_block.
  - destruct (pages !! i); by exec_block.
  - page_cases env pg; by exec_block.
Qed.

Lemma step_cancel_requested (env : Env) (c : Config) :
  cancel_requested (job (st (step env c))) = cancel_requested (job (st c)).
Proof.
  pose proof (block_cancel_requested env c) as Hb. unfold step.
  destruct (block env (pc c) (st c)) as [[p | e] s]; cbn [snd st] in *; [done |].
  destruct (except_block_frame e s) as (_ & _ & _ & _ & -> & _). done.
Qed.


Lemma outcome_returned (env : Env) (c : Config) (evs : list event) :
  pc c = Returned ->
  pc (run env c evs) = Returned /\
  outcome (job (st (run env c evs))) = outcome (job (st c)) /\
  fs (st (run env c evs)) = fs (st c) /\
  all_rows (st (run env c evs)) = all_rows (st c).
Proof.
  intros Hp. induction evs as [| ev evs IH] using rev_ind; [done |].
  rewrite run_snoc. destruct IH as (IH1 & IH2 & IH3 & IH4).
  destruct ev; cbn [apply_event].
  - rewrite step_returned by done. done.
  - cbn [pc st job fs all_rows]. repeat split; done.
Qed.

Lemma only_pages_insert (t : FS) (p : path) (f : file) :
  plain_file f -> only_pages t -> only_pages (<[p := f]> t).
Proof. intros Hf Ht. by apply map_Forall_insert_2. Qed.

Lemma only_pages_move (t : FS) (src dst : path) (f : file) :
  t !! src = Some f -> only_pages t -> only_pages (<[dst := f]> (delete src t)).
Proof.
  intros Hs Ht. apply only_pages_insert.
  - exact (Ht src f Hs).
  - by apply map_Forall_delete.
Qed.

Lemma block_quiet (env : Env) (c : Config) (p' : control) (s' : State) :
  block env (pc c) (st c) = (Ok p', s') -> p' <> Returned ->
  no_artifacts (job (st c)) -> only_pages (fs (st c)) ->
  no_artifacts (job s') /\ only_pages (fs s').
Proof.
  destruct c as [[j t r] p]. cbn [st pc job fs]. unfold no_artifacts.
  intros Hb Hp' Hj Ht. revert Hb.
  destruct p as [docs | [| d docs] | d pages i rest | d pages i pg rest |];
    cbn [block].
  - exec_block; intros ?; simplify_eq; done.
  - exec_block; intros ?; simplify_eq; done.
  - exec_block; intros ?; simplify_eq; done.
  - destruct (pages !! i); exec_block; intros ?; simplify_eq; try done.
    split; [done |]. cbn [fs]. by eapply only_pages_move.
  - page_cases env pg; exec_block; intros ?; simplify_eq; try done.
    all: split; [done |]; cbn [fs]; by apply only_pages_insert.
  - exec_block; intros ?; simplify_eq; done.
Qed.

Lemma step_quiet (env : Env) (c : Config) : quiet c -> quiet (step env c).
Proof.
  intros Hq.
  assert (Hcase : pc c = Returned \/ pc c <> Returned)
    by (destruct (pc c); (by left) || (by right)).
  destruct Hcase as [Hr | Hr]; [by rewrite step_returned |].
  destruct (Hq Hr) as [Hj Ht]. unfold quiet, step.
  destruct (block env (pc c) (st c)) as [[p' | e] s'] eqn:Hb; cbn [pc st]; [| done].
  intros Hp'. by eapply block_quiet.
Qed.

Lemma start_process_quiet (jobs_dir : path) (id : string) (docs : list Pdf) :
  quiet (start_process jobs_dir id docs).
Proof.
  intros _. split; [done |]. unfold start_process. cbn [st fs].
  intros p f Hpf. apply elem_of_list_to_map_2 in Hpf.
  apply list_elem_of_fmap in Hpf as (d & [= -> ->] & _). done.
Qed.

Lemma run_quiet (env : Env) (jobs_dir : path) (id : string) (docs : list Pdf)
    (evs : list event) :
  quiet (run env (start_process jobs_dir id docs) evs).
Proof.
  apply run_invariant; [apply start_process_quiet |].
  intros c [] Hq; [by apply step_quiet | exact Hq].
Qed.

(** ** Exceptions *)

(** C8. Whatever statement of the pipeline raises, after whatever
    history: the handler sets [status] to error and records the
    exception's text; [progress_pct] keeps the value it had when the
    exception was raised, which is a percentage; the worker has returned,
    and no later event changes the outcome (no retry). *)
Theorem unexpected_exception_sets_error
    (env : Env) (jobs_dir : path) (id : string) (docs : list Pdf) (evs : list event)
    (e : exn) (s' : State) :
  let c := run env (start_process jobs_dir id docs) evs in
  block env (pc c) (st c) = (Raise e, s') ->
  let c' := step env c in
  status (job (st c')) = "error" /\
  error (job (st c')) = Some (exn_msg e) /\
  progress_pct (job (st c')) = progress_pct (job s') /\
  0 <= progress_pct (job (st c')) <= 100 /\
  pc c' = Returned /\
  (forall evs', pc (run env c' evs') = Returned /\
                outcome (job (st (run env c' evs'))) = outcome (job (st c'))).
Proof.
  cbv zeta. intros Hb.
  pose proof (block_progress_ok env _ (run_progress_ok env jobs_dir id docs evs)) as Hp.
  rewrite Hb in Hp. cbn [snd] in Hp.
  assert (Hstep : step env (run env (start_process jobs_dir id docs) evs) =
                  {| st := (except_block e s').2; pc := Returned |}).
  { unfold step. by rewrite Hb. }
  rewrite Hstep. rewrite except_block_eq by done. cbn [st pc snd job].
  repeat split; try done; try apply Hp.
  - by apply outcome_returned.
  - by apply outcome_returned.
Qed.

Lemma unexpected_exception_sets_error_witness :
  status (job (st (step Sample.env Sample.no_docs))) = "error" /\
  error (job (st (step Sample.env Sample.no_docs))) = Some "No PDFs found in upload.".
Proof.
  pose proof (unexpected_exception_sets_error Sample.env ["jobs"] "j0" [] []
                (RuntimeError "No PDFs found in upload.")
                (block Sample.env (pc Sample.no_docs) (st Sample.no_docs)).2
                eq_refl) as H.
  cbv zeta in H. destruct H as (H1 & H2 & _).
  split; [exact H1 | exact H2].
Defined.

(** ** Cancellation *)




(** ** Download *)

Lemma download_choice (j : JobState) (kind : string) (o : option path) (name : string) :
  (kind, (o, name)) ∈ artifact_table j <->
  (if bool_decide (kind = "all") then Some (zip_all j, "all_output.zip")
   else if bool_decide (kind = "receipts_unstamped")
        then Some (zip_receipts_unstamped j, "receipts_unstamped.zip")
   else if bool_decide (kind = "receipts_stamped")
        then Some (zip_receipts_stamped j, "receipts_stamped.zip")
   else if bool_decide (kind = "credit_notes")
        then Some (zip_credit_notes j, "credit_notes.zip")
   else if bool_decide (kind = "csv") then Some (csv_path j, "classification_log.csv")
   else None) = Some (o, name).
Proof.
  unfold artifact_table. rewrite !elem_of_cons, elem_of_nil.
  repeat case_bool_decide; subst; split.
  all: try (intros [= <- <-]; tauto).
  all: try (intros [[= <- <-] | [[=] | [[=] | [[=] | [[=] | []]]]]]; reflexivity).
  all: try (intros [[=] | [[= <- <-] | [[=] | [[=] | [[=] | []]]]]]; reflexivity).
  all: try (intros [[=] | [[=] | [[= <- <-] | [[=] | [[=] | []]]]]]; reflexivity).
  all: try (intros [[=] | [[=] | [[=] | [[= <- <-] | [[=] | []]]]]]; reflexivity).
  all: try (intros [[=] | [[=] | [[=] | [[=] | [[= <- <-] | []]]]]]; reflexivity).
  all: try discriminate.
  all: intros [[=] | [[=] | [[=] | [[=] | [[=] | []]]]]]; congruence.
Qed.

Lemma artifact_table_known (j : JobState) (kind : string) (x : option path * string) :
  (kind, x) ∈ artifact_table j -> known_kind kind.
Proof.
  unfold artifact_table, known_kind. rewrite !elem_of_cons, !elem_of_nil.
  intros [[= -> _] | [[= -> _] | [[= -> _] | [[= -> _] | [[= -> _] | []]]]]]; tauto.
Qed.

Lemma known_kind_artifact (j : JobState) (kind : string) :
  known_kind kind -> exists x, (kind, x) ∈ artifact_table j.
Proof.
  unfold artifact_table, known_kind. rewrite !elem_of_cons, !elem_of_nil.
  intros [-> | [-> | [-> | [-> | [-> | []]]]]]; eexists; rewrite !elem_of_cons; eauto 10.
Qed.

(** C9. A download returns the file exactly when the job exists, its
    status is done, the kind is one of the five artifact kinds, and the
    path of that artifact is set and exists on disk.  Every other request
    is rejected: with 400 when the job exists and is not done, with 404
    when the job is unknown, or (for a done job) the kind is unknown, the
    path is unset or the file is missing. *)
Theorem download_only_when_ready
    (JOBS : gmap string JobState) (t : FS) (id kind : string) :
  (forall p name,
     download JOBS t id kind = Response (p, name) <->
     exists j, JOBS !! id = Some j /\ status j = "done" /\
               (kind, (Some p, name)) ∈ artifact_table j /\ is_Some (t !! p)) /\
  (forall code detail,
     download JOBS t id kind = HTTPException code detail ->
     (code = 400 /\ exists j, JOBS !! id = Some j /\ status j <> "done") \/
     (code = 404 /\
      (JOBS !! id = None \/
       exists j, JOBS !! id = Some j /\ status j = "done" /\
                 (~ known_kind kind \/
                  (exists name, (kind, (None, name)) ∈ artifact_table j) \/
                  (exists p name, (kind, (Some p, name)) ∈ artifact_table j /\
                                  t !! p = None))))).
Proof.
  unfold download. destruct (JOBS !! id) as [j |] eqn:Hj.
  2: { split; [intros p name; split; [done | by intros (? & ? & _)] |].
       intros code detail [= <- <-]. right. split; [done | by left]. }
  destruct (bool_decide (status j = "done")) eqn:Hst; cbn [negb].
  2: { apply bool_decide_eq_false in Hst.
       split; [intros p name; split; [done | intros (j' & [= <-] & ? & _); done] |].
       intros code detail [= <- <-]. left. split; [done | by exists j]. }
  apply bool_decide_eq_true in Hst.
  pose proof (download_choice j kind) as Hch.
  destruct (if bool_decide (kind = "all") then _ else _) as [[o nm] |] eqn:Hsel.
  - pose proof (proj2 (Hch o nm) eq_refl) as Hin. destruct o as [q |].
    + destruct (t !! q) as [f |] eqn:Hq; cbn [negb].
      * rewrite bool_decide_eq_true_2 by (by eexists). cbn [negb]. split.
        -- intros p name. split.
           ++ intros [= <- <-]. exists j. rewrite Hq. eauto.
           ++ intros (j' & [= <-] & _ & Hin' & _).
              apply Hch in Hin'. by simplify_eq.
        -- intros code detail [=].
      * rewrite bool_decide_eq_false_2 by (by intros [? ?]). cbn [negb]. split.
        -- intros p name. split; [done |].
           intros (j' & [= <-] & _ & Hin' & Hp).
           apply Hch in Hin'. simplify_eq. rewrite Hq in Hp. by destruct Hp.
        -- intros code detail [= <- <-]. right. split; [done |]. right.
           exists j. split; [done |]. split; [done |]. right. right. eauto.
    + split.
      * intros p name. split; [done |].
        intros (j' & [= <-] & _ & Hin' & _). apply Hch in Hin'. by simplify_eq.
      * intros code detail [= <- <-]. right. split; [done |]. right.
        exists j. split; [done |]. split; [done |]. right. left. eauto.
  - split.
    + intros p name. split; [done |].
      intros (j' & [= <-] & _ & Hin' & _). apply Hch in Hin'. by simplify_eq.
    + intros code detail [= <- <-]. right. split; [done |]. right.
      exists j. split; [done |]. split; [done |]. left.
      intros Hk. destruct (known_kind_artifact j kind Hk) as [[o nm] Hin].
      apply Hch in Hin. by simplify_eq.
Qed.

Lemma download_only_when_ready_witness :
  exists j, Sample.jobs !! "j1" = Some j /\ status j = "done" /\
            ("csv", (Some ["jobs"; "j1"; "classification_log.csv"], "classification_log.csv"))
              ∈ artifact_table j /\
            is_Some (fs (st Sample.finished) !! ["jobs"; "j1"; "classification_log.csv"]).
Proof.
  refine (proj1 (proj1 (download_only_when_ready Sample.jobs (fs (st Sample.finished))
                          "j1" "csv")
                   ["jobs"; "j1"; "classification_log.csv"] "classification_log.csv") _).
  vm_compute. reflexivity.
Defined.

(** ** The two variants *)

(** C10. For a verdict whose [is_receipt] is true, the script and the
    serving variant do not give the same (directory, label) pair: the
    script files the page in the directory of the serving table's row but
    labels it with the label of the other row, so that in the script the
    label and the directory are crossed (unstamped directory with
    STAMPED_RECEIPT, stamped directory with UNSTAMPED_RECEIPT). *)
Theorem script_label_crossed (a : dict) :
  py_bool (dict_get a "is_receipt" (JBool false)) = true ->
  let hs := py_bool (dict_get a "has_stamp" (JBool false)) in
  let serving := filing true hs in
  let script := Script.filing (dict_get a "is_receipt" (JBool false))
                              (dict_get a "has_stamp" (JBool false)) in
  script <> serving /\
  script = (serving.1, (filing true (negb hs)).2) /\
  script.2 <> serving.2 /\
  (forall pg, response pg = ApiContent (Some a) -> Script.file_page pg = Some script) /\
  (forall env pdf_file pages i pg rest s,
     get_groq_analysis env pg = Ok (Some a) -> a !! "__error__" = None ->
     exists row,
       all_rows (st (step env {| st := s; pc := InPage pdf_file pages i pg rest |}))
         = (all_rows s ++ [row])%list /\ row_status row = serving.2).
Proof.
  intros Hir. cbv zeta. unfold Script.filing. rewrite Hir.
  split; [| split; [| split; [| split]]].
  - destruct (py_bool (dict_get a "has_stamp" (JBool false)));
      cbv [filing negb]; intros ?; simplify_eq.
  - by destruct (py_bool (dict_get a "has_stamp" (JBool false))).
  - destruct (py_bool (dict_get a "has_stamp" (JBool false)));
      cbv [filing negb snd]; intros ?; simplify_eq.
  - intros pg Hpg. unfold Script.file_page, Script.get_groq_analysis. rewrite Hpg.
    destruct (Nat.eqb_spec (size a) 0) as [Hsz | Hsz].
    + apply map_size_empty_inv in Hsz. subst a.
      unfold dict_get in Hir. rewrite lookup_empty in Hir. discriminate.
    + unfold Script.filing. by rewrite Hir.
  - intros env pdf_file pages i pg rest s Ha He.
    destruct (page_step_filed env pdf_file pages i pg rest s a Ha He) as (_ & -> & _).
    unfold filed_state. cbn [all_rows]. eexists. split; [reflexivity |].
    cbn [row_status]. by rewrite Hir.
Qed.

Lemma script_label_crossed_witness :
  Script.filing (dict_get Sample.stamped_receipt "is_receipt" (JBool false))
                (dict_get Sample.stamped_receipt "has_stamp" (JBool false))
    = (["receipts"; "stamped"], "UNSTAMPED_RECEIPT").
Proof.
  refine (proj1 (proj2 (script_label_crossed Sample.stamped_receipt _))).
  vm_compute. reflexivity.
Defined.

(** The directories of the two variants coincide; only the labels
    differ. *)
Lemma script_directory_agrees (is_receipt has_stamp : json) :
  (Script.filing is_receipt has_stamp).1 = (filing (py_bool is_receipt) (py_bool has_stamp)).1.
Proof. unfold Script.filing, filing. by destruct (py_bool is_receipt), (py_bool has_stamp). Qed.

(** ** Page counts *)

(** The head of the document loop, when nothing is cancelled and the
    document renders: the page count is added to [total_pages] only when
    [total_pages] is still zero. *)
Lemma doc_block_total (pdf_file : Pdf) (rest : list Pdf) (pages : list Page) (s : State) :
  cancel_requested (job s) = false ->
  rendered pdf_file = Ok pages ->
  exists s',
    doc_block pdf_file rest s = (Ok (AtPage pdf_file pages 0 rest), s') /\
    total_pages (job s') =
      (if total_pages (job s) =? 0 then Z.of_nat (length pages) else total_pages (job s)) /\
    processed_pages (job s') = processed_pages (job s).
Proof.
  intros Hc Hr. destruct s as [j t r]. cbn [job] in *.
  unfold doc_block. red_m. rewrite Hc, Hr. red_m.
  destruct (total_pages j =? 0) eqn:Hz; red_m.
  - eexists. split; [reflexivity |]. proj.
    apply Z.eqb_eq in Hz. split; [lia | done].
  - eexists. split; [reflexivity |]. by proj.
Qed.

(** C3 fails on the code. Two documents of one page each, no page count
    known upfront: when the second document has been rendered and the
    worker stands at its first page, [total_pages] is still 1, the count
    of the first document. *)
Theorem second_document_not_added_to_total :
  let c := run Sample.env Sample.two_docs [Work; Work; Work; Work; Work; Work] in
  pc c = AtPage Sample.b_pdf [Sample.page_of 2 Sample.credit_note] 0 [] /\
  status (job (st c)) = "running" /\
  total_pages (job (st c)) = 1.
Proof. cbv zeta. repeat split; vm_compute; reflexivity. Qed.

(** C2 fails on the code. The same job: once the page of the second
    document is filed, [processed_pages] is 2 against a known
    [total_pages] of 1, while the job is running and when it is done. *)
Theorem processed_exceeds_total :
  let c := run Sample.env Sample.two_docs
             [Work; Work; Work; Work; Work; Work; Work; Work] in
  let c' := process_job Sample.env 20 Sample.two_docs in
  (status (job (st c)) = "running" /\
   total_pages (job (st c)) = 1 /\ processed_pages (job (st c)) = 2) /\
  (status (job (st c')) = "done" /\
   total_pages (job (st c')) = 1 /\ processed_pages (job (st c')) = 2).
Proof. cbv zeta. repeat split; vm_compute; reflexivity. Qed.

(** C4 fails on the code. One document of one page, counted upfront by
    [pdfinfo_from_path]; the oracle's answer decodes to [None]: the job
    ends done with [processed_pages] 0 and [total_pages] 1. *)
Theorem null_verdict_not_counted :
  let c := process_job Sample.env_pdfinfo 20 Sample.null_doc in
  pc c = Returned /\
  status (job (st c)) = "done" /\
  progress_pct (job (st c)) = 100 /\
  total_pages (job (st c)) = 1 /\
  processed_pages (job (st c)) = 0.
Proof. cbv zeta. repeat split; vm_compute; reflexivity. Qed.

(** The sibling path: the same document with an error indicator instead
    is counted. *)
Lemma error_verdict_counted :
  let c := process_job Sample.env_pdfinfo 20 Sample.failed_doc in
  status (job (st c)) = "done" /\
  total_pages (job (st c)) = 1 /\
  processed_pages (job (st c)) = 1 /\
  csv_path (job (st c)) = None.
Proof. cbv zeta. repeat split; vm_compute; reflexivity. Qed.

(** ** Page counts known upfront *)

Lemma pages_sum_nonneg (docs : list Pdf) : 0 <= pages_sum docs.
Proof.
  induction docs as [| d docs IH]; cbn [pages_sum foldr]; [lia |].
  fold (pages_sum docs). unfold npages. destruct (rendered d); lia.
Qed.

Lemma pages_sum_cons (d : Pdf) (docs : list Pdf) :
  pages_sum (d :: docs) = npages d + pages_sum docs.
Proof. reflexivity. Qed.

Lemma precount_sum (strict : bool) (docs : list Pdf) (acc : Z) :
  Forall (doc_ok strict) docs ->
  foldl (fun est pdf => match pdfinfo_pages pdf with
                        | Ok n => est + n
                        | Raise _ => est
                        end) acc docs = acc + pages_sum docs.
Proof.
  intros Hd. revert acc. induction Hd as [| d docs (ps & Hr & Hi & _) _ IH]; intros acc.
  - cbn. lia.
  - cbn [foldl]. rewrite IH, pages_sum_cons. unfold npages. rewrite Hr, Hi. lia.
Qed.

Lemma null_verdict_response (env : Env) (pg : Page) :
  get_groq_analysis env pg = Ok None -> response pg = ApiContent None.
Proof.
  unfold get_groq_analysis. destruct (client env); cbn [negb]; [| done].
  destruct (response pg) as [msg | [a |]]; done.
Qed.
Lemma block_accounted (strict : bool) (env : Env) (c : Config) (r : result control) (s' : State) :
  pdfinfo_from_path env = true ->
  accounted strict c ->
  block env (pc c) (st c) = (r, s') ->
  accounted_after strict r s'.
Proof.
  intros Henv. destruct c as [[j t rows] p]. unfold accounted. cbn [st pc job].
  intros [Hpp Hinv]. revert Hinv.
  destruct p as [docs | [| d docs] | d pages i rest | d pages i pg rest |];
    cbn [block].
  - intros (Hd & Hz & Ht). red_m. destruct docs as [| d0 docs0].
    + intros ?; simplify_eq. unfold accounted_after. proj. lia.
    + rewrite Henv. rewrite (precount_sum strict) by done. red_m.
      intros ?; simplify_eq. unfold accounted_after, accounted. cbn [st pc job]. proj.
      pose proof (pages_sum_nonneg (d0 :: docs0)) as Hs.
      split; [lia |]. split; [done |]. unfold rel.
      destruct (Z.ltb_spec 0 (0 + pages_sum (d0 :: docs0))); split; intros; lia.
  - intros (_ & Hle & Heq). exec_block; intros ?; simplify_eq; unfold accounted_after, accounted; cbn [st pc job]; proj.
    all: cbn [pages_sum foldr] in *; split; [lia |]; split; [lia |]; intros Hs _;
      specialize (Heq Hs); lia.
  - intros (Hd & Hle & Heq). apply Forall_cons in Hd as [(ps & Hr & Hi & Hans) Hd].
    rewrite pages_sum_cons in *. unfold npages in *. rewrite Hr in *.
    pose proof (pages_sum_nonneg docs) as Hs.
    red_m. destruct (cancel_requested j); red_m.
    + intros ?; simplify_eq. unfold accounted_after, accounted. cbn [st pc job]. proj.
      split; [lia |]. split; [lia |]. done.
    + rewrite Hr. red_m. destruct (Z.eqb_spec (total_pages j) 0) as [Hz | Hz]; red_m.
      * intros ?; simplify_eq. unfold accounted_after, accounted. cbn [st pc job]. proj.
        split; [lia |]. split; [lia |]. split; [done |]. split; [done |].
        rewrite Nat.sub_0_r. split; [lia |]. intros Hst. specialize (Heq Hst). lia.
      * intros ?; simplify_eq. unfold accounted_after, accounted. cbn [st pc job]. proj.
        split; [lia |]. split; [lia |]. split; [done |]. split; [done |].
        rewrite Nat.sub_0_r. split; [lia |]. intros Hst. specialize (Heq Hst). lia.
  - intros (Hi & Hans & Hd & Hle & Heq).
    pose proof (pages_sum_nonneg rest) as Hs.
    destruct (pages !! i) as [pg |] eqn:Hpg.
    + apply lookup_lt_Some in Hpg as Hlt.
      exec_block; intros ?; simplify_eq; unfold accounted_after, accounted; cbn [st pc job]; proj;
        try lia; try (split; [lia |]; split; [lia |]; done);
        (split; [lia |]); (split; [done |]); (split; [done |]); (split; [done |]);
        (split; [lia |]); intros Hst; specialize (Heq Hst); lia.
    + apply lookup_ge_None in Hpg.
      exec_block; intros ?; simplify_eq; unfold accounted_after, accounted; cbn [st pc job]; proj; try lia.
      split; [lia |]. split; [done |].
      split; [lia |]. intros Hst. specialize (Heq Hst). lia.
  - intros (Hpg & Hans & Hd & Hle & Heq).
    pose proof (pages_sum_nonneg rest) as Hs.
    apply lookup_lt_Some in Hpg as Hlt.
    page_cases env pg; exec_block; intros ?; simplify_eq;
      unfold accounted_after, accounted; cbn [st pc job]; proj; try lia.
    all: split; [lia |]; split; [lia |]; split; [done |]; split; [done |];
      split; [lia |]; intros Hst.
    all: try (specialize (Heq Hst); lia).
    exfalso. specialize (Hans Hst). rewrite Forall_lookup in Hans.
    apply (Hans i pg Hpg). by eapply null_verdict_response.
  - intros (Hle & Heq). red_m. intros ?; simplify_eq. unfold accounted_after, accounted. cbn [st pc job]. done.
Qed.


Lemma step_accounted (strict : bool) (env : Env) (c : Config) :
  pdfinfo_from_path env = true -> accounted strict c -> accounted strict (step env c).
Proof.
  intros Henv Hc. unfold step.
  destruct (block env (pc c) (st c)) as [[p' | e] s'] eqn:Hb;
    pose proof (block_accounted strict env c _ _ Henv Hc Hb) as Ha;
    unfold accounted_after in Ha; [exact Ha |].
  unfold accounted. cbn [st pc].
  destruct (except_block_frame e s') as (_ & _ & -> & -> & _ & -> & _).
  split; [lia |]. split; [lia |]. intros _ [=].
Qed.

Lemma start_process_accounted (strict : bool) (jobs_dir : path) (id : string)
    (docs : list Pdf) :
  Forall (doc_ok strict) docs -> accounted strict (start_process jobs_dir id docs).
Proof. intros Hd. unfold accounted. cbn. repeat split; try done; lia. Qed.

Lemma run_accounted (strict : bool) (env : Env) (jobs_dir : path) (id : string)
    (docs : list Pdf) (evs : list event) :
  pdfinfo_from_path env = true -> Forall (doc_ok strict) docs ->
  accounted strict (run env (start_process jobs_dir id docs) evs).
Proof.
  intros Henv Hd. apply run_invariant; [by apply start_process_accounted |].
  intros c [] Hc; [by apply step_accounted |].
  destruct c as [s p]. exact Hc.
Qed.

Lemma accounted_le (strict : bool) (c : Config) :
  accounted strict c -> processed_pages (job (st c)) <= total_pages (job (st c)).
Proof.
  unfold accounted, rel. intros [Hpp Hc].
  destruct (pc c) as [docs | todo | d pages i rest | d pages i pg rest |].
  - lia.
  - pose proof (pages_sum_nonneg todo). lia.
  - pose proof (pages_sum_nonneg rest). lia.
  - pose proof (pages_sum_nonneg rest). lia.
  - lia.
Qed.

(** With every document counted upfront, [processed_pages] stays within
    [total_pages] throughout: what C2 fails on is the incremental
    discovery alone. *)
Lemma processed_within_total_when_counted
    (env : Env) (jobs_dir : path) (id : string) (docs : list Pdf) (evs : list event) :
  pdfinfo_from_path env = true -> Forall (doc_ok false) docs ->
  let c := run env (start_process jobs_dir id docs) evs in
  0 <= processed_pages (job (st c)) <= total_pages (job (st c)).
Proof.
  intros Henv Hd. cbv zeta.
  pose proof (run_accounted false env jobs_dir id docs evs Henv Hd) as Ha.
  split; [apply Ha | by eapply accounted_le].
Qed.

(** ** The lifecycle *)

Lemma block_lifecycle (env : Env) (c : Config) (p' : control) (s' : State) :
  lifecycle c ->
  block env (pc c) (st c) = (Ok p', s') ->
  lifecycle {| st := s'; pc := p' |}.
Proof.
  destruct c as [[j t r] p]. unfold lifecycle at 1. cbn [st pc job].
  destruct p as [docs | [| d docs] | d pages i rest | d pages i pg rest |];
    cbn [block]; intros Hl.
  - exec_block; intros ?; simplify_eq; unfold lifecycle; cbn [st pc job]; by proj.
  - exec_block; intros ?; simplify_eq; unfold lifecycle; cbn [st pc job]; proj; tauto.
  - exec_block; intros ?; simplify_eq; unfold lifecycle; cbn [st pc job]; proj; tauto.
  - destruct (pages !! i); exec_block; intros ?; simplify_eq; unfold lifecycle;
      cbn [st pc job]; proj; tauto.
  - page_cases env pg; exec_block; intros ?; simplify_eq; unfold lifecycle;
      cbn [st pc job]; proj; tauto.
  - exec_block; intros ?; simplify_eq; unfold lifecycle; cbn [st pc job]; by proj.
Qed.

Lemma step_lifecycle (env : Env) (c : Config) : lifecycle c -> lifecycle (step env c).
Proof.
  intros Hl. unfold step.
  destruct (block env (pc c) (st c)) as [[p' | e] s'] eqn:Hb.
  - by eapply block_lifecycle.
  - unfold lifecycle. cbn [st pc].
    destruct (except_block_frame e s') as (_ & _ & _ & _ & _ & -> & _). tauto.
Qed.

Lemma run_lifecycle (env : Env) (jobs_dir : path) (id : string) (docs : list Pdf)
    (evs : list event) :
  lifecycle (run env (start_process jobs_dir id docs) evs).
Proof.
  apply run_invariant; [done |].
  intros c [] Hc; [by apply step_lifecycle |].
  destruct c as [s p]. exact Hc.
Qed.

(** A job is done only when its worker has returned. *)
Lemma done_returned (env : Env) (jobs_dir : path) (id : string) (docs : list Pdf)
    (evs : list event) :
  let c := run env (start_process jobs_dir id docs) evs in
  status (job (st c)) = "done" -> pc c = Returned.
Proof.
  cbv zeta. pose proof (run_lifecycle env jobs_dir id docs evs) as Hl.
  unfold lifecycle in Hl. intros Hd. rewrite Hd in Hl.
  by destruct (pc _).
Qed.

(** With every document counted upfront and no null verdict, a job that
    is done has [processed_pages = total_pages], error indicators
    included: what C4 fails on is the null verdict alone. *)
Lemma done_all_pages_counted
    (env : Env) (jobs_dir : path) (id : string) (docs : list Pdf) (evs : list event) :
  pdfinfo_from_path env = true -> Forall (doc_ok true) docs ->
  let c := run env (start_process jobs_dir id docs) evs in
  status (job (st c)) = "done" ->
  processed_pages (job (st c)) = total_pages (job (st c)).
Proof.
  intros Henv Hd. cbv zeta. intros Hdone.
  pose proof (run_accounted true env jobs_dir id docs evs Henv Hd) as Ha.
  pose proof (done_returned env jobs_dir id docs evs Hdone) as Hr.
  unfold accounted in Ha. rewrite Hr in Ha. destruct Ha as (_ & _ & Heq). by apply Heq.
Qed.

(** ** The worker returns *)

Lemma docs_cost_pos (docs : list Pdf) : (0 < docs_cost docs)%nat.
Proof. destruct docs; cbn [docs_cost foldr]; lia. Qed.

Lemma docs_cost_cons (d : Pdf) (docs : list Pdf) :
  docs_cost (d :: docs) = (2 + 2 * Z.to_nat (npages d) + docs_cost docs)%nat.
Proof. reflexivity. Qed.

Lemma moves_left_pos (p : control) : p <> Returned -> (0 < moves_left p)%nat.
Proof.
  destruct p as [docs | todo | d pages i rest | d pages i pg rest |]; try done;
    intros _; cbn [moves_left]; try lia.
  apply docs_cost_pos.
Qed.

Lemma block_moves_left (env : Env) (c : Config) (p' : control) (s' : State) :
  block env (pc c) (st c) = (Ok p', s') ->
  pc c <> Returned ->
  (moves_left p' < moves_left (pc c))%nat.
Proof.
  destruct c as [[j t r] p]. cbn [st pc].
  destruct p as [docs | [| d docs] | d pages i rest | d pages i pg rest |];
    cbn [block]; intros Hb Hnr; revert Hb.
  - exec_block; intros ?; simplify_eq; cbn [moves_left]; lia.
  - exec_block; intros ?; simplify_eq; cbn [moves_left];
      apply docs_cost_pos.
  - pose proof (docs_cost_pos docs). cbn [moves_left]. rewrite docs_cost_cons.
    exec_block; intros ?; simplify_eq; cbn [moves_left]; unfold npages;
      repeat case_match; simplify_eq; rewrite ?Nat2Z.id; lia.
  - destruct (pages !! i) as [pg |] eqn:Hpg.
    + apply lookup_lt_Some in Hpg.
      exec_block; intros ?; simplify_eq; cbn [moves_left]; lia.
    + exec_block; intros ?; simplify_eq; cbn [moves_left]; lia.
  - page_cases env pg; exec_block; intros ?; simplify_eq; cbn [moves_left]; lia.
  - done.
Qed.

Lemma step_moves_left (env : Env) (c : Config) :
  pc c <> Returned -> (moves_left (pc (step env c)) < moves_left (pc c))%nat.
Proof.
  intros Hnr. unfold step.
  destruct (block env (pc c) (st c)) as [[p' | e] s'] eqn:Hb; cbn [pc].
  - by eapply block_moves_left.
  - by apply moves_left_pos.
Qed.

(** [process_job] returns: with fuel for the moves that are left, the
    worker reaches its end. *)
Lemma process_job_returns (env : Env) (n : nat) (c : Config) :
  (moves_left (pc c) <= n)%nat -> pc (process_job env n c) = Returned.
Proof.
  revert c. induction n as [| n IH]; intros c Hn.
  - cbn [process_job].
    destruct (pc c) as [docs | todo | d pages i rest | d pages i pg rest |] eqn:Hp;
      [| | | | done];
      (assert (Hnr : pc c <> Returned) by (by rewrite Hp));
      pose proof (moves_left_pos _ Hnr) as Hpos; rewrite Hp in Hpos; lia.
  - cbn [process_job].
    destruct (pc c) as [docs | todo | d pages i rest | d pages i pg rest |] eqn:Hp;
      [| | | | done]; apply IH;
      (assert (Hnr : pc c <> Returned) by (by rewrite Hp));
      pose proof (step_moves_left env c Hnr) as Hlt; rewrite Hp in Hlt; lia.
Qed.

Lemma run_work_returned (env : Env) (n : nat) (c : Config) :
  pc c = Returned -> run env c (replicate n Work) = c.
Proof.
  intros Hp. induction n as [| n IH]; [done |].
  cbn [replicate]. unfold run in *. cbn [foldl apply_event].
  by rewrite step_returned.
Qed.

(** The fuelled run is a history of worker moves. *)
Lemma process_job_run (env : Env) (n : nat) (c : Config) :
  process_job env n c = run env c (replicate n Work).
Proof.
  revert c. induction n as [| n IH]; intros c; [done |].
  cbn [process_job replicate].
  assert (Hrun : run env c (Work :: replicate n Work)
                 = run env (step env c) (replicate n Work)) by done.
  rewrite Hrun.
  destruct (pc c) eqn:Hp; try apply IH.
  rewrite step_returned by done. by rewrite run_work_returned.
Qed.

(** * Further properties of the code *)

(** ** The log (app.py, lines 76-80) *)



Lemma job_log_length (line : log_line) (j : JobState) :
  (length (log j) <= 4000)%nat -> (length (log (job_log line j)) <= 4000)%nat.
Proof.
  intros H. unfold job_log. cbn [log set_log]. rewrite length_app. cbn [length].
  destruct (Nat.ltb_spec 4000 (length (log j) + 1)).
  - rewrite length_drop, length_app. cbn [length]. lia.
  - rewrite length_app. cbn [length]. lia.
Qed.

Lemma job_log_last (line : log_line) (j : JobState) :
  last (log (job_log line j)) = Some line.
Proof.
  unfold job_log. cbn [log set_log]. rewrite length_app. cbn [length].
  destruct (Nat.ltb_spec 4000 (length (log j) + 1)).
  - rewrite drop_app_le by lia. by rewrite last_snoc.
  - by rewrite last_snoc.
Qed.

(** Every write of the log goes through [job_log]; these variants of the
    execution tactics keep it folded. *)
Ltac proj_k :=
  cbn [job fs all_rows st pc fst snd with_progress
       job_id status progress_pct message error cancel_requested log total_pages
       processed_pages job_dir input_dir output_dir csv_path zip_all
       zip_receipts_unstamped zip_receipts_stamped zip_credit_notes
       set_status set_progress_pct set_message set_error set_cancel_requested set_log
       set_total_pages set_processed_pages set_csv_path set_zip_all
       set_zip_receipts_unstamped set_zip_receipts_stamped set_zip_credit_notes] in *.

Ltac red_k :=
  cbv beta iota zeta delta
    [start_block doc_block page_head doc_end finish_block except_block
     cancel_stop zip_folder zip_filtered_output write_file jlog
     mbind M_bind mret M_ret raise lift read_job modify_job get_fs put_fs
     get_rows put_rows job fs all_rows st pc fst snd with_progress filed_state];
  proj_k.

Ltac exec_block_k :=
  red_k;
  repeat first [split_progress; red_k | inner_case; red_k].

Ltac log_len := repeat first [assumption | apply job_log_length | progress proj_k].

Lemma block_log_bounded (env : Env) (c : Config) :
  (length (log (job (st c))) <= 4000)%nat ->
  (length (log (job (block env (pc c) (st c)).2)) <= 4000)%nat.
Proof.
  destruct c as [[j t r] p]. cbn [st pc job]. intros H.
  destruct p as [docs | [| d docs] | d pages i rest | d pages i pg rest |];
    cbn [block]; [ | | | | | done].
  - exec_block_k; log_len.
  - exec_block_k; log_len.
  - exec_block_k; log_len.
  - destruct (pages !! i); exec_block_k; log_len.
  - page_cases env pg; exec_block_k; log_len.
Qed.

Lemma step_log_bounded (env : Env) (c : Config) :
  (length (log (job (st c))) <= 4000)%nat ->
  (length (log (job (st (step env c)))) <= 4000)%nat.
Proof.
  intros H. pose proof (block_log_bounded env c H) as Hb. unfold step.
  destruct (block env (pc c) (st c)) as [[p | e] [j t r]]; cbn [snd st job] in *;
    [done |].
  unfold except_block. red_k. destruct (safe_pct _); red_k; log_len.
Qed.

(** X2. After every history of worker moves and cancel requests the log
    of a job holds at most 4000 lines. *)
Theorem log_bounded
    (env : Env) (jobs_dir : path) (id : string) (docs : list Pdf) (evs : list event) :
  (length (log (job (st (run env (start_process jobs_dir id docs) evs)))) <= 4000)%nat.
Proof.
  apply (run_invariant env (fun c => (length (log (job (st c))) <= 4000)%nat)).
  - cbn. lia.
  - intros c [] Hc; [by apply step_log_bounded |].
    cbn [apply_event st job]. unfold request_cancel. log_len.
Qed.

(** ** The percentage ([safe_pct], lines 83-88, and lines 236-237, 283-284) *)

Lemma safe_pct_defined (x : pynum) :
  x <> PFloat FNaN -> exists n, safe_pct x = Ok n /\ 0 <= n <= 100.
Proof.
  intros Hx.
  assert (Hok : exists n, safe_pct x = Ok n).
  { destruct x as [z | [| neg | neg m e]]; [| done | |].
    - unfold safe_pct, lt_int, gt_int, py_int. repeat case_match; by eexists.
    - destruct neg; by eexists.
    - unfold safe_pct, lt_int, gt_int, py_int, to_int. repeat case_match; by eexists. }
  destruct Hok as [n Hn]. exists n. split; [done |]. by eapply safe_pct_range.
Qed.

(** X3. [safe_pct] clamps an int to [0, 100]; on a float it answers with
    a percentage in range for every value but NaN, on which both
    comparisons are false and [int] raises [ValueError]. *)
Theorem safe_pct_total_but_nan :
  (forall z : Z, safe_pct (PInt z) = Ok (Z.max 0 (Z.min 100 z))) /\
  safe_pct (PFloat FNaN) = Raise (ValueError "cannot convert float NaN to integer") /\
  (forall neg : bool, safe_pct (PFloat (FInf neg)) = Ok (if neg then 0 else 100)) /\
  (forall x : pynum, x <> PFloat FNaN -> exists n, safe_pct x = Ok n /\ 0 <= n <= 100).
Proof.
  split; [| split; [done | split; [by intros [] | apply safe_pct_defined]]].
  intros z. unfold safe_pct, lt_int, gt_int, py_int.
  destruct (Z.ltb_spec z 0); [f_equal; lia |].
  destruct (Z.ltb_spec 100 z); f_equal; lia.
Qed.

Lemma safe_pct_total_but_nan_witness :
  exists n, safe_pct (PFloat (FFin false 5224175567749775 (-54))) = Ok n /\ 0 <= n <= 100.
Proof.
  refine (proj2 (proj2 (proj2 safe_pct_total_but_nan)) _ _).
  discriminate.
Defined.

(** The quotient of two ints is a finite float unless the divisor is 0
    or the dividend is beyond the floats. *)
Lemma round_mag_finite (n d : Z) :
  Z.log2 n < 1000 -> 0 <= Z.log2 d -> exists m e, round_mag n d = Some (m, e).
Proof.
  intros Hn Hd. unfold round_mag.
  assert (He : binade n d <= 947).
  { unfold binade, prec, emin. cbv zeta. case_match; lia. }
  revert He. generalize (binade n d). intros e He. cbv zeta.
  destruct (_ =? 2 ^ prec);
    match goal with
    | |- context [emax <? ?x] =>
        destruct (Z.ltb_spec emax x) as [Hlt | Hge];
        [unfold emax in Hlt; lia | by eexists _, _]
    end.
Qed.

Lemma int_truediv_finite (a b : Z) :
  Z.abs a < 2 ^ 1000 -> b <> 0 -> exists neg m e, int_truediv a b = Ok (FFin neg m e).
Proof.
  intros Ha Hb. unfold int_truediv.
  destruct (Z.eqb_spec b 0); [done |].
  destruct (Z.eqb_spec a 0); [by eexists _, _, _ |].
  destruct (round_mag_finite (Z.abs a) (Z.abs b)) as (m & e & ->).
  - apply Z.log2_lt_pow2; lia.
  - apply Z.log2_nonneg.
  - by eexists _, _, _.
Qed.

Lemma mul_int_100 (q : float) :
  q <> FNaN -> exists x, mul_int q 100 = Ok x /\ x <> FNaN.
Proof.
  intros Hq.
  assert (H100 : of_int 100 = Ok (FFin false 7036874417766400 (-46)))
    by (vm_compute; reflexivity).
  unfold mul_int. rewrite H100. eexists. split; [reflexivity |].
  destruct q as [| neg | neg m e]; [done | done |].
  unfold mul. repeat case_match; done.
Qed.

(** X4. The progress line never raises while [processed_pages] is below
    [2^1000] in size: the quotient is finite, the product is finite or
    infinite, and [safe_pct] takes both.  With [total_pages] positive a
    percentage in range is stored, and without it nothing is. *)
Theorem progress_update_never_raises (s : State) :
  Z.abs (processed_pages (job s)) < 2 ^ 1000 ->
  exists n, 0 <= n <= 100 /\
    update_progress s = (Ok tt, if 0 <? total_pages (job s) then with_progress n s else s).
Proof.
  intros Hp. unfold update_progress, mbind, M_bind, read_job, lift, modify_job, mret, M_ret.
  cbv beta iota.
  destruct (Z.ltb_spec 0 (total_pages (job s))) as [Ht | Ht]; [| exists 0; split; [lia | done]].
  destruct (int_truediv_finite (processed_pages (job s)) (total_pages (job s)))
    as (neg & m & e & ->); [done | lia |].
  destruct (mul_int_100 (FFin neg m e)) as (x & -> & Hx); [done |].
  destruct (safe_pct_defined (PFloat x)) as (n & -> & Hn).
  { congruence. }
  exists n. done.
Qed.

Lemma progress_update_never_raises_witness :
  exists n, 0 <= n <= 100 /\
    update_progress Sample.at_29_of_100
    = (Ok tt, if 0 <? total_pages (job Sample.at_29_of_100)
              then with_progress n Sample.at_29_of_100 else Sample.at_29_of_100).
Proof.
  apply (progress_update_never_raises Sample.at_29_of_100).
  vm_compute. reflexivity.
Defined.

(** ** The life of a job *)

Lemma moves_app (evs1 evs2 : list event) : moves (evs1 ++ evs2) = (moves evs1 + moves evs2)%nat.
Proof. induction evs1 as [| [] evs1 IH]; cbn [moves app]; lia. Qed.


Lemma moves_pos (evs : list event) : moves evs <> O <-> Work ∈ evs.
Proof.
  induction evs as [| [] evs IH]; cbn [moves].
  - split; [done | by intros ?%elem_of_nil].
  - split; [intros _; left | done].
  - rewrite IH. rewrite elem_of_cons. naive_solver.
Qed.

(** No block leads back to the start. *)
Lemma step_pc_not_queued (env : Env) (c : Config) (docs : list Pdf) :
  pc (step env c) <> Queued docs.
Proof.
  destruct c as [[j t r] p]. unfold step. cbn [pc st].
  destruct (block env p _) as [[p' | e] s'] eqn:Hb; [| by cbn]. cbn [pc]. revert Hb.
  destruct p as [ds | [| d ds] | d pages i rest | d pages i pg rest |]; cbn [block].
  - exec_block; intros ?; by simplify_eq.
  - exec_block; intros ?; by simplify_eq.
  - exec_block; intros ?; by simplify_eq.
  - destruct (pages !! i); exec_block; intros ?; by simplify_eq.
  - page_cases env pg; exec_block; intros ?; by simplify_eq.
  - exec_block; intros ?; by simplify_eq.
Qed.






(** ** The worker returns, and requests to cancel *)

Lemma run_moves_left (env : Env) (c : Config) (evs : list event) :
  (moves_left (pc (run env c evs)) <= moves_left (pc c) - moves evs)%nat.
Proof.
  induction evs as [| ev evs IH] using rev_ind; [cbn; lia |].
  rewrite run_snoc, moves_app. destruct ev; cbn [apply_event moves pc]; [| lia].
  destruct (pc (run env c evs)) as [ds | todo | d pages i rest | d pages i pg rest |] eqn:Hp;
    [| | | | rewrite step_returned by done; rewrite Hp; cbn; lia];
    (assert (Hnr : pc (run env c evs) <> Returned) by (by rewrite Hp));
    pose proof (step_moves_left env _ Hnr) as Hlt; rewrite Hp in *; lia.
Qed.

Lemma block_cancel_inv (env : Env) (c : Config) (p' : control) (s' : State) :
  lifecycle c -> pc c <> Returned ->
  block env (pc c) (st c) = (Ok p', s') ->
  cancel_inv {| st := s'; pc := p' |}.
Proof.
  destruct c as [[j t r] p]. unfold lifecycle, cancel_inv. cbn [st pc job].
  destruct p as [docs | [| d docs] | d pages i rest | d pages i pg rest |];
    cbn [block]; intros Hl Hnr; [ | | | | | done].
  - exec_block; intros ?; simplify_eq; by proj.
  - exec_block; intros ?; simplify_eq; by proj.
  - exec_block; intros ?; simplify_eq; proj; try done; rewrite Hl; done.
  - destruct (pages !! i); exec_block; intros ?; simplify_eq; proj; try done;
      rewrite Hl; done.
  - page_cases env pg; exec_block; intros ?; simplify_eq; proj; try done; rewrite Hl; done.
Qed.

Lemma step_cancel_inv (env : Env) (c : Config) :
  lifecycle c -> cancel_inv c -> cancel_inv (step env c).
Proof.
  intros Hl Hc.
  destruct (pc c) as [ds | todo | d pages i rest | d pages i pg rest |] eqn:Hp;
    [| | | | by rewrite step_returned];
    (assert (Hnr : pc c <> Returned) by (by rewrite Hp)); clear Hp;
    unfold step;
    (destruct (block env (pc c) (st c)) as [[p' | e] s'] eqn:Hb;
     [by eapply block_cancel_inv |]);
    unfold cancel_inv; cbn [st pc];
    destruct (except_block_frame e s') as (_ & _ & _ & _ & _ & -> & _); done.
Qed.

Lemma run_cancel_inv (env : Env) (jobs_dir : path) (id : string) (docs : list Pdf)
    (evs : list event) :
  cancel_inv (run env (start_process jobs_dir id docs) evs).
Proof.
  induction evs as [| ev evs IH] using rev_ind; [done |].
  rewrite run_snoc. destruct ev; cbn [apply_event].
  - apply step_cancel_inv; [apply run_lifecycle | done].
  - by intros _.
Qed.

Lemma run_cancel_requested (env : Env) (c : Config) (evs : list event) :
  cancel_requested (job (st c)) = false ->
  (cancel_requested (job (st (run env c evs))) = true <-> Cancel ∈ evs).
Proof.
  intros Hc. induction evs as [| ev evs IH] using rev_ind.
  - cbn. rewrite Hc. split; [done | by intros ?%elem_of_nil].
  - rewrite run_snoc, elem_of_app, list_elem_of_singleton. destruct ev; cbn [apply_event].
    + rewrite step_cancel_requested, IH. naive_solver.
    + cbn. naive_solver.
Qed.

(** X7. [process_job] returns.  A worker that has made more moves than
    one for the start, two for each document and two for each of its pages,
    and one for the end, has returned, whatever cancel requests came in
    between, and the job shows a final status; without a cancel request
    that status is done or error.  The uninterrupted worker is the case of
    a history of moves only. *)
Theorem worker_returns
    (env : Env) (jobs_dir : path) (id : string) (docs : list Pdf) (evs : list event) :
  (docs_cost docs < moves evs)%nat ->
  let c := run env (start_process jobs_dir id docs) evs in
  pc c = Returned /\
  terminal (job (st c)) /\
  (Cancel ∉ evs -> status (job (st c)) = "done" \/ status (job (st c)) = "error") /\
  process_job env (moves evs) (start_process jobs_dir id docs)
  = run env (start_process jobs_dir id docs) (replicate (moves evs) Work).
Proof.
  cbv zeta. intros Hm.
  pose proof (run_moves_left env (start_process jobs_dir id docs) evs) as Hl.
  cbn [start_process pc moves_left] in Hl.
  assert (Hr : pc (run env (start_process jobs_dir id docs) evs) = Returned).
  { destruct (pc (run env _ evs)) as [ds | todo | d pages i rest | d pages i pg rest |] eqn:Hp;
      [| | | | done];
      (assert (Hnr : pc (run env (start_process jobs_dir id docs) evs) <> Returned)
         by (by rewrite Hp));
      pose proof (moves_left_pos _ Hnr) as Hpos; rewrite Hp in Hpos; lia. }
  pose proof (run_lifecycle env jobs_dir id docs evs) as Hlc.
  unfold lifecycle in Hlc. rewrite Hr in Hlc.
  split; [done |]. split; [done |]. split; [| apply process_job_run].
  intros Hnc. destruct Hlc as [? | [? | Hcanc]]; [by left | by right |].
  pose proof (run_cancel_inv env jobs_dir id docs evs Hcanc) as Hflag.
  apply (run_cancel_requested env (start_process jobs_dir id docs) evs) in Hflag; done.
Qed.

Lemma worker_returns_witness :
  pc (run Sample.env (start_process ["jobs"] "j4" [Sample.a_pdf]) (replicate 6 Work))
  = Returned.
Proof.
  refine (proj1 (worker_returns Sample.env ["jobs"] "j4" [Sample.a_pdf] (replicate 6 Work) _)).
  vm_compute. lia.
Defined.

(** X8. [cancel_requested] is set by a cancel request and by nothing
    else, and never cleared: after a history it is true exactly when the
    history holds a request.  A job is cancelled only if one was made. *)
Theorem cancel_flag_records_requests
    (env : Env) (jobs_dir : path) (id : string) (docs : list Pdf) (evs : list event) :
  let c := run env (start_process jobs_dir id docs) evs in
  (cancel_requested (job (st c)) = true <-> Cancel ∈ evs) /\
  (status (job (st c)) = "cancelled" -> Cancel ∈ evs).
Proof.
  cbv zeta.
  pose proof (run_cancel_requested env (start_process jobs_dir id docs) evs eq_refl) as Hf.
  split; [done |]. intros Hs. apply Hf. by apply run_cancel_inv.
Qed.

Lemma cancel_flag_records_requests_witness :
  Cancel ∈ [Work; Cancel; Work].
Proof.
  refine (proj2 (cancel_flag_records_requests Sample.env ["jobs"] "j4" [Sample.a_pdf]
                   [Work; Cancel; Work]) _).
  vm_compute. reflexivity.
Defined.

(** ** Page counts known upfront (lines 186-197 and 222-224) *)

Lemma block_total_fixed (env : Env) (c : Config) :
  accounted false c -> (forall ds, pc c <> Queued ds) ->
  total_pages (job (block env (pc c) (st c)).2) = total_pages (job (st c)).
Proof.
  destruct c as [[j t rows] p]. unfold accounted. cbn [st pc job].
  intros [Hpp Hinv] Hnq. revert Hinv.
  destruct p as [docs | [| d docs] | d pages i rest | d pages i pg rest |];
    cbn [block]; [by destruct (Hnq docs) | | | | | done].
  - intros _. by exec_block.
  - intros (Hd & Hle & _). apply Forall_cons in Hd as [(ps & Hr & _) _].
    rewrite pages_sum_cons in Hle. unfold npages in Hle. rewrite Hr in Hle.
    pose proof (pages_sum_nonneg docs) as Hs.
    red_m. destruct (cancel_requested j); red_m; [done |].
    rewrite Hr. red_m. destruct (Z.eqb_spec (total_pages j) 0) as [Hz | Hz]; red_m; [lia | done].
  - intros _. destruct (pages !! i); by exec_block.
  - intros _. page_cases env pg; by exec_block.
Qed.

Lemma step_total_fixed (env : Env) (c : Config) :
  accounted false c -> (forall ds, pc c <> Queued ds) ->
  total_pages (job (st (step env c))) = total_pages (job (st c)).
Proof.
  intros Ha Hnq. pose proof (block_total_fixed env c Ha Hnq) as Hb. unfold step.
  destruct (block env (pc c) (st c)) as [[p' | e] s']; cbn [snd st] in *; [done |].
  by destruct (except_block_frame e s') as (_ & _ & _ & -> & _).
Qed.

(** The first move stores the sum of the counts. *)
Lemma start_total (env : Env) (s : State) (docs : list Pdf) :
  pdfinfo_from_path env = true -> Forall (doc_ok false) docs ->
  total_pages (job s) = 0 ->
  total_pages (job (st (step env {| st := s; pc := Queued docs |}))) = pages_sum docs.
Proof.
  intros Henv Hd Hz. destruct s as [j t rows]. cbn [job] in Hz.
  pose proof (pages_sum_nonneg docs) as Hs.
  unfold step. cbn [st pc block]. red_m. destruct docs as [| d0 docs0].
  - red_m. destruct (safe_pct _); red_m; done.
  - rewrite Henv. rewrite (precount_sum false) by done. red_m.
    destruct (Z.ltb_spec 0 (0 + pages_sum (d0 :: docs0))); lia.
Qed.

Lemma run_total_fixed (env : Env) (jobs_dir : path) (id : string) (docs : list Pdf)
    (evs : list event) :
  pdfinfo_from_path env = true -> Forall (doc_ok false) docs ->
  let c := run env (start_process jobs_dir id docs) evs in
  (moves evs = O /\ pc c = Queued docs /\ total_pages (job (st c)) = 0) \/
  ((forall ds, pc c <> Queued ds) /\ total_pages (job (st c)) = pages_sum docs).
Proof.
  intros Henv Hd. cbv zeta. induction evs as [| ev evs IH] using rev_ind; [by left |].
  pose proof (run_accounted false env jobs_dir id docs evs Henv Hd) as Ha.
  rewrite run_snoc, moves_app. destruct ev; cbn [apply_event moves].
  - right. split; [intros ds; apply step_pc_not_queued |].
    destruct IH as [(_ & Hq & Hz) | [Hnq Ht]].
    + destruct (run env _ evs) as [s p]. cbn [pc st] in *. subst p. by apply start_total.
    + by rewrite step_total_fixed.
  - cbn [pc st job]. unfold request_cancel.
    destruct IH as [(Hm & Hq & Hz) | [Hnq Ht]]; [left | right].
    + split; [lia |]. split; [done |]. exact Hz.
    + split; [done |]. exact Ht.
Qed.

(** X9. When the page counts are known upfront (the metadata call is
    available and gives for each document the number of pages it renders
    to), the first move of the worker fixes [total_pages] to their sum, no
    later move changes it, and [processed_pages] stays within it; and if
    moreover no verdict is null, a job that is done has processed them
    all. *)
Theorem pages_counted_upfront
    (env : Env) (jobs_dir : path) (id : string) (docs : list Pdf) (evs : list event) :
  pdfinfo_from_path env = true -> Forall (doc_ok false) docs ->
  let c := run env (start_process jobs_dir id docs) evs in
  (Work ∈ evs -> total_pages (job (st c)) = pages_sum docs) /\
  0 <= processed_pages (job (st c)) <= total_pages (job (st c)) /\
  (Forall (doc_ok true) docs -> status (job (st c)) = "done" ->
   processed_pages (job (st c)) = pages_sum docs).
Proof.
  intros Henv Hd. cbv zeta.
  pose proof (run_accounted false env jobs_dir id docs evs Henv Hd) as Ha.
  pose proof (run_total_fixed env jobs_dir id docs evs Henv Hd) as Ht. cbv zeta in Ht.
  assert (Hw : Work ∈ evs ->
               total_pages (job (st (run env (start_process jobs_dir id docs) evs)))
               = pages_sum docs).
  { intros Hw%moves_pos. by destruct Ht as [(? & _) | [_ ?]]. }
  split; [exact Hw |]. split; [split; [apply Ha | by eapply accounted_le] |].
  intros Hd' Hdone.
  pose proof (run_accounted true env jobs_dir id docs evs Henv Hd') as Ha'.
  pose proof (run_lifecycle env jobs_dir id docs evs) as Hl.
  unfold lifecycle, accounted in *. rewrite Hdone in Hl.
  destruct (pc (run env _ evs)) eqn:Hp; try done.
  destruct Ha' as (_ & _ & Heq). rewrite (Heq eq_refl Hdone).
  by destruct Ht as [(_ & ? & _) | [_ ?]].
Qed.

Lemma pages_counted_upfront_witness :
  let c := run Sample.env_pdfinfo (start_process ["jobs"] "j1" [Sample.a_pdf; Sample.b_pdf])
             (replicate 10 Work) in
  processed_pages (job (st c)) = pages_sum [Sample.a_pdf; Sample.b_pdf].
Proof.
  refine (proj2 (proj2 (pages_counted_upfront Sample.env_pdfinfo ["jobs"] "j1"
                          [Sample.a_pdf; Sample.b_pdf] (replicate 10 Work) eq_refl _)) _ _).
  - apply Forall_cons_2; [| apply Forall_cons_2; [| apply Forall_nil_2]];
      (eexists; split; [reflexivity | split; [reflexivity | done]]).
  - apply Forall_cons_2; [| apply Forall_cons_2; [| apply Forall_nil_2]];
      (eexists; split; [reflexivity | split; [reflexivity |]]); intros _;
      (apply Forall_cons_2; [unfold answered; cbn; discriminate | apply Forall_nil_2]).
  - vm_compute. reflexivity.
Defined.

(** ** Rows and files (lines 253-281) *)

Lemma row_image_length (out : path) (d : Pdf) (r : Row) :
  (length out + 3 <= length (row_image out d r))%nat.
Proof.
  unfold row_image, row_arcname. rewrite length_app. cbn [length]. rewrite length_app.
  cbn [length]. unfold filing. repeat case_match; cbn [fst length]; lia.
Qed.

Lemma filed_insert_png (out : path) (docs : list Pdf) (t : FS) (p : path) (n : N) (r : Row) :
  filed out docs t r -> filed out docs (<[p := Png n]> t) r.
Proof.
  intros (Hl & Hp & d & m & Hd & Hs & Ht). split; [done |]. split; [done |].
  destruct (decide (p = row_image out d r)) as [-> | Hne].
  - exists d, n. by rewrite lookup_insert_eq.
  - exists d, m. by rewrite lookup_insert_ne.
Qed.

Lemma filed_insert_short (out : path) (docs : list Pdf) (t : FS) (p : path) (f : file)
    (r : Row) :
  (length p < length out + 3)%nat ->
  filed out docs t r -> filed out docs (<[p := f]> t) r.
Proof.
  intros Hlen (Hl & Hp & d & m & Hd & Hs & Ht). split; [done |]. split; [done |].
  exists d, m. split; [done |]. split; [done |].
  rewrite lookup_insert_ne; [done |].
  intros ->. pose proof (row_image_length out d r). lia.
Qed.

Lemma filed_delete_short (out : path) (docs : list Pdf) (t : FS) (p : path) (r : Row) :
  (length p < length out + 3)%nat ->
  filed out docs t r -> filed out docs (delete p t) r.
Proof.
  intros Hlen (Hl & Hp & d & m & Hd & Hs & Ht). split; [done |]. split; [done |].
  exists d, m. split; [done |]. split; [done |].
  rewrite lookup_delete_ne; [done |].
  intros ->. pose proof (row_image_length out d r). lia.
Qed.

Ltac short_path :=
  unfold pjoin; rewrite ?length_app; cbn [length]; lia.

Ltac keep_rows :=
  repeat first
    [ assumption
    | apply Forall_nil_2
    | (eapply Forall_impl; [eassumption |]; intros ? ?)
    | (apply filed_insert_png)
    | (apply filed_insert_short; [short_path |])
    | (apply filed_delete_short; [short_path |]) ].

Lemma block_rows_filed (docs : list Pdf) (env : Env) (c : Config)
    (r : result control) (s' : State) :
  rows_filed docs c ->
  block env (pc c) (st c) = (r, s') ->
  rows_filed_after docs r s'.
Proof.
  destruct c as [[j t rows] p]. unfold rows_filed. cbn [st pc job fs all_rows].
  intros (Hin & Hout & Hpend & Hlen & Hrows). revert Hpend.
  destruct p as [ds | [| d ds] | d pages i rest | d pages i pg rest |];
    cbn [block pending]; intros Hpend.
  - exec_block; intros ?; simplify_eq; unfold rows_filed_after, rows_filed;
      cbn [st pc job fs all_rows pending]; proj; cbn [length];
      (split; [done |]); (split; [done |]); (split; [set_solver |]); (split; [lia |]);
      apply Forall_nil_2.
  - exec_block; intros ?; simplify_eq; unfold rows_filed_after, rows_filed;
      cbn [st pc job fs all_rows pending]; proj;
      (split; [done |]); (split; [done |]); (split; [set_solver |]); (split; [lia |]);
      rewrite Hout in *; keep_rows.
  - exec_block; intros ?; simplify_eq; unfold rows_filed_after, rows_filed;
      cbn [st pc job fs all_rows pending]; proj;
      (split; [done |]); (split; [done |]); (split; [set_solver |]); (split; [lia |]);
      keep_rows.
  - destruct (pages !! i); exec_block; intros ?; simplify_eq;
      unfold rows_filed_after, rows_filed;
      cbn [st pc job fs all_rows pending]; proj;
      (split; [done |]); (split; [done |]); (split; [set_solver |]); (split; [lia |]);
      rewrite ?Hin, ?Hout in *; keep_rows.
  - page_cases env pg; exec_block; intros ?; simplify_eq;
      unfold rows_filed_after, rows_filed;
      cbn [st pc job fs all_rows pending]; proj;
      (split; [done |]); (split; [done |]); (split; [set_solver |]);
      rewrite ?length_app; cbn [length]; (split; [lia |]);
      try (apply Forall_app; split); keep_rows.
    all: apply Forall_cons_2; [| apply Forall_nil_2].
    all: unfold filed, row_image, row_arcname, pjoin;
      cbn [row_status is_receipt has_stamp page source_pdf].
    all: match goal with H : filing _ _ = _ |- _ => rewrite H end; cbn [fst snd].
    all: split; [done |]; split; [lia |].
    all: exists d, (image pg); split; [set_solver |]; split; [done |].
    all: rewrite <- !(assoc_L (++)); cbn [app]; apply lookup_insert_eq.
  - exec_block; intros ?; simplify_eq; unfold rows_filed_after, rows_filed;
      cbn [st pc job fs all_rows pending]; proj; done.
Qed.

Lemma step_rows_filed (docs : list Pdf) (env : Env) (c : Config) :
  rows_filed docs c -> rows_filed docs (step env c).
Proof.
  intros Hc. unfold step.
  destruct (block env (pc c) (st c)) as [[p' | e] s'] eqn:Hb;
    pose proof (block_rows_filed docs env c _ _ Hc Hb) as Ha;
    unfold rows_filed_after in Ha; [exact Ha |].
  destruct s' as [j t rows]. revert Ha. unfold rows_filed. cbn [st pc job fs all_rows].
  unfold except_block. red_m. destruct (safe_pct _); red_m; done.
Qed.

Lemma run_rows_filed (env : Env) (jobs_dir : path) (id : string) (docs : list Pdf)
    (evs : list event) :
  rows_filed docs (run env (start_process jobs_dir id docs) evs).
Proof.
  apply run_invariant.
  - unfold rows_filed. cbn. repeat split; done.
  - intros c [] Hc; [by apply step_rows_filed |].
    destruct c as [[j t rows] p]. exact Hc.
Qed.

(** The worker never renames a job or moves its directories. *)
Lemma block_dirs (env : Env) (c : Config) :
  let j' := job (block env (pc c) (st c)).2 in
  job_id j' = job_id (job (st c)) /\ job_dir j' = job_dir (job (st c)) /\
  input_dir j' = input_dir (job (st c)) /\ output_dir j' = output_dir (job (st c)).
Proof.
  destruct c as [[j t r] p]. cbn [st pc job].
  destruct p as [docs | [| d docs] | d pages i rest | d pages i pg rest |];
    cbn [block]; [ | | | | | done].
  - by exec_block.
  - by exec_block.
  - by exec_block.
  - destruct (pages !! i); by exec_block.
  - page_cases env pg; by exec_block.
Qed.

Lemma run_dirs (env : Env) (jobs_dir : path) (id : string) (docs : list Pdf)
    (evs : list event) :
  let j := job (st (run env (start_process jobs_dir id docs) evs)) in
  job_id j = id /\ job_dir j = jobs_dir </> id /\
  input_dir j = jobs_dir </> id </> "input" /\ output_dir j = jobs_dir </> id </> "output".
Proof.
  apply (run_invariant env (fun c =>
    job_id (job (st c)) = id /\ job_dir (job (st c)) = jobs_dir </> id /\
    input_dir (job (st c)) = jobs_dir </> id </> "input" /\
    output_dir (job (st c)) = jobs_dir </> id </> "output")); [done |].
  intros c [] (H1 & H2 & H3 & H4); [| done].
  pose proof (block_dirs env c) as (Hb1 & Hb2 & Hb3 & Hb4). cbn [apply_event]. unfold step.
  destruct (block env (pc c) (st c)) as [[p' | e] [j t r]]; cbn [snd st job] in *.
  - repeat split; congruence.
  - unfold except_block. red_m. destruct (safe_pct _); red_m; repeat split; congruence.
Qed.

(** X10. Every row of [all_rows] is backed by a file, after every
    history: its label is the one the decision table gives for its two
    flags, its page number counts from 1, its [source_pdf] is the name of
    an uploaded document, and the file system holds an image at
    [output/<stem>/<directory of the label>/page_<n>.png] for it.  There
    are never more rows than [processed_pages]. *)
Theorem rows_match_files
    (env : Env) (jobs_dir : path) (id : string) (docs : list Pdf) (evs : list event) :
  let c := run env (start_process jobs_dir id docs) evs in
  Z.of_nat (length (all_rows (st c))) <= processed_pages (job (st c)) /\
  Forall (filed (jobs_dir </> id </> "output") docs (fs (st c))) (all_rows (st c)).
Proof.
  cbv zeta. pose proof (run_rows_filed env jobs_dir id docs evs) as (_ & _ & _ & Hl & Hr).
  pose proof (run_dirs env jobs_dir id docs evs) as (_ & _ & _ & Ho). cbv zeta in Ho.
  rewrite Ho in Hr. done.
Qed.

(** ** Archives ([zip_folder] and [zip_filtered_output], lines 152-169) *)

Lemma relative_to_spec (root p q : path) :
  relative_to root p = Some q <-> p = (root ++ q)%list.
Proof.
  revert p. induction root as [| r root IH]; intros p; cbn [relative_to app].
  - split; congruence.
  - destruct p as [| s p]; [done |].
    destruct (decide (r = s)) as [-> | Hne].
    + rewrite IH. split; congruence.
    + split; [done | congruence].
Qed.

Lemma relative_to_app (root q : path) : relative_to root (root ++ q) = Some q.
Proof. by apply relative_to_spec. Qed.

Lemma zip_members_iff (root : path) (filter_fn : path -> bool) (t : FS) (q : path) :
  q ∈ zip_members root filter_fn t <->
  is_Some (t !! (root ++ q)%list) /\ filter_fn (root ++ q)%list = true.
Proof.
  unfold zip_members. rewrite elem_of_list_to_set, list_elem_of_omap. split.
  - intros (p & Hp & Hq). apply elem_of_elements, elem_of_dom in Hp.
    destruct (filter_fn p) eqn:Hf; [| done].
    apply relative_to_spec in Hq as ->. done.
  - intros [Hp Hf]. exists (root ++ q)%list. split.
    + by apply elem_of_elements, elem_of_dom.
    + by rewrite Hf, relative_to_app.
Qed.

(** A file that is not below the root is not seen by the walk. *)
Lemma zip_members_insert_outside (root p : path) (f : file) (filter_fn : path -> bool)
    (t : FS) :
  relative_to root p = None ->
  zip_members root filter_fn (<[p := f]> t) = zip_members root filter_fn t.
Proof.
  intros Hp. apply set_eq. intros q. rewrite !zip_members_iff.
  rewrite lookup_insert_ne; [done |].
  intros ->. by rewrite relative_to_app in Hp.
Qed.

Lemma relative_to_sibling (dir : path) (x y : string) (l : path) :
  x <> y -> relative_to (dir </> x) ((dir </> y) ++ l)%list = None.
Proof.
  intros Hxy. destruct (relative_to _ _) as [q |] eqn:Hq; [| done].
  apply relative_to_spec in Hq. unfold pjoin in Hq.
  rewrite <- !(assoc_L (++)) in Hq. apply app_inv_head in Hq. cbn in Hq. congruence.
Qed.

(** X11. The walk of [zip_filtered_output] archives, under its path
    relative to the root, exactly the files below the root that pass the
    filter; [zip_folder] is the walk without a filter, so every filtered
    archive of a tree is a part of its full archive, and an empty tree
    gives an empty archive. *)
Theorem archive_holds_filtered_tree
    (root : path) (filter_fn : path -> bool) (t : FS) (q : path) :
  q <> [] ->
  (q ∈ zip_members root filter_fn t <->
   is_Some (t !! (root ++ q)%list) /\ filter_fn (root ++ q)%list = true) /\
  (q ∈ zip_members root filter_fn t -> q ∈ zip_members root (fun _ => true) t) /\
  zip_members root filter_fn ∅ = ∅.
Proof.
  intros _. split; [apply zip_members_iff |]. split.
  - rewrite !zip_members_iff. tauto.
  - apply set_eq. intros q'. rewrite zip_members_iff, lookup_empty.
    split; [by intros [[? ?] _] | set_solver].
Qed.

Lemma archive_holds_filtered_tree_witness :
  ["a"; "credit_notes"; "page_1.png"]
    ∈ zip_members ["out"] is_credit {[ ["out"; "a"; "credit_notes"; "page_1.png"] := Png 1 ]}.
Proof.
  refine (proj2 (proj1 (archive_holds_filtered_tree ["out"] is_credit
            {[ ["out"; "a"; "credit_notes"; "page_1.png"] := Png 1 ]}
            ["a"; "credit_notes"; "page_1.png"] _)) _).
  - discriminate.
  - split; [by eexists | by vm_compute].
Defined.

(** ** What a finished job has on disk (lines 294-332) *)

Ltac path_neq :=
  unfold pjoin; rewrite <- ?(assoc_L (++)); cbn [app];
  let H := fresh in intros H; apply app_inv_head in H; discriminate H.

Lemma outside_zips (dir : path) (name : string) :
  relative_to (dir </> "output") (dir </> "zips" </> name) = None.
Proof. by apply (relative_to_sibling dir "output" "zips" [name]). Qed.

Lemma outside_csv (dir : path) :
  relative_to (dir </> "output") (dir </> "classification_log.csv") = None.
Proof.
  pose proof (relative_to_sibling dir "output" "classification_log.csv" []) as H.
  rewrite app_nil_r in H. by apply H.
Qed.

Ltac outside out_eq :=
  rewrite out_eq; first [apply outside_zips | apply outside_csv].

Ltac find_file :=
  repeat (rewrite lookup_insert_ne by path_neq); rewrite lookup_insert_eq.

Lemma block_artifacts (env : Env) (c : Config) (p' : control) (s' : State) :
  lifecycle c -> pc c <> Returned ->
  no_artifacts (job (st c)) ->
  output_dir (job (st c)) = job_dir (job (st c)) </> "output" ->
  block env (pc c) (st c) = (Ok p', s') ->
  artifacts_ok {| st := s'; pc := p' |}.
Proof.
  destruct c as [[j t rows] p]. unfold lifecycle, artifacts_ok, no_artifacts.
  cbn [st pc job fs all_rows].
  destruct p as [docs | [| d docs] | d pages i rest | d pages i pg rest |];
    cbn [block]; intros Hl Hnr (Hcsv & _) Hout; [ | | | | | done].
  - exec_block; intros ?; simplify_eq; by proj.
  - exec_block; intros ?; simplify_eq; proj; intros _; unfold holds_archive.
    + repeat split; try done; find_file; do 2 f_equal;
        rewrite ?zip_members_insert_outside by outside Hout; reflexivity.
    + repeat split; try done; find_file; try done; do 2 f_equal;
        rewrite ?zip_members_insert_outside by outside Hout; reflexivity.
  - exec_block; intros ?; simplify_eq; proj; try done; rewrite Hl; done.
  - destruct (pages !! i); exec_block; intros ?; simplify_eq; proj; try done;
      rewrite Hl; done.
  - page_cases env pg; exec_block; intros ?; simplify_eq; proj; try done; rewrite Hl; done.
Qed.

Lemma run_artifacts (env : Env) (jobs_dir : path) (id : string) (docs : list Pdf)
    (evs : list event) :
  artifacts_ok (run env (start_process jobs_dir id docs) evs).
Proof.
  induction evs as [| ev evs IH] using rev_ind; [by intros ? |].
  rewrite run_snoc.
  pose proof (run_lifecycle env jobs_dir id docs evs) as Hl.
  pose proof (run_quiet env jobs_dir id docs evs) as Hq.
  pose proof (run_dirs env jobs_dir id docs evs) as (_ & Hd & _ & Ho). cbv zeta in Hd, Ho.
  destruct ev; cbn [apply_event]; [| exact IH].
  assert (Hcase : pc (run env (start_process jobs_dir id docs) evs) = Returned \/
                  pc (run env (start_process jobs_dir id docs) evs) <> Returned)
    by (destruct (pc _); (by left) || (by right)).
  destruct Hcase as [Hr | Hr]; [by rewrite step_returned |].
  destruct (Hq Hr) as [Hna _]. unfold step.
  destruct (block env _ _) as [[p' | e] s'] eqn:Hb.
  - eapply block_artifacts; [exact Hl | exact Hr | exact Hna | | exact Hb].
    by rewrite Ho, Hd.
  - unfold artifacts_ok. cbn [st pc].
    destruct (except_block_frame e s') as (_ & _ & _ & _ & _ & -> & _). done.
Qed.

Lemma category_filter (out : path) (d : Pdf) (r : Row) :
  (if is_receipt r then if has_stamp r then is_stamped else is_unstamped else is_credit)
    (row_image out d r) = true.
Proof.
  unfold row_image, row_arcname, filing, is_stamped, is_unstamped, is_credit.
  destruct (is_receipt r), (has_stamp r); cbn [fst app];
    rewrite ?andb_true_iff, !bool_decide_eq_true, !elem_of_app, !elem_of_cons;
    tauto.
Qed.

Lemma holds_archived (t : FS) (out : path) (o : option path) (p : path)
    (filter_fn : path -> bool) (q : path) :
  holds_archive t out o p filter_fn ->
  is_Some (t !! (out ++ q)%list) -> filter_fn (out ++ q)%list = true ->
  archived t o q.
Proof.
  intros [Ho Hp] Hq Hf. exists p, (zip_members out filter_fn t).
  split; [done |]. split; [done |]. by apply zip_members_iff.
Qed.

(** X12. A job that is done has its four archives on disk, at the
    paths its record names, and each holds exactly the files of the output
    tree that pass its filter.  The image of every row of the CSV is in the
    full archive and in the archive of the row's category. *)
Theorem done_job_archives
    (env : Env) (jobs_dir : path) (id : string) (docs : list Pdf) (evs : list event) :
  let c := run env (start_process jobs_dir id docs) evs in
  let j := job (st c) in
  let t := fs (st c) in
  let out := jobs_dir </> id </> "output" in
  let zips := jobs_dir </> id </> "zips" in
  status j = "done" ->
  holds_archive t out (zip_all j) (zips </> "all_output.zip") (fun _ => true) /\
  holds_archive t out (zip_receipts_unstamped j) (zips </> "receipts_unstamped.zip")
    is_unstamped /\
  holds_archive t out (zip_receipts_stamped j) (zips </> "receipts_stamped.zip") is_stamped /\
  holds_archive t out (zip_credit_notes j) (zips </> "credit_notes.zip") is_credit /\
  Forall (fun r => exists d, d ∈ docs /\ source_pdf r = pdf_name d /\
                             archived t (zip_all j) (row_arcname d r) /\
                             archived t (category_zip j r) (row_arcname d r))
         (all_rows (st c)).
Proof.
  cbv zeta. intros Hdone.
  pose proof (run_artifacts env jobs_dir id docs evs Hdone) as Ha. cbv zeta in Ha.
  pose proof (run_dirs env jobs_dir id docs evs) as (_ & Hd & _ & Ho). cbv zeta in Hd, Ho.
  rewrite Hd, Ho in Ha. destruct Ha as (Hall & Hu & Hs & Hc & _).
  split; [done |]. split; [done |]. split; [done |]. split; [done |].
  pose proof (run_rows_filed env jobs_dir id docs evs) as (_ & _ & _ & _ & Hr).
  rewrite Ho in Hr. eapply Forall_impl; [exact Hr |].
  intros r (_ & _ & d & n & Hdd & Hsrc & Hfile). exists d.
  split; [done |]. split; [done |].
  pose proof (category_filter (jobs_dir </> id </> "output") d r) as Hf.
  assert (Hsome : is_Some (fs (st (run env (start_process jobs_dir id docs) evs))
                           !! ((jobs_dir </> id </> "output") ++ row_arcname d r)%list))
    by (by eexists).
  split; [by eapply holds_archived |].
  unfold category_zip.
  destruct (is_receipt r); [destruct (has_stamp r) |]; by eapply holds_archived.
Qed.

Lemma done_job_archives_witness :
  zip_credit_notes
    (job (st (run Sample.env (start_process ["jobs"] "j4" [Sample.a_pdf]) (replicate 6 Work))))
  = Some (["jobs"] </> "j4" </> "zips" </> "credit_notes.zip").
Proof.
  refine (proj1 (proj1 (proj2 (proj2 (proj2
    (done_job_archives Sample.env ["jobs"] "j4" [Sample.a_pdf] (replicate 6 Work) _)))))).
  vm_compute. reflexivity.
Defined.

Lemma download_done (JOBS : Jobs) (t : FS) (id kind : string) (j : JobState)
    (o : option path) (name : string) :
  JOBS !! id = Some j -> status j = "done" ->
  (kind, (o, name)) ∈ artifact_table j ->
  download JOBS t id kind =
    match o with
    | Some p => if bool_decide (is_Some (t !! p)) then Response (p, name)
                else HTTPException 404 "File not found"
    | None => HTTPException 404 "File not found"
    end.
Proof.
  intros Hj Hs Hk. apply download_choice in Hk.
  unfold download. rewrite Hj, Hs. rewrite (bool_decide_eq_true_2 ("done" = "done")) by done.
  cbn [negb]. rewrite Hk. destruct o as [p |]; [| done].
  by destruct (bool_decide (is_Some (t !! p))).
Qed.

(** X13. For a job that is done, each of the four archive kinds
    downloads its archive.  The CSV downloads when at least one page was
    filed, and it then holds the header and the rows; when none was, the
    download answers 404 File not found, although the status operation
    lists the CSV link for every job that is done. *)
Theorem done_job_downloads
    (env : Env) (jobs_dir : path) (id : string) (docs : list Pdf) (evs : list event)
    (JOBS : Jobs) :
  let c := run env (start_process jobs_dir id docs) evs in
  let t := fs (st c) in
  let dir := jobs_dir </> id in
  JOBS !! id = Some (job (st c)) ->
  status (job (st c)) = "done" ->
  download JOBS t id "all" = Response (dir </> "zips" </> "all_output.zip", "all_output.zip") /\
  download JOBS t id "receipts_unstamped"
  = Response (dir </> "zips" </> "receipts_unstamped.zip", "receipts_unstamped.zip") /\
  download JOBS t id "receipts_stamped"
  = Response (dir </> "zips" </> "receipts_stamped.zip", "receipts_stamped.zip") /\
  download JOBS t id "credit_notes"
  = Response (dir </> "zips" </> "credit_notes.zip", "credit_notes.zip") /\
  match all_rows (st c) with
  | [] => download JOBS t id "csv" = HTTPException 404 "File not found"
  | rows =>
      download JOBS t id "csv"
      = Response (dir </> "classification_log.csv", "classification_log.csv") /\
      t !! (dir </> "classification_log.csv") = Some (CsvFile csv_headers rows)
  end /\
  exists snap links, get_job JOBS id = Response snap /\
    snap_downloads snap = Some links /\
    ("csv_log", "/api/job/" +:+ id +:+ "/download/csv") ∈ links.
Proof.
  cbv zeta. intros Hj Hdone.
  pose proof (run_artifacts env jobs_dir id docs evs Hdone) as Ha. cbv zeta in Ha.
  pose proof (run_dirs env jobs_dir id docs evs) as (_ & Hd & _ & Ho). cbv zeta in Hd, Ho.
  rewrite Hd, Ho in Ha. unfold holds_archive in Ha.
  destruct Ha as ((Ha1 & Ha2) & (Hu1 & Hu2) & (Hs1 & Hs2) & (Hc1 & Hc2) & Hcsv).
  split; [| split; [| split; [| split; [| split]]]].
  - rewrite (download_done JOBS _ id "all" _ _ "all_output.zip" Hj Hdone)
      by (unfold artifact_table; rewrite !elem_of_cons; tauto).
    rewrite Ha1. by rewrite bool_decide_eq_true_2 by (by eexists).
  - rewrite (download_done JOBS _ id "receipts_unstamped" _ _ "receipts_unstamped.zip" Hj Hdone)
      by (unfold artifact_table; rewrite !elem_of_cons; tauto).
    rewrite Hu1. by rewrite bool_decide_eq_true_2 by (by eexists).
  - rewrite (download_done JOBS _ id "receipts_stamped" _ _ "receipts_stamped.zip" Hj Hdone)
      by (unfold artifact_table; rewrite !elem_of_cons; tauto).
    rewrite Hs1. by rewrite bool_decide_eq_true_2 by (by eexists).
  - rewrite (download_done JOBS _ id "credit_notes" _ _ "credit_notes.zip" Hj Hdone)
      by (unfold artifact_table; rewrite !elem_of_cons; tauto).
    rewrite Hc1. by rewrite bool_decide_eq_true_2 by (by eexists).
  - rewrite (download_done JOBS _ id "csv" _ _ "classification_log.csv" Hj Hdone)
      by (unfold artifact_table; rewrite !elem_of_cons; tauto).
    destruct (all_rows _) as [| r rows].
    + by rewrite Hcsv.
    + destruct Hcsv as [-> Hfile]. split; [| done].
      by rewrite bool_decide_eq_true_2 by (by eexists).
  - unfold get_job. rewrite Hj, Hdone.
    rewrite (bool_decide_eq_true_2 ("done" = "done")) by done.
    eexists _, _. split; [reflexivity |]. split; [reflexivity |].
    rewrite !elem_of_cons. tauto.
Qed.

Lemma done_job_downloads_witness :
  download
    {[ "j4" := job (st (run Sample.env (start_process ["jobs"] "j4" [Sample.a_pdf])
                          (replicate 6 Work))) ]}
    (fs (st (run Sample.env (start_process ["jobs"] "j4" [Sample.a_pdf]) (replicate 6 Work))))
    "j4" "all"
  = Response (["jobs"] </> "j4" </> "zips" </> "all_output.zip", "all_output.zip").
Proof.
  refine (proj1 (done_job_downloads Sample.env ["jobs"] "j4" [Sample.a_pdf]
                   (replicate 6 Work) _ _ _)).
  - apply lookup_singleton_eq.
  - vm_compute. reflexivity.
Defined.

(** ** The controller: cancel and status (lines 398-439) *)

(** X14. A cancel request for an unknown job answers 404 and changes
    nothing.  For a known job it always answers ok, whatever the status of
    the job; it sets the flag and logs the request on that job, and leaves
    every other field of it, and every other job, as they are. *)
Theorem cancel_job_touches_one_job (JOBS : Jobs) (id : string) :
  match JOBS !! id with
  | None => cancel_job JOBS id = (JOBS, HTTPException 404 "Job not found")
  | Some j =>
      exists j', cancel_job JOBS id = (<[id := j']> JOBS, Response true) /\
        cancel_requested j' = true /\
        outcome j' = outcome j /\
        last (log j') = Some LogCancelByUser /\
        (job_id j', job_dir j', input_dir j', output_dir j')
        = (job_id j, job_dir j, input_dir j, output_dir j) /\
        forall id', id' <> id -> (cancel_job JOBS id).1 !! id' = JOBS !! id'
  end.
Proof.
  unfold cancel_job. destruct (JOBS !! id) as [j |] eqn:Hj; [| done].
  exists (request_cancel j). split; [done |]. unfold request_cancel.
  split; [done |]. split; [done |]. split; [apply job_log_last |]. split; [done |].
  intros id' Hne. cbn [fst]. by rewrite lookup_insert_ne.
Qed.

Lemma cancel_job_touches_one_job_witness :
  (cancel_job {[ "j1" := new_job ["jobs"] "j1"; "j2" := new_job ["jobs"] "j2" ]} "j1").1
    !! "j2"
  = ({[ "j1" := new_job ["jobs"] "j1"; "j2" := new_job ["jobs"] "j2" ]} : Jobs) !! "j2".
Proof.
  pose proof (cancel_job_touches_one_job
                {[ "j1" := new_job ["jobs"] "j1"; "j2" := new_job ["jobs"] "j2" ]} "j1") as H.
  rewrite lookup_insert_eq in H. destruct H as (j' & _ & _ & _ & _ & _ & H).
  apply H. discriminate.
Defined.

(** X15. The status operation answers 404 for an unknown job; for a
    known one it reports the fields of the record as they are, the last 40
    lines of the log (all of them when there are fewer), and the download
    links exactly when the status is done. *)
Theorem get_job_snapshot (JOBS : Jobs) (id : string) :
  match JOBS !! id with
  | None => get_job JOBS id = HTTPException 404 "Job not found"
  | Some j =>
      exists snap, get_job JOBS id = Response snap /\
        (snap_job_id snap, snap_status snap, snap_progress_pct snap, snap_message snap,
         snap_error snap, snap_processed_pages snap, snap_total_pages snap)
        = (job_id j, status j, progress_pct j, message j, error j, processed_pages j,
           total_pages j) /\
        snap_log_tail snap `suffix_of` log j /\
        length (snap_log_tail snap) = (length (log j) `min` 40)%nat /\
        (is_Some (snap_downloads snap) <-> status j = "done")
  end.
Proof.
  unfold get_job. destruct (JOBS !! id) as [j |]; [| done].
  eexists. split; [reflexivity |]. cbn [snap_job_id snap_status snap_progress_pct
    snap_message snap_error snap_processed_pages snap_total_pages snap_log_tail
    snap_downloads].
  split; [done |]. split; [apply suffix_drop |]. split; [rewrite length_drop; lia |].
  case_bool_decide; split; try done; try (by eexists); by intros [? ?].
Qed.

Lemma get_job_snapshot_witness :
  exists snap, get_job {[ "j1" := new_job ["jobs"] "j1" ]} "j1" = Response snap /\
    (is_Some (snap_downloads snap) <-> status (new_job ["jobs"] "j1") = "done").
Proof.
  pose proof (get_job_snapshot {[ "j1" := new_job ["jobs"] "j1" ]} "j1") as H.
  rewrite lookup_singleton_eq in H. destruct H as (snap & H1 & _ & _ & _ & H2).
  exists snap. split; [exact H1 | exact H2].
Defined.

(** ** The archive filters (lines 316-323) *)

Lemma page_name_not_word (n : nat) (w : string) :
  w ∈ ["receipts"; "stamped"; "unstamped"; "credit_notes"] ->
  "page_" +:+ pretty n +:+ ".png" <> w.
Proof.
  rewrite !elem_of_cons, elem_of_nil.
  intros [-> | [-> | [-> | [-> | []]]]]; cbn; discriminate.
Qed.

(** X16. The three filters test for path components anywhere in the
    absolute path.  When neither the job's output directory nor the
    document's stem has a component named receipts, stamped, unstamped or
    credit_notes, a filed image passes exactly the filter of its own
    category, so the three category archives are disjoint. *)
Theorem category_archives_partition (out : path) (d : Pdf) (r : Row) :
  (forall w, w ∈ ["receipts"; "stamped"; "unstamped"; "credit_notes"] ->
             (w ∉ out) /\ w <> pdf_stem d) ->
  let p := row_image out d r in
  is_unstamped p = is_receipt r && negb (has_stamp r) /\
  is_stamped p = is_receipt r && has_stamp r /\
  is_credit p = negb (is_receipt r).
Proof.
  intros Hw. cbv zeta.
  assert (Hin : forall w, w ∈ ["receipts"; "stamped"; "unstamped"; "credit_notes"] ->
                (w ∈ row_image out d r <-> w ∈ (filing (is_receipt r) (has_stamp r)).1)).
  { intros w Hwin. destruct (Hw w Hwin) as [Ho Hs].
    pose proof (page_name_not_word (page r) w Hwin) as Hn.
    unfold row_image, row_arcname.
    rewrite !elem_of_app, elem_of_cons, list_elem_of_singleton.
    split; [| tauto]. intros [? | [[? | ?] | ?]]; congruence. }
  unfold is_unstamped, is_stamped, is_credit.
  assert (H1 : "receipts" ∈ ["receipts"; "stamped"; "unstamped"; "credit_notes"])
    by (rewrite !elem_of_cons; tauto).
  assert (H2 : "stamped" ∈ ["receipts"; "stamped"; "unstamped"; "credit_notes"])
    by (rewrite !elem_of_cons; tauto).
  assert (H3 : "unstamped" ∈ ["receipts"; "stamped"; "unstamped"; "credit_notes"])
    by (rewrite !elem_of_cons; tauto).
  assert (H4 : "credit_notes" ∈ ["receipts"; "stamped"; "unstamped"; "credit_notes"])
    by (rewrite !elem_of_cons; tauto).
  rewrite !(bool_decide_ext _ _ (Hin _ H1)), !(bool_decide_ext _ _ (Hin _ H2)),
    !(bool_decide_ext _ _ (Hin _ H3)), !(bool_decide_ext _ _ (Hin _ H4)).
  unfold filing. by destruct (is_receipt r), (has_stamp r).
Qed.

Lemma category_archives_partition_witness :
  is_stamped (row_image ["jobs"; "j1"; "output"] Sample.a_pdf
                (mkRow "a.pdf" 1 "UNSTAMPED_RECEIPT" true false JNull JNull))
  = true && false.
Proof.
  refine (proj1 (proj2 (category_archives_partition ["jobs"; "j1"; "output"] Sample.a_pdf
            (mkRow "a.pdf" 1 "UNSTAMPED_RECEIPT" true false JNull JNull) _))).
  intros w Hw. split.
  - intros Hin. revert Hw. rewrite !elem_of_cons, elem_of_nil in *.
    intros [-> | [-> | [-> | [-> | []]]]]; intuition discriminate.
  - revert Hw. rewrite !elem_of_cons, elem_of_nil.
    intros [-> | [-> | [-> | [-> | []]]]]; discriminate.
Defined.

(** X17. Without that condition the archives overlap: when the output
    directory or the stem of a document has a component named stamped
    (a document uploaded as stamped.pdf), every receipt image of the
    document passes [is_stamped], the unstamped ones too. *)
Theorem stamped_component_overlaps (out : path) (d : Pdf) (r : Row) :
  "stamped" ∈ out </> pdf_stem d ->
  is_receipt r = true ->
  is_stamped (row_image out d r) = true /\
  (has_stamp r = false -> is_unstamped (row_image out d r) = true).
Proof.
  intros Hs Hr. unfold is_stamped, is_unstamped, row_image, row_arcname, filing, pjoin in *.
  rewrite Hr. rewrite elem_of_app, list_elem_of_singleton in Hs.
  split; [| intros ->]; rewrite andb_true_iff, !bool_decide_eq_true;
    destruct (has_stamp r); cbn [fst]; rewrite !elem_of_app, !elem_of_cons; tauto.
Qed.

Lemma stamped_component_overlaps_witness :
  is_stamped (row_image ["jobs"; "j1"; "output"]
                (Sample.one_page "stamped.pdf" "stamped"
                   (Sample.page_of 1 Sample.unstamped_receipt))
                (mkRow "stamped.pdf" 1 "UNSTAMPED_RECEIPT" true false JNull JNull))
  = true.
Proof.
  refine (proj1 (stamped_component_overlaps ["jobs"; "j1"; "output"]
            (Sample.one_page "stamped.pdf" "stamped"
               (Sample.page_of 1 Sample.unstamped_receipt))
            (mkRow "stamped.pdf" 1 "UNSTAMPED_RECEIPT" true false JNull JNull) _ _)).
  - unfold pjoin. apply elem_of_app. right. apply list_elem_of_singleton. reflexivity.
  - reflexivity.
Defined.

(** ** The single-script variant as a whole (classifier.py, lines 70-152) *)

Lemma script_page_step_rows (pdf_file : Pdf) (i : nat) (pg : Page)
    (s : FS * list ScriptDocs.SRow) :
  (ScriptDocs.page_step pdf_file i pg s).2
  = (s.2 ++ match ScriptDocs.page_row pdf_file i pg with
            | Some r => [r]
            | None => []
            end)%list.
Proof.
  unfold ScriptDocs.page_step, ScriptDocs.page_row.
  destruct (Script.get_groq_analysis pg) as [a |]; [| by rewrite app_nil_r].
  destruct (size a =? 0)%nat; [by rewrite app_nil_r |].
  by destruct (Script.filing _ _).
Qed.

Lemma script_page_loop_rows (pdf_file : Pdf) (pages : list Page) (i : nat)
    (s : FS * list ScriptDocs.SRow) :
  (ScriptDocs.page_loop pdf_file i pages s).2
  = (s.2 ++ ScriptDocs.rows_from pdf_file i pages)%list.
Proof.
  revert i s. induction pages as [| pg pages IH]; intros i s;
    cbn [ScriptDocs.page_loop ScriptDocs.rows_from]; [by rewrite app_nil_r |].
  rewrite IH, script_page_step_rows.
  destruct (ScriptDocs.page_row pdf_file i pg); by rewrite <- (assoc_L (++)).
Qed.

Lemma script_doc_step_rows (s : FS * list ScriptDocs.SRow) (pdf_file : Pdf) :
  (ScriptDocs.doc_step s pdf_file).2 = (s.2 ++ ScriptDocs.doc_rows pdf_file)%list.
Proof.
  unfold ScriptDocs.doc_step, ScriptDocs.doc_rows.
  destruct (rendered pdf_file) as [pages | e]; [| by rewrite app_nil_r].
  cbv zeta. destruct (_ !! _); cbn [snd]; apply script_page_loop_rows.
Qed.

Lemma script_rows_foldl (docs : list Pdf) (s : FS * list ScriptDocs.SRow) :
  (foldl ScriptDocs.doc_step s docs).2
  = (s.2 ++ mjoin (ScriptDocs.doc_rows <$> docs))%list.
Proof.
  revert s. induction docs as [| d docs IH]; intros s; cbn [foldl fmap list_fmap mjoin list_join].
  - by rewrite app_nil_r.
  - rewrite IH, script_doc_step_rows. by rewrite <- (assoc_L (++)).
Qed.

Lemma script_rows_from_labels (pdf_file : Pdf) (pages : list Page) (i : nat) :
  Forall (fun r => ScriptDocs.srow_source_pdf r = pdf_name pdf_file /\
                   (i < ScriptDocs.srow_page r <= i + length pages)%nat /\
                   ScriptDocs.srow_status r
                   = (Script.filing (ScriptDocs.srow_is_receipt r)
                                    (ScriptDocs.srow_has_stamp r)).2)
         (ScriptDocs.rows_from pdf_file i pages).
Proof.
  revert i. induction pages as [| pg pages IH]; intros i; cbn [ScriptDocs.rows_from length];
    [apply Forall_nil_2 |].
  assert (Hrest : Forall (fun r => ScriptDocs.srow_source_pdf r = pdf_name pdf_file /\
                   (i < ScriptDocs.srow_page r <= i + S (length pages))%nat /\
                   ScriptDocs.srow_status r
                   = (Script.filing (ScriptDocs.srow_is_receipt r)
                                    (ScriptDocs.srow_has_stamp r)).2)
                         (ScriptDocs.rows_from pdf_file (S i) pages)).
  { eapply Forall_impl; [apply IH |]. intros r (? & ? & ?). repeat split; try done; lia. }
  destruct (ScriptDocs.page_row pdf_file i pg) as [r |] eqn:Hr; [| done].
  apply Forall_cons_2; [| done].
  unfold ScriptDocs.page_row in Hr.
  destruct (Script.get_groq_analysis pg) as [a |]; [| done].
  destruct (size a =? 0)%nat; [done |]. simplify_eq. cbn. repeat split; try done; lia.
Qed.

(** X18. The rows of the script are, document by document in the order
    of the walk, one row for each page with a truthy verdict of each
    document that renders: a document that fails to render, or whose
    source cannot be moved, takes no row away from the others.  Each row
    carries the name of its document, the number of its page and the
    label the script's filing logic pairs with its two raw flags; the CSV
    is written exactly when there is a row. *)
Theorem script_rows_by_document (docs : list Pdf) (t : FS) :
  let rows := (ScriptDocs.process_docs docs t).1.2 in
  rows = mjoin (ScriptDocs.doc_rows <$> docs) /\
  (ScriptDocs.process_docs docs t).2
  = match rows with [] => None | _ => Some (csv_headers, rows) end /\
  Forall (fun r => exists d, d ∈ docs /\
                   ScriptDocs.srow_source_pdf r = pdf_name d /\
                   (1 <= ScriptDocs.srow_page r)%nat /\
                   ScriptDocs.srow_status r
                   = (Script.filing (ScriptDocs.srow_is_receipt r)
                                    (ScriptDocs.srow_has_stamp r)).2) rows.
Proof.
  cbv zeta. unfold ScriptDocs.process_docs. cbn [fst snd].
  rewrite script_rows_foldl. cbn [snd app].
  split; [done |]. split; [by destruct (mjoin _) |].
  apply Forall_forall. intros r Hr.
  apply list_elem_of_join in Hr as (l & Hr & Hl).
  apply list_elem_of_fmap in Hl as (d & -> & Hd).
  exists d. split; [done |]. unfold ScriptDocs.doc_rows in Hr.
  destruct (rendered d) as [pages | e]; [| by apply elem_of_nil in Hr].
  pose proof (script_rows_from_labels d pages 0) as Hall.
  rewrite Forall_forall in Hall. destruct (Hall r Hr) as (? & ? & ?).
  repeat split; try done; lia.
Qed.

(** X19. A document that does not render is skipped by its own
    handler: the walk ends with the same files, rows and CSV as the walk
    without that document. *)
Theorem script_failed_document_skipped
    (before after : list Pdf) (d : Pdf) (e : exn) (t : FS) :
  rendered d = Raise e ->
  ScriptDocs.process_docs (before ++ d :: after) t
  = ScriptDocs.process_docs (before ++ after) t.
Proof.
  intros Hr. unfold ScriptDocs.process_docs. rewrite !foldl_app. cbn [foldl].
  assert (Hskip : forall s, ScriptDocs.doc_step s d = s)
    by (intros s; unfold ScriptDocs.doc_step; by rewrite Hr).
  by rewrite Hskip.
Qed.

Lemma script_failed_document_skipped_witness :
  ScriptDocs.process_docs
    ([Sample.a_pdf] ++ mkPdf "x.pdf" "x" (Ok 1) (Raise (Exn "PDFPageCountError" "bad")) :: [])
    ∅
  = ScriptDocs.process_docs ([Sample.a_pdf] ++ []) ∅.
Proof.
  apply (script_failed_document_skipped [Sample.a_pdf] []
           (mkPdf "x.pdf" "x" (Ok 1) (Raise (Exn "PDFPageCountError" "bad")))
           (Exn "PDFPageCountError" "bad") ∅).
  reflexivity.
Defined.

(** ** A job on which nothing fails *)








(** Below the page limit the progress line stores a percentage or
    leaves the state as it is; it never raises. *)
Lemma update_progress_frame (s : State) :
  0 <= processed_pages (job s) < page_limit ->
  exists n, update_progress s = (Ok tt, with_progress n s).
Proof.
  intros Hp. unfold update_progress, mbind, M_bind, read_job, lift, modify_job, mret, M_ret.
  cbv beta iota.
  destruct (Z.ltb_spec 0 (total_pages (job s))) as [Ht | Ht].
  - destruct (int_truediv_finite (processed_pages (job s)) (total_pages (job s)))
      as (neg & m & e & ->); [unfold page_limit in Hp; lia | lia |].
    destruct (mul_int_100 (FFin neg m e)) as (x & -> & Hx); [done |].
    destruct (safe_pct_defined (PFloat x)) as (n & -> & Hn); [congruence |].
    by exists n.
  - exists (progress_pct (job s)). by destruct s as [[] ? ?].
Qed.





Ltac progress_ok :=
  match goal with
  | |- context [update_progress ?s0] =>
      let n := fresh "n" in
      let H := fresh "H" in
      destruct (update_progress_frame s0) as [n H];
      [cbn [job]; proj; lia | rewrite H; clear H]
  end.









(** ** The counters and the rows only grow *)

Lemma grown_refl (s : State) : grown s s.
Proof. unfold grown. repeat split; [lia | lia | done]. Qed.

Lemma grown_trans (s1 s2 s3 : State) : grown s1 s2 -> grown s2 s3 -> grown s1 s3.
Proof.
  unfold grown. intros (? & ? & ?) (? & ? & ?).
  repeat split; [lia | lia | by etrans].
Qed.

Ltac grown_goal :=
  unfold grown; cbn [job all_rows]; proj;
  repeat match goal with
         | |- context [if 0 <? ?x then _ else _] => destruct (Z.ltb_spec 0 x)
         end;
  (split; [lia |]); (split; [lia |]); try done; try (by apply prefix_app_r); try apply prefix_nil.

Lemma block_grown (env : Env) (c : Config) :
  unstarted c -> grown (st c) (block env (pc c) (st c)).2.
Proof.
  destruct c as [[j t rows] p]. unfold unstarted. cbn [st pc job all_rows].
  destruct p as [docs | [| d docs] | d pages i rest | d pages i pg rest |];
    cbn [block]; intros Hu.
  - destruct Hu as [-> Hz]. exec_block; grown_goal.
  - exec_block; grown_goal.
  - exec_block; grown_goal.
  - destruct (pages !! i); exec_block; grown_goal.
  - page_cases env pg; exec_block; grown_goal.
  - apply grown_refl.
Qed.

Lemma step_grown (env : Env) (c : Config) : unstarted c -> grown (st c) (st (step env c)).
Proof.
  intros Hu. pose proof (block_grown env c Hu) as Hb. unfold step.
  destruct (block env (pc c) (st c)) as [[p' | e] s']; cbn [snd st] in *; [done |].
  eapply grown_trans; [exact Hb |].
  destruct (except_block_frame e s') as (_ & Hr & Hp & Ht & _).
  unfold grown. rewrite Hr, Hp, Ht. repeat split; [lia | lia | done].
Qed.

Lemma run_unstarted (env : Env) (jobs_dir : path) (id : string) (docs : list Pdf)
    (evs : list event) :
  unstarted (run env (start_process jobs_dir id docs) evs).
Proof.
  apply run_invariant; [done |].
  intros c [] Hc; cbn [apply_event].
  - unfold unstarted. pose proof (step_pc_not_queued env c) as Hq.
    destruct (pc (step env c)) as [ds | | | |]; [by destruct (Hq ds) | done ..].
  - destruct c as [[j t rows] p]. exact Hc.
Qed.

(** X21. Along every history [processed_pages] and [total_pages] never
    decrease, and [all_rows] only gets rows appended: what a poll has
    seen counted stays counted, and a row once written is never changed
    or dropped. *)
Theorem counters_only_grow
    (env : Env) (jobs_dir : path) (id : string) (docs : list Pdf) (evs more : list event) :
  let c := run env (start_process jobs_dir id docs) evs in
  let c' := run env (start_process jobs_dir id docs) (evs ++ more) in
  processed_pages (job (st c)) <= processed_pages (job (st c')) /\
  total_pages (job (st c)) <= total_pages (job (st c')) /\
  all_rows (st c) `prefix_of` all_rows (st c').
Proof.
  cbv zeta. change (grown (st (run env (start_process jobs_dir id docs) evs))
                          (st (run env (start_process jobs_dir id docs) (evs ++ more)))).
  induction more as [| ev more IH] using rev_ind.
  - rewrite app_nil_r. apply grown_refl.
  - rewrite (assoc_L (++)), run_snoc. eapply grown_trans; [exact IH |].
    destruct ev; cbn [apply_event].
    + apply step_grown, run_unstarted.
    + unfold grown. cbn [st job all_rows]. unfold request_cancel. proj.
      repeat split; [lia | lia | done].
Qed.

(** ** Where the source documents end up (lines 290-292) *)

Ltac paths_differ :=
  let H := fresh in
  intros H; unfold pjoin in H; rewrite <- ?(assoc_L (++)) in H; cbn [app] in H;
  first [ apply app_inv_head in H; discriminate H
        | apply (f_equal length) in H; rewrite ?length_app in H; cbn [length] in H; lia ].

Lemma NoDup_fmap_inj {A B : Type} (f : A -> B) (l : list A) (x y : A) :
  NoDup (f <$> l) -> x ∈ l -> y ∈ l -> f x = f y -> x = y.
Proof.
  induction l as [| a l IH]; [by intros _ ?%elem_of_nil |].
  rewrite fmap_cons, NoDup_cons, !elem_of_cons.
  intros [Ha Hl] [-> | Hx] [-> | Hy] Hf; [done | | | by apply IH].
  - destruct Ha. rewrite Hf. by apply list_elem_of_fmap_2.
  - destruct Ha. rewrite <- Hf. by apply list_elem_of_fmap_2.
Qed.




Lemma start_moved (jobs_dir : path) (id : string) (docs : list Pdf) :
  NoDup (pdf_name <$> docs) -> moved docs (start_process jobs_dir id docs).
Proof.
  intros Hnd. unfold moved, start_process. cbn [st pc job fs pending].
  cbn [new_job input_dir output_dir].
  split; [done |]. split; [| by intros d ? ?].
  intros d Hd. apply elem_of_list_to_map_1.
  - rewrite <- list_fmap_compose.
    assert (Hkeys : (fst ∘ (fun d0 => (jobs_dir </> id </> "input" </> pdf_name d0,
                                       PdfDoc (pdf_name d0)))) <$> docs
                    = (fun n => jobs_dir </> id </> "input" </> n) <$> (pdf_name <$> docs))
      by (by rewrite <- list_fmap_compose).
    rewrite Hkeys. apply NoDup_fmap_2; [| done].
    intros x y Hxy. unfold pjoin in Hxy. by apply app_inj_tail in Hxy as [_ [= ->]].
  - apply list_elem_of_fmap. by exists d.
Qed.




(** ** The fields that go with a status *)







(** ** No source document is lost *)

Lemma kept_insert (t : FS) (inp out : path) (docs : list Pdf) (p : path) (f : file) :
  (forall d, p <> inp </> pdf_name d) ->
  (forall d, p <> out </> pdf_stem d </> pdf_name d) ->
  Forall (kept t inp out) docs -> Forall (kept (<[p := f]> t) inp out) docs.
Proof.
  intros Hi Ho Hk. eapply Forall_impl; [exact Hk |]. intros d. unfold kept.
  rewrite !lookup_insert_ne by (apply Hi || apply Ho). done.
Qed.

Lemma kept_move (t : FS) (dir : path) (docs : list Pdf) (d : Pdf) (f : file) :
  NoDup (pdf_name <$> docs) -> d ∈ docs ->
  t !! (dir </> "input" </> pdf_name d) = Some f ->
  Forall (kept t (dir </> "input") (dir </> "output")) docs ->
  Forall (kept (<[dir </> "output" </> pdf_stem d </> pdf_name d := f]>
                  (delete (dir </> "input" </> pdf_name d) t))
               (dir </> "input") (dir </> "output")) docs.
Proof.
  intros Hnd Hd Hf Hk. rewrite Forall_forall in *. intros d' Hd'.
  specialize (Hk d' Hd'). unfold kept in *.
  destruct (decide (pdf_name d' = pdf_name d)) as [Heq | Hne].
  - assert (d' = d) as -> by (by apply (NoDup_fmap_inj pdf_name docs)).
    right. rewrite lookup_insert_ne by paths_differ.
    rewrite lookup_delete_eq, lookup_insert_eq. split; [done |].
    destruct Hk as [Hk | [Hk _]]; congruence.
  - assert (Hsrc : dir </> "input" </> pdf_name d <> dir </> "input" </> pdf_name d').
    { unfold pjoin. intros H. apply app_inj_tail in H as [_ H]. congruence. }
    assert (Hdst : dir </> "output" </> pdf_stem d </> pdf_name d
                   <> dir </> "output" </> pdf_stem d' </> pdf_name d').
    { unfold pjoin. intros H. apply app_inj_tail in H as [_ H]. congruence. }
    rewrite !(lookup_insert_ne _ _ (dir </> "input" </> pdf_name d')) by paths_differ.
    rewrite (lookup_insert_ne _ _ (dir </> "output" </> pdf_stem d' </> pdf_name d')) by done.
    rewrite !(lookup_delete_ne _ _ (dir </> "input" </> pdf_name d')) by done.
    rewrite (lookup_delete_ne _ _ (dir </> "output" </> pdf_stem d' </> pdf_name d'))
      by paths_differ.
    done.
Qed.

Ltac keep_docs :=
  repeat first
    [ assumption
    | (apply kept_insert; [intros ?; paths_differ | intros ?; paths_differ |]) ].

Lemma block_kept (docs : list Pdf) (env : Env) (c : Config) :
  NoDup (pdf_name <$> docs) ->
  pending (pc c) ⊆ docs ->
  input_dir (job (st c)) = job_dir (job (st c)) </> "input" ->
  output_dir (job (st c)) = job_dir (job (st c)) </> "output" ->
  Forall (kept (fs (st c)) (input_dir (job (st c))) (output_dir (job (st c)))) docs ->
  Forall (kept (fs (block env (pc c) (st c)).2)
               (input_dir (job (st c))) (output_dir (job (st c)))) docs.
Proof.
  intros Hnd. destruct c as [[j t rows] p]. cbn [st pc job fs].
  intros Hsub Hin Hout. rewrite Hin, Hout. intros Hk.
  destruct p as [ds | [| d ds] | d pages i rest | d pages i pg rest |];
    cbn [block pending] in *.
  - exec_block; keep_docs.
  - exec_block; rewrite ?Hin, ?Hout; keep_docs.
  - exec_block; keep_docs.
  - destruct (pages !! i) as [pg |] eqn:Hpg.
    + exec_block; keep_docs.
    + red_m. rewrite Hin. cbn [fs snd].
      destruct (t !! (job_dir j </> "input" </> pdf_name d)) as [f |] eqn:Hf; red_m;
        [| done].
      rewrite Hout. apply kept_move; try done. apply Hsub. by left.
  - page_cases env pg; exec_block; rewrite ?Hin, ?Hout; try done.
    all: apply kept_insert; [| | done]; intros ?;
      match goal with H : filing _ _ = _ |- _ =>
        unfold filing in H; repeat case_match; simplify_eq end;
      paths_differ.
  - done.
Qed.

(** X24. Whatever happens to a job (cancel requests, oracle failures,
    a document that does not render, an exception anywhere), no source
    document is lost: after every history each uploaded document, the
    names being distinct, is either still in the input directory, or it
    is gone from there and lies at [output/<stem>/<name>]. *)
Theorem no_document_lost
    (env : Env) (jobs_dir : path) (id : string) (docs : list Pdf) (evs : list event) :
  NoDup (pdf_name <$> docs) ->
  let c := run env (start_process jobs_dir id docs) evs in
  Forall (kept (fs (st c)) (jobs_dir </> id </> "input") (jobs_dir </> id </> "output")) docs.
Proof.
  intros Hnd. cbv zeta. induction evs as [| ev evs IH] using rev_ind.
  - pose proof (start_moved jobs_dir id docs Hnd) as (_ & Hsrc & _).
    apply Forall_forall. intros d Hd. left. by apply Hsrc.
  - rewrite run_snoc. destruct ev; cbn [apply_event]; [| exact IH].
    pose proof (run_rows_filed env jobs_dir id docs evs) as (Hin & Hout & Hsub & _).
    pose proof (run_dirs env jobs_dir id docs evs) as (_ & Hd & Hi & Ho).
    cbv zeta in Hd, Hi, Ho.
    pose proof (block_kept docs env _ Hnd Hsub Hin Hout) as Hb.
    rewrite Hi, Ho in Hb. specialize (Hb IH). unfold step.
    destruct (block env _ _) as [[p' | e] s']; cbn [snd st] in *; [exact Hb |].
    by destruct (except_block_frame e s') as (-> & _).
Qed.

Lemma no_document_lost_witness :
  Forall (kept (fs (st (run Sample.env (start_process ["jobs"] "j1" [Sample.a_pdf; Sample.b_pdf])
                          [Work; Work; Work; Work; Work; Cancel; Work])))
               (["jobs"] </> "j1" </> "input") (["jobs"] </> "j1" </> "output"))
         [Sample.a_pdf; Sample.b_pdf].
Proof.
  apply (no_document_lost Sample.env ["jobs"] "j1" [Sample.a_pdf; Sample.b_pdf]
           [Work; Work; Work; Work; Work; Cancel; Work]).
  cbn. apply NoDup_cons_2; [rewrite list_elem_of_singleton; discriminate |].
  apply NoDup_singleton.
Defined.

(** ** [total_pages] is set once (lines 194-197 and 222-224) *)

Lemma block_total_set_once (env : Env) (c : Config) :
  (forall ds, pc c <> Queued ds) -> 0 < total_pages (job (st c)) ->
  total_pages (job (block env (pc c) (st c)).2) = total_pages (job (st c)).
Proof.
  destruct c as [[j t rows] p]. cbn [st pc job]. intros Hnq Hpos.
  destruct p as [docs | [| d docs] | d pages i rest | d pages i pg rest |];
    cbn [block]; [by destruct (Hnq docs) | | | | | done].
  - by exec_block.
  - red_m. destruct (cancel_requested j); red_m; [done |].
    destruct (rendered d); red_m; [| done].
    destruct (Z.eqb_spec (total_pages j) 0); red_m; [lia | done].
  - destruct (pages !! i); by exec_block.
  - page_cases env pg; by exec_block.
Qed.

Lemma step_total_set_once (env : Env) (c : Config) :
  unstarted c -> 0 < total_pages (job (st c)) ->
  total_pages (job (st (step env c))) = total_pages (job (st c)).
Proof.
  intros Hu Hpos.
  assert (Hnq : forall ds, pc c <> Queued ds).
  { intros ds Hq. unfold unstarted in Hu. rewrite Hq in Hu. lia. }
  pose proof (block_total_set_once env c Hnq Hpos) as Hb. unfold step.
  destruct (block env (pc c) (st c)) as [[p' | e] s']; cbn [snd st] in *; [done |].
  by destruct (except_block_frame e s') as (_ & _ & _ & -> & _).
Qed.

(** X25. [total_pages] is set once: from the moment it is positive, no
    worker move and no cancel request changes it.  In particular, when
    the count was not known upfront, the page count of the first document
    with pages stays the total whatever the later documents hold. *)
Theorem total_pages_set_once
    (env : Env) (jobs_dir : path) (id : string) (docs : list Pdf) (evs more : list event) :
  let c := run env (start_process jobs_dir id docs) evs in
  let c' := run env (start_process jobs_dir id docs) (evs ++ more) in
  0 < total_pages (job (st c)) ->
  total_pages (job (st c')) = total_pages (job (st c)).
Proof.
  cbv zeta. intros Hpos. induction more as [| ev more IH] using rev_ind.
  - by rewrite app_nil_r.
  - rewrite (assoc_L (++)), run_snoc. destruct ev; cbn [apply_event]; [| exact IH].
    rewrite step_total_set_once; [exact IH | apply run_unstarted | by rewrite IH].
Qed.

Lemma total_pages_set_once_witness :
  total_pages (job (st (run Sample.env (start_process ["jobs"] "j1" [Sample.a_pdf; Sample.b_pdf])
                          ([Work; Work] ++ [Work; Work; Work; Work; Work; Work]))))
  = total_pages (job (st (run Sample.env
                            (start_process ["jobs"] "j1" [Sample.a_pdf; Sample.b_pdf])
                            [Work; Work]))).
Proof.
  apply (total_pages_set_once Sample.env ["jobs"] "j1" [Sample.a_pdf; Sample.b_pdf]
           [Work; Work] [Work; Work; Work; Work; Work; Work]).
  vm_compute. reflexivity.
Defined.

(** ** The progress formula at its ends *)

Lemma round_mag_one (n : Z) : 0 < n -> round_mag n n = Some (2 ^ 52, -52).
Proof.
  intros Hn. unfold round_mag.
  assert (Hb : binade n n = -52).
  { unfold binade, prec, emin. rewrite Z.sub_diag. cbn [Z.sub Z.opp Z.add Z.max Z.compare
      Z.pos_sub Pos.pred_double Z.succ_double Z.pred_double Z.double Pos.compare Pos.compare_cont].
    change (Z.max 0 (- (0 - (53 - 1)))) with 52. change (Z.max 0 (0 - (53 - 1))) with 0.
    change (53 - 1) with 52. change (0 - 52) with (-52).
    rewrite Z.pow_0_r, Z.mul_1_r, Z.ltb_irrefl. reflexivity. }
  rewrite Hb. cbv zeta. change (Z.max 0 (- -52)) with 52. change (Z.max 0 (-52)) with 0.
  rewrite Z.pow_0_r, Z.mul_1_r.
  rewrite (Z.mul_comm n (2 ^ 52)), Z.div_mul by lia. rewrite Z.mod_mul by lia.
  unfold round_half_even. change (2 * 0) with 0.
  destruct (Z.compare_spec 0 n) as [| _ |]; [lia | | lia].
  reflexivity.
Qed.

Lemma progress_formula_ends (t : Z) :
  0 < t -> progress_formula 0 t = Ok 0 /\ progress_formula t t = Ok 100.
Proof.
  intros Ht. unfold progress_formula, int_truediv.
  destruct (Z.eqb_spec t 0) as [| _]; [lia |].
  destruct (Z.ltb_spec t 0) as [| _]; [lia |].
  split; [reflexivity |].
  rewrite Z.abs_eq by lia. rewrite round_mag_one by done.
  cbn [xorb]. vm_compute. reflexivity.
Qed.

(** X26. The progress line is exact at both ends, for every positive
    [total_pages]: with nothing processed it stores 0, and with
    [processed_pages = total_pages] it stores 100 (in between the float
    arithmetic may fall one short, as 29 of 100 shows). *)
Theorem progress_exact_at_ends (s : State) :
  0 < total_pages (job s) ->
  (processed_pages (job s) = 0 -> update_progress s = (Ok tt, with_progress 0 s)) /\
  (processed_pages (job s) = total_pages (job s) ->
   update_progress s = (Ok tt, with_progress 100 s)).
Proof.
  intros Ht. destruct (progress_formula_ends _ Ht) as [H0 H100].
  split; intros Hp; rewrite update_progress_formula by done; rewrite Hp.
  - by rewrite H0.
  - by rewrite H100.
Qed.

Lemma progress_exact_at_ends_witness :
  update_progress
    {| job := set_total_pages 7 (set_processed_pages 7 (new_job ["jobs"] "j1"));
       fs := ∅; all_rows := [] |}
  = (Ok tt,
     with_progress 100
       {| job := set_total_pages 7 (set_processed_pages 7 (new_job ["jobs"] "j1"));
          fs := ∅; all_rows := [] |}).
Proof.
  refine (proj2 (progress_exact_at_ends
                   {| job := set_total_pages 7 (set_processed_pages 7 (new_job ["jobs"] "j1"));
                      fs := ∅; all_rows := [] |} _) _).
  - vm_compute. reflexivity.
  - reflexivity.
Defined.
